(** * Data slots of D-Bus: the slot allocator and the slot list

    A shallow embedding of [dbus/dbus-dataslot.c].  The C functions work on
    two objects reached through pointers, a [DBusDataSlotAllocator] and a
    [DBusDataSlotList]; the embedding threads both, together with the log of
    the calls made to application-provided free functions, through a small
    state-and-error monad.  A computation that has no result stands for an
    execution that C leaves undefined or that a [_dbus_assert] stops: an
    access outside an array, a signed overflow, a failed assertion. *)

From Stdlib Require Import ZArith Lia.
From stdpp Require Import base option list.

Local Open Scope Z_scope.

(** ** Machine integers and pointers *)

(** The C type [int], 32 bits wide and signed.  Arithmetic on it is written
    with its bounds: a result outside them is a signed overflow. *)
Module Int.

Definition min_signed : Z := -2147483648.
Definition max_signed : Z := 2147483647.
Definition in_range (x : Z) : bool :=
  (min_signed <=? x) && (x <=? max_signed).

End Int.

(** [void *] and function pointers are addresses; [NULL] is the null one. *)
Definition pointer : Type := Z.
Definition NULL : pointer := 0.
Definition DBusFreeFunction : Type := pointer.

(** A heap block holding an array: [None] is the [NULL] pointer, [Some l] a
    block whose cells are the elements of [l]. *)
Definition block (A : Type) : Type := option (list A).

(** ** The data structures *)

(** Modelled from the spec: the struct is declared in dbus-dataslot.h, which
    is not part of the sources; the fields are the ones dbus-dataslot.c uses,
    described in the data model of the specification (slots, allocatedCount,
    usedCount, lock). *)
Record DBusDataSlotAllocator : Type := {
  allocated_slots : block Z;
  n_allocated_slots : Z;
  n_used_slots : Z;
  lock : pointer
}.

(** Modelled from the spec: one entry of a slot list, a value and its
    optional destructor (declared in dbus-dataslot.h). *)
Record DBusDataSlot : Type := {
  data : pointer;
  free_data_func : DBusFreeFunction
}.

(** Modelled from the spec: the per-object list of entries and its length
    (declared in dbus-dataslot.h). *)
Record DBusDataSlotList : Type := {
  slots : block DBusDataSlot;
  n_slots : Z
}.

Definition set_allocated_slots (t : block Z) (a : DBusDataSlotAllocator) :=
  {| allocated_slots := t; n_allocated_slots := n_allocated_slots a;
     n_used_slots := n_used_slots a; lock := lock a |}.
Definition set_n_allocated_slots (n : Z) (a : DBusDataSlotAllocator) :=
  {| allocated_slots := allocated_slots a; n_allocated_slots := n;
     n_used_slots := n_used_slots a; lock := lock a |}.
Definition set_n_used_slots (n : Z) (a : DBusDataSlotAllocator) :=
  {| allocated_slots := allocated_slots a;
     n_allocated_slots := n_allocated_slots a;
     n_used_slots := n; lock := lock a |}.
Definition set_lock (p : pointer) (a : DBusDataSlotAllocator) :=
  {| allocated_slots := allocated_slots a;
     n_allocated_slots := n_allocated_slots a;
     n_used_slots := n_used_slots a; lock := p |}.

Definition set_data (p : pointer) (s : DBusDataSlot) :=
  {| data := p; free_data_func := free_data_func s |}.
Definition set_free_data_func (f : DBusFreeFunction) (s : DBusDataSlot) :=
  {| data := data s; free_data_func := f |}.

Definition set_slots (b : block DBusDataSlot) (l : DBusDataSlotList) :=
  {| slots := b; n_slots := n_slots l |}.
Definition set_n_slots (n : Z) (l : DBusDataSlotList) :=
  {| slots := slots l; n_slots := n |}.

(** ** The state the functions run in *)

(** The allocator and the list the pointer arguments designate, and the
    calls made so far to free functions, oldest first, each with the
    function called and its argument. *)
Record world : Type := {
  the_allocator : DBusDataSlotAllocator;
  the_list : DBusDataSlotList;
  calls : list (DBusFreeFunction * pointer)
}.

Definition set_the_allocator (a : DBusDataSlotAllocator) (w : world) :=
  {| the_allocator := a; the_list := the_list w; calls := calls w |}.
Definition set_the_list (l : DBusDataSlotList) (w : world) :=
  {| the_allocator := the_allocator w; the_list := l; calls := calls w |}.
Definition set_calls (c : list (DBusFreeFunction * pointer)) (w : world) :=
  {| the_allocator := the_allocator w; the_list := the_list w; calls := c |}.

(** A computation either stops without a result or returns a value and the
    world it leaves. *)
Definition exec (A : Type) : Type := world → option (A * world).

#[global] Instance exec_ret : MRet exec := λ A x w, Some (x, w).
#[global] Instance exec_bind : MBind exec := λ A B f m w,
  match m w with
  | Some (x, w') => f x w'
  | None => None
  end.

Definition abort {A : Type} : exec A := λ _, None.

Definition _dbus_assert (condition : bool) : exec unit :=
  if condition then mret tt else abort.

Definition read_allocator : exec DBusDataSlotAllocator :=
  λ w, Some (the_allocator w, w).
Definition write_allocator (a : DBusDataSlotAllocator) : exec unit :=
  λ w, Some (tt, set_the_allocator a w).
Definition read_list : exec DBusDataSlotList :=
  λ w, Some (the_list w, w).
Definition write_list (l : DBusDataSlotList) : exec unit :=
  λ w, Some (tt, set_the_list l w).

(** The call of an application-provided free function [f] on [p].  The
    callee is foreign code; the call is recorded, and the callee is taken
    not to touch the allocator or the list. *)
Definition call_free_function (f : DBusFreeFunction) (p : pointer) : exec unit :=
  λ w, Some (tt, set_calls (calls w ++ [(f, p)]) w).

(** [x + y] and [x - y] on [int]. *)
Definition int_add (x y : Z) : exec Z :=
  if Int.in_range (x + y) then mret (x + y) else abort.
Definition int_sub (x y : Z) : exec Z :=
  if Int.in_range (x - y) then mret (x - y) else abort.

(** [b[i]] read and written. *)
Definition load {A : Type} (b : block A) (i : Z) : exec A :=
  match b with
  | Some l =>
      if 0 <=? i then
        match l !! Z.to_nat i with
        | Some v => mret v
        | None => abort
        end
      else abort
  | None => abort
  end.

Definition store {A : Type} (b : block A) (i : Z) (v : A) : exec (block A) :=
  match b with
  | Some l =>
      if (0 <=? i) && (i <? Z.of_nat (length l))
      then mret (Some (<[Z.to_nat i := v]> l))
      else abort
  | None => abort
  end.

(** ** The hosting environment *)

(** What a call of [dbus_realloc] does is decided by the environment: it
    fails, or it succeeds and the cells beyond the old block hold whatever
    the memory held, [junk i] at index [i]. *)
Inductive realloc_result (A : Type) : Type :=
  | OutOfMemory
  | Resized (junk : nat → A).
Arguments OutOfMemory {A}.
Arguments Resized {A} junk.

Definition resize {A : Type} (junk : nat → A) (l : list A) (n : nat) : list A :=
  take n l ++ (junk <$> seq (length l) (n - length l)).

(** Modelled from the spec: [dbus_realloc] is defined in dbus-memory.c, not
    part of the sources.  It is the "dynamic-memory reallocation primitive
    that reports failure rather than aborting": on failure it returns [NULL]
    and leaves the old block as it is; on success the new block has [n]
    cells and starts with the old contents.  [n] is the number of cells, the
    byte count of the source divided by the size of a cell; a request for no
    cell at all is not made by this file and has no result here. *)
Definition dbus_realloc {A : Type} (r : realloc_result A)
    (memory : block A) (n : Z) : exec (block A) :=
  if n <=? 0 then abort
  else match r with
       | OutOfMemory => mret None
       | Resized junk => mret (Some (resize junk (default [] memory) (Z.to_nat n)))
       end.

(** ** The slot allocator *)

(** [_dbus_data_slot_allocator_init]: [new_lock] is what [dbus_mutex_new]
    returned. *)
Definition _dbus_data_slot_allocator_init (new_lock : pointer) : exec bool :=
  a ← read_allocator;
  write_allocator (set_allocated_slots None a);;
  a ← read_allocator;
  write_allocator (set_n_allocated_slots 0 a);;
  a ← read_allocator;
  write_allocator (set_n_used_slots 0 a);;
  a ← read_allocator;
  write_allocator (set_lock new_lock a);;
  a ← read_allocator;
  if lock a =? NULL then mret false else mret true.

(** The loop of the first branch of [_dbus_data_slot_allocator_alloc],
    entered with [slot = 0]; the result is the value of [slot] when the loop
    ends.  [fuel] bounds the number of iterations. *)
Fixpoint alloc_scan (fuel : nat) (slot : Z) : exec Z :=
  a ← read_allocator;
  if slot <? n_allocated_slots a then
    match fuel with
    | O => abort
    | S fuel' =>
        v ← load (allocated_slots a) slot;
        if v <? 0 then
          t ← store (allocated_slots a) slot slot;
          write_allocator (set_allocated_slots t a);;
          a ← read_allocator;
          n ← int_add (n_used_slots a) 1;
          write_allocator (set_n_used_slots n a);;
          mret slot
        else
          slot' ← int_add slot 1;
          alloc_scan fuel' slot'
    end
  else mret slot.

(** [_dbus_data_slot_allocator_alloc]: [locked] is what [dbus_mutex_lock]
    returned, [grow] what [dbus_realloc] does if it is called. *)
Definition _dbus_data_slot_allocator_alloc
    (locked : bool) (grow : realloc_result Z) : exec Z :=
  if negb locked then mret (-1)
  else
    a ← read_allocator;
    if n_used_slots a <? n_allocated_slots a then
      slot ← alloc_scan (Z.to_nat (n_allocated_slots a)) 0;
      a ← read_allocator;
      _dbus_assert (slot <? n_allocated_slots a);;
      _dbus_assert (0 <=? slot);;
      _dbus_assert (slot <? n_allocated_slots a);;
      mret slot
    else
      n ← int_add (n_allocated_slots a) 1;
      tmp ← dbus_realloc grow (allocated_slots a) n;
      match tmp with
      | None => mret (-1)
      | Some _ =>
          write_allocator (set_allocated_slots tmp a);;
          a ← read_allocator;
          let slot := n_allocated_slots a in
          n ← int_add (n_allocated_slots a) 1;
          write_allocator (set_n_allocated_slots n a);;
          a ← read_allocator;
          n ← int_add (n_used_slots a) 1;
          write_allocator (set_n_used_slots n a);;
          a ← read_allocator;
          t ← store (allocated_slots a) slot slot;
          write_allocator (set_allocated_slots t a);;
          a ← read_allocator;
          _dbus_assert (0 <=? slot);;
          _dbus_assert (slot <? n_allocated_slots a);;
          mret slot
      end.

(** [_dbus_data_slot_allocator_free]; the result of [dbus_mutex_lock] is not
    looked at by the source. *)
Definition _dbus_data_slot_allocator_free (slot : Z) : exec unit :=
  a ← read_allocator;
  _dbus_assert (slot <? n_allocated_slots a);;
  v ← load (allocated_slots a) slot;
  _dbus_assert (v =? slot);;
  t ← store (allocated_slots a) slot (-1);
  write_allocator (set_allocated_slots t a);;
  a ← read_allocator;
  n ← int_sub (n_used_slots a) 1;
  write_allocator (set_n_used_slots n a);;
  a ← read_allocator;
  if n_used_slots a =? 0 then
    (* dbus_free (allocator->allocated_slots) *)
    write_allocator (set_allocated_slots None a);;
    a ← read_allocator;
    write_allocator (set_n_allocated_slots 0 a)
  else mret tt.

(** ** The slot list *)

Definition _dbus_data_slot_list_init : exec unit :=
  l ← read_list;
  write_list (set_slots None l);;
  l ← read_list;
  write_list (set_n_slots 0 l).

(** [list->slots[i].data = p] and [list->slots[i].free_data_func = f]. *)
Definition assign_data (i : Z) (p : pointer) : exec unit :=
  l ← read_list;
  s ← load (slots l) i;
  b ← store (slots l) i (set_data p s);
  write_list (set_slots b l).

Definition assign_free_data_func (i : Z) (f : DBusFreeFunction) : exec unit :=
  l ← read_list;
  s ← load (slots l) i;
  b ← store (slots l) i (set_free_data_func f s);
  write_list (set_slots b l).

(** The loop of [_dbus_data_slot_list_set] that clears the cells the list
    has gained, from [i] up to [list->n_slots]. *)
Fixpoint set_clear (fuel : nat) (i : Z) : exec unit :=
  l ← read_list;
  if i <? n_slots l then
    match fuel with
    | O => abort
    | S fuel' =>
        assign_data i NULL;;
        assign_free_data_func i NULL;;
        i' ← int_add i 1;
        set_clear fuel' i'
    end
  else mret tt.

(** [_dbus_data_slot_list_set]: [grow] is what [dbus_realloc] does if it is
    called.  The result is [None] where the source returns [FALSE], and
    [Some (f, p)] where it returns [TRUE] after writing [f] to
    [*old_free_func] and [p] to [*old_data]. *)
Definition _dbus_data_slot_list_set (grow : realloc_result DBusDataSlot)
    (slot : Z) (data' : pointer) (free_data_func' : DBusFreeFunction)
    : exec (option (DBusFreeFunction * pointer)) :=
  a ← read_allocator;
  _dbus_assert (slot <? n_allocated_slots a);;
  v ← load (allocated_slots a) slot;
  _dbus_assert (v =? slot);;
  l ← read_list;
  grown ←
    (if n_slots l <=? slot then
       n ← int_add slot 1;
       tmp ← dbus_realloc grow (slots l) n;
       match tmp with
       | None => mret false
       | Some _ =>
           write_list (set_slots tmp l);;
           l ← read_list;
           let i := n_slots l in
           n ← int_add slot 1;
           write_list (set_n_slots n l);;
           set_clear (Z.to_nat (n - i)) i;;
           mret true
       end
     else mret true);
  if negb grown then mret None
  else
    l ← read_list;
    _dbus_assert (slot <? n_slots l);;
    s ← load (slots l) slot;
    let old_data := data s in
    s ← load (slots l) slot;
    let old_free_func := free_data_func s in
    assign_data slot data';;
    assign_free_data_func slot free_data_func';;
    mret (Some (old_free_func, old_data)).

(** [_dbus_data_slot_list_get]. *)
Definition _dbus_data_slot_list_get (slot : Z) : exec pointer :=
  a ← read_allocator;
  _dbus_assert (slot <? n_allocated_slots a);;
  v ← load (allocated_slots a) slot;
  _dbus_assert (v =? slot);;
  l ← read_list;
  if n_slots l <=? slot then mret NULL
  else
    s ← load (slots l) slot;
    mret (data s).

(** The loop of [_dbus_data_slot_list_free]. *)
Fixpoint free_walk (fuel : nat) (i : Z) : exec unit :=
  l ← read_list;
  if i <? n_slots l then
    match fuel with
    | O => abort
    | S fuel' =>
        s ← load (slots l) i;
        (if free_data_func s =? NULL then mret tt
         else
           s1 ← load (slots l) i;
           s2 ← load (slots l) i;
           call_free_function (free_data_func s1) (data s2));;
        assign_data i NULL;;
        assign_free_data_func i NULL;;
        i' ← int_add i 1;
        free_walk fuel' i'
    end
  else mret tt.

(** [_dbus_data_slot_list_free]. *)
Definition _dbus_data_slot_list_free : exec unit :=
  l ← read_list;
  free_walk (Z.to_nat (n_slots l)) 0;;
  (* dbus_free (list->slots) *)
  l ← read_list;
  write_list (set_slots None l);;
  l ← read_list;
  write_list (set_n_slots 0 l).

(** ** A short scenario *)

Definition empty_world : world :=
  {| the_allocator := {| allocated_slots := None; n_allocated_slots := 0;
                         n_used_slots := 0; lock := NULL |};
     the_list := {| slots := None; n_slots := 0 |};
     calls := [] |}.

Definition garbage_int : nat → Z := λ _, 12345.
Definition garbage_slot : nat → DBusDataSlot :=
  λ i, {| data := 777 + Z.of_nat i; free_data_func := 888 |}.

Definition small_test : exec (list Z * list pointer) :=
  _dbus_data_slot_allocator_init 1;;
  _dbus_data_slot_list_init;;
  s0 ← _dbus_data_slot_allocator_alloc true (Resized garbage_int);
  s1 ← _dbus_data_slot_allocator_alloc true (Resized garbage_int);
  s2 ← _dbus_data_slot_allocator_alloc true (Resized garbage_int);
  _dbus_data_slot_allocator_free 1;;
  s3 ← _dbus_data_slot_allocator_alloc true OutOfMemory;
  s4 ← _dbus_data_slot_allocator_alloc true OutOfMemory;
  _dbus_data_slot_list_set (Resized garbage_slot) 2 102 500;;
  _dbus_data_slot_list_set (Resized garbage_slot) 0 100 500;;
  g0 ← _dbus_data_slot_list_get 0;
  g1 ← _dbus_data_slot_list_get 1;
  g2 ← _dbus_data_slot_list_get 2;
  _dbus_data_slot_list_free;;
  mret ([s0; s1; s2; s3; s4], [g0; g1; g2]).

(** ** The invariant of the allocator *)

(** The table as a list: a [NULL] table has no cell. *)
Definition table (a : DBusDataSlotAllocator) : list Z :=
  default [] (allocated_slots a).

(** The number of cells of [t] holding their own index, [i] being the index
    of the first cell of [t]. *)
Fixpoint count_used_from (i : nat) (t : list Z) : Z :=
  match t with
  | [] => 0
  | v :: t' => (if v =? Z.of_nat i then 1 else 0) + count_used_from (S i) t'
  end.

Definition count_used (t : list Z) : Z := count_used_from 0 t.

(** Every cell holds its own index (the slot is in use) or a negative value
    (the slot is free). *)
Definition table_ok (t : list Z) : Prop :=
  ∀ (i : nat) (v : Z), t !! i = Some v → v = Z.of_nat i ∨ v < 0.

(** The data model of the allocator: the table has [n_allocated_slots]
    cells, a number that fits an [int]; its cells are self-tagged or free;
    [n_used_slots] counts the self-tagged ones. *)
Record allocator_inv (a : DBusDataSlotAllocator) : Prop := {
  inv_length : Z.of_nat (length (table a)) = n_allocated_slots a;
  inv_range : n_allocated_slots a <= Int.max_signed;
  inv_entries : table_ok (table a);
  inv_used : n_used_slots a = count_used (table a)
}.

(** The invariant as a check that runs. *)
Fixpoint table_okb_from (i : nat) (t : list Z) : bool :=
  match t with
  | [] => true
  | v :: t' => ((v =? Z.of_nat i) || (v <? 0)) && table_okb_from (S i) t'
  end.

Definition allocator_invb (a : DBusDataSlotAllocator) : bool :=
  (Z.of_nat (length (table a)) =? n_allocated_slots a)
  && (n_allocated_slots a <=? Int.max_signed)
  && table_okb_from 0 (table a)
  && (n_used_slots a =? count_used (table a)).

(** Slot [slot] is currently allocated: what the assertions of the source
    check. *)
Definition allocated (a : DBusDataSlotAllocator) (slot : Z) : Prop :=
  0 <= slot ∧ table a !! Z.to_nat slot = Some slot.

(** The data model of a list: the block has [n_slots] cells. *)
Record list_inv (l : DBusDataSlotList) : Prop := {
  linv_length : Z.of_nat (length (default [] (slots l))) = n_slots l;
  linv_range : n_slots l <= Int.max_signed
}.

Definition entries (l : DBusDataSlotList) : list DBusDataSlot :=
  default [] (slots l).

Definition empty_slot : DBusDataSlot :=
  {| data := NULL; free_data_func := NULL |}.

(** The calls that destroying a list of entries [s] makes: one for each
    entry with a destructor, on the value of that entry, in the order of the
    entries. *)
Definition pending_calls (s : list DBusDataSlot) : list (DBusFreeFunction * pointer) :=
  omap (λ c : DBusDataSlot,
          if free_data_func c =? NULL then None
          else Some (free_data_func c, data c)) s.

(** ** Worlds to run the functions in *)

Definition with_allocator (t : list Z) (used : Z) : world :=
  set_the_allocator
    {| allocated_slots := Some t; n_allocated_slots := Z.of_nat (length t);
       n_used_slots := used; lock := 1 |} empty_world.

Definition with_slots (t : list Z) (used : Z) (l : list DBusDataSlot) : world :=
  set_the_list {| slots := Some l; n_slots := Z.of_nat (length l) |}
    (with_allocator t used).

(** ** Sequences of calls on the allocator *)

(** A call of the allocator, with what the environment does during it. *)
Inductive op : Type :=
  | Allocate (locked : bool) (grow : realloc_result Z)
  | Release (slot : Z).

(** [x] taken out of [l] once. *)
Fixpoint remove_one (x : Z) (l : list Z) : list Z :=
  match l with
  | [] => []
  | y :: l' => if bool_decide (y = x) then l' else y :: remove_one x l'
  end.

(** Where a sequence of calls leads: to a world, with the identifiers that
    allocation returned and that were not freed since, the latest first; to
    the free of an identifier that is not live, which the contract of the
    allocator forbids; or to a call without a defined result. *)
Inductive outcome : Type :=
  | Reached (w : world) (live : list Z)
  | Misuse
  | Stuck.

Fixpoint run_ops (ops : list op) (w : world) (live : list Z) : outcome :=
  match ops with
  | [] => Reached w live
  | Allocate locked grow :: rest =>
      match _dbus_data_slot_allocator_alloc locked grow w with
      | Some (slot, w') =>
          run_ops rest w' (if 0 <=? slot then slot :: live else live)
      | None => Stuck
      end
  | Release slot :: rest =>
      if bool_decide (slot ∈ live) then
        match _dbus_data_slot_allocator_free slot w with
        | Some (_, w') => run_ops rest w' (remove_one slot live)
        | None => Stuck
        end
      else Misuse
  end.

(** The live identifiers are the allocated slots, each once. *)
Record live_inv (w : world) (live : list Z) : Prop := {
  live_allocator : allocator_inv (the_allocator w);
  live_nodup : NoDup live;
  live_allocated : ∀ k : Z, k ∈ live ↔ allocated (the_allocator w) k
}.

(** ** The test of the source *)

(** Modelled from the spec: the macros [_DBUS_INT_TO_POINTER] and
    [_DBUS_POINTER_TO_INT] are defined in dbus-internals.h, not part of the
    sources.  The test stores "value i" under identifier i and reads it
    back: an [int] turned into a pointer and back is the same [int]. *)
Definition _DBUS_INT_TO_POINTER (i : Z) : pointer := i.
Definition _DBUS_POINTER_TO_INT (p : pointer) : Z := p.

(** [test_free_slot_data_func].  The static variable [free_counter] is
    passed in and the new value is returned. *)
Definition test_free_slot_data_func (data : pointer) (free_counter : Z)
    : exec Z :=
  let i := _DBUS_POINTER_TO_INT data in
  _dbus_assert (free_counter =? i);;
  int_add free_counter 1.

(** A call through a function pointer made where the only function there is
    to call is [test_free_slot_data_func], whose address is [fn]. *)
Definition call_through (fn f : DBusFreeFunction) (p : pointer)
    (free_counter : Z) : exec Z :=
  if f =? fn then test_free_slot_data_func p free_counter else abort.

(** The calls that a function of this file has added to the log, run one
    after the other.  The free function of the test touches nothing but
    [free_counter], so that running it after the function that called it has
    returned leaves the same counter, and stops the test in the same
    cases. *)
Fixpoint deliver (fn : DBusFreeFunction)
    (cs : list (DBusFreeFunction * pointer)) (free_counter : Z) : exec Z :=
  match cs with
  | [] => mret free_counter
  | (f, p) :: cs' =>
      c ← call_through fn f p free_counter;
      deliver fn cs' c
  end.

Definition read_calls : exec (list (DBusFreeFunction * pointer)) :=
  λ w, Some (calls w, w).

(** What the environment does during the test: the mutex that
    [dbus_mutex_new] returns, and for the call made with loop index [i],
    whether [dbus_mutex_lock] succeeds and what [dbus_realloc] does, in the
    loop of allocations and in each of the two loops of [set]. *)
Record test_env : Type := {
  env_mutex : pointer;
  env_locked : Z → bool;
  env_table : Z → realloc_result Z;
  env_first : Z → realloc_result DBusDataSlot;
  env_second : Z → realloc_result DBusDataSlot
}.

(** The first loop of [_dbus_data_slot_test]. *)
Fixpoint test_alloc_loop (env : test_env) (N_SLOTS : Z) (fuel : nat) (i : Z)
    : exec unit :=
  if i <? N_SLOTS then
    match fuel with
    | O => abort
    | S fuel' =>
        r ← _dbus_data_slot_allocator_alloc (env_locked env i) (env_table env i);
        (if r =? i then mret tt else abort);;
        i' ← int_add i 1;
        test_alloc_loop env N_SLOTS fuel' i'
    end
  else mret tt.

(** The second loop. *)
Fixpoint test_set_loop (env : test_env) (fn : DBusFreeFunction) (N_SLOTS : Z)
    (fuel : nat) (i : Z) : exec unit :=
  if i <? N_SLOTS then
    match fuel with
    | O => abort
    | S fuel' =>
        res ← _dbus_data_slot_list_set (env_first env i) i
                (_DBUS_INT_TO_POINTER i) fn;
        match res with
        | None => abort
        | Some (old_free_func, old_data) =>
            _dbus_assert (old_free_func =? NULL);;
            _dbus_assert (old_data =? NULL);;
            g ← _dbus_data_slot_list_get i;
            _dbus_assert (g =? _DBUS_INT_TO_POINTER i);;
            i' ← int_add i 1;
            test_set_loop env fn N_SLOTS fuel' i'
        end
    end
  else mret tt.

(** The third loop; the result is the value of [free_counter] when it
    ends. *)
Fixpoint test_replace_loop (env : test_env) (fn : DBusFreeFunction)
    (N_SLOTS : Z) (fuel : nat) (i : Z) (free_counter : Z) : exec Z :=
  if i <? N_SLOTS then
    match fuel with
    | O => abort
    | S fuel' =>
        res ← _dbus_data_slot_list_set (env_second env i) i
                (_DBUS_INT_TO_POINTER i) fn;
        match res with
        | None => abort
        | Some (old_free_func, old_data) =>
            _dbus_assert (old_free_func =? fn);;
            _dbus_assert (_DBUS_POINTER_TO_INT old_data =? i);;
            free_counter ← call_through fn old_free_func old_data free_counter;
            c ← int_sub free_counter 1;
            _dbus_assert (i =? c);;
            g ← _dbus_data_slot_list_get i;
            _dbus_assert (g =? _DBUS_INT_TO_POINTER i);;
            i' ← int_add i 1;
            test_replace_loop env fn N_SLOTS fuel' i' free_counter
        end
    end
  else mret free_counter.

(** The last loop. *)
Fixpoint test_free_loop (N_SLOTS : Z) (fuel : nat) (i : Z) : exec unit :=
  if i <? N_SLOTS then
    match fuel with
    | O => abort
    | S fuel' =>
        _dbus_data_slot_allocator_free i;;
        i' ← int_add i 1;
        test_free_loop N_SLOTS fuel' i'
    end
  else mret tt.

(** [_dbus_data_slot_test], for a number [N_SLOTS] of slots that the source
    fixes at 100; [fn] is the address of [test_free_slot_data_func].  The
    allocator and the list of the test are the ones of the world. *)
Definition _dbus_data_slot_test (env : test_env) (fn : DBusFreeFunction)
    (N_SLOTS : Z) : exec bool :=
  ok ← _dbus_data_slot_allocator_init (env_mutex env);
  (if negb ok then abort else mret tt);;
  _dbus_data_slot_list_init;;
  test_alloc_loop env N_SLOTS (Z.to_nat N_SLOTS) 0;;
  test_set_loop env fn N_SLOTS (Z.to_nat N_SLOTS) 0;;
  let free_counter := 0 in
  free_counter ← test_replace_loop env fn N_SLOTS (Z.to_nat N_SLOTS) 0 free_counter;
  let free_counter := 0 in
  before ← read_calls;
  _dbus_data_slot_list_free;;
  after ← read_calls;
  free_counter ← deliver fn (drop (length before) after) free_counter;
  _dbus_assert (N_SLOTS =? free_counter);;
  test_free_loop N_SLOTS (Z.to_nat N_SLOTS) 0;;
  mret true.

(** The entries that the test stores: value [j] and the free function of
    the test at index [j]. *)
Definition test_entries (fn : DBusFreeFunction) (n : nat) : list DBusDataSlot :=
  (λ j, {| data := _DBUS_INT_TO_POINTER (Z.of_nat j); free_data_func := fn |})
    <$> seq 0 n.

(** An environment in which every lock is taken and every request for
    memory is granted. *)
Definition generous : test_env :=
  {| env_mutex := 1;
     env_locked := λ _, true;
     env_table := λ _, Resized garbage_int;
     env_first := λ _, Resized garbage_slot;
     env_second := λ _, OutOfMemory |}.

(** ** Symbolic execution *)

Ltac fields :=
  cbn [the_allocator the_list calls set_the_allocator set_the_list set_calls
       allocated_slots n_allocated_slots n_used_slots lock
       set_allocated_slots set_n_allocated_slots set_n_used_slots set_lock
       data free_data_func set_data set_free_data_func
       slots n_slots set_slots set_n_slots] in *.

Ltac exec_open :=
  unfold mbind, exec_bind, mret, exec_ret,
    read_allocator, write_allocator, read_list, write_list;
  cbv beta iota; fields.

Ltac take_true :=
  match goal with
  | |- context [if ?x <? ?y then _ else _] =>
      replace (x <? y) with true by (symmetry; apply Z.ltb_lt; lia)
  | |- context [if ?x <=? ?y then _ else _] =>
      replace (x <=? y) with true by (symmetry; apply Z.leb_le; lia)
  | |- context [if ?x =? ?y then _ else _] =>
      replace (x =? y) with true by (symmetry; apply Z.eqb_eq; lia)
  end; cbv beta iota.

Ltac take_false :=
  match goal with
  | |- context [if ?x <? ?y then _ else _] =>
      replace (x <? y) with false by (symmetry; apply Z.ltb_ge; lia)
  | |- context [if ?x <=? ?y then _ else _] =>
      replace (x <=? y) with false by (symmetry; apply Z.leb_gt; lia)
  | |- context [if ?x =? ?y then _ else _] =>
      replace (x =? y) with false by (symmetry; apply Z.eqb_neq; lia)
  end; cbv beta iota.

(** ** Running computations *)

Lemma run_bind {A B : Type} (m : exec A) (f : A → exec B) (w : world) :
  (m ≫= f) w = match m w with Some (x, w') => f x w' | None => None end.
Proof. reflexivity. Qed.

Lemma run_assert_true (b : bool) (w : world) :
  b = true → _dbus_assert b w = Some (tt, w).
Proof. intros ->. reflexivity. Qed.

Lemma run_int_add (x y : Z) (w : world) :
  Int.min_signed <= x + y <= Int.max_signed →
  int_add x y w = Some (x + y, w).
Proof.
  intros H. unfold int_add, Int.in_range.
  replace (Int.min_signed <=? x + y) with true by (symmetry; apply Z.leb_le; lia).
  replace (x + y <=? Int.max_signed) with true by (symmetry; apply Z.leb_le; lia).
  reflexivity.
Qed.

Lemma run_int_sub (x y : Z) (w : world) :
  Int.min_signed <= x - y <= Int.max_signed →
  int_sub x y w = Some (x - y, w).
Proof.
  intros H. unfold int_sub, Int.in_range.
  replace (Int.min_signed <=? x - y) with true by (symmetry; apply Z.leb_le; lia).
  replace (x - y <=? Int.max_signed) with true by (symmetry; apply Z.leb_le; lia).
  reflexivity.
Qed.

Lemma run_load {A : Type} (l : list A) (i : nat) (v : A) (w : world) :
  l !! i = Some v → load (Some l) (Z.of_nat i) w = Some (v, w).
Proof.
  intros H. unfold load.
  replace (0 <=? Z.of_nat i) with true by (symmetry; apply Z.leb_le; lia).
  rewrite Nat2Z.id, H. reflexivity.
Qed.

Lemma run_store {A : Type} (l : list A) (i : nat) (v : A) (w : world) :
  (i < length l)%nat →
  store (Some l) (Z.of_nat i) v w = Some (Some (<[i := v]> l), w).
Proof.
  intros H. unfold store.
  replace (0 <=? Z.of_nat i) with true by (symmetry; apply Z.leb_le; lia).
  replace (Z.of_nat i <? Z.of_nat (length l)) with true
    by (symmetry; apply Z.ltb_lt; lia).
  rewrite Nat2Z.id. reflexivity.
Qed.

Lemma run_load_Z {A : Type} (l : list A) (i : Z) (v : A) (w : world) :
  0 <= i → l !! Z.to_nat i = Some v → load (Some l) i w = Some (v, w).
Proof.
  intros Hi H. rewrite <- (Z2Nat.id i Hi). apply run_load, H.
Qed.

Lemma run_store_Z {A : Type} (l : list A) (i : Z) (v : A) (w : world) :
  0 <= i < Z.of_nat (length l) →
  store (Some l) i v w = Some (Some (<[Z.to_nat i := v]> l), w).
Proof.
  intros Hi. rewrite <- (Z2Nat.id i) at 1 by lia. apply run_store. lia.
Qed.

(** The small run: three allocations, a free, the freed identifier given
    out again, a failed allocation; two stores, three reads; the list
    destroyed. *)
Example small_test_run :
  small_test empty_world
  = Some (([0; 1; 2; 1; -1], [100; NULL; 102]),
          {| the_allocator := {| allocated_slots := Some [0; 1; 2];
                                 n_allocated_slots := 3; n_used_slots := 3;
                                 lock := 1 |};
             the_list := {| slots := None; n_slots := 0 |};
             calls := [(500, 100); (500, 102)] |}).
Proof. vm_compute. reflexivity. Qed.

(** ** Counting the cells in use *)

Lemma count_used_from_bounds (t : list Z) (i : nat) :
  0 <= count_used_from i t <= Z.of_nat (length t).
Proof.
  revert i. induction t as [|v t IH]; intros i; simpl; [lia|].
  specialize (IH (S i)). destruct (v =? Z.of_nat i); lia.
Qed.

Lemma count_used_from_insert (t : list Z) (i k : nat) (old v : Z) :
  t !! k = Some old →
  count_used_from i (<[k := v]> t)
  = count_used_from i t
    - (if old =? Z.of_nat (i + k) then 1 else 0)
    + (if v =? Z.of_nat (i + k) then 1 else 0).
Proof.
  revert i k. induction t as [|x t IH]; intros i k Hk; [done|].
  destruct k as [|k]; simpl in *.
  - injection Hk as ->. rewrite Nat.add_0_r. lia.
  - rewrite (IH (S i) k Hk). replace (S i + k)%nat with (i + S k)%nat by lia. lia.
Qed.

Lemma count_used_from_app (t : list Z) (i : nat) (v : Z) :
  count_used_from i (t ++ [v])
  = count_used_from i t + (if v =? Z.of_nat (i + length t) then 1 else 0).
Proof.
  revert i. induction t as [|x t IH]; intros i; simpl.
  - rewrite Nat.add_0_r. lia.
  - rewrite IH. replace (S i + length t)%nat with (i + S (length t))%nat by lia. lia.
Qed.

(** A table with fewer cells in use than cells has a cell that does not hold
    its own index. *)
Lemma count_used_from_lt (t : list Z) (i : nat) :
  count_used_from i t < Z.of_nat (length t) →
  ∃ (k : nat) (v : Z), t !! k = Some v ∧ v ≠ Z.of_nat (i + k).
Proof.
  revert i. induction t as [|x t IH]; intros i H; simpl in *; [lia|].
  destruct (x =? Z.of_nat i) eqn:E.
  - destruct (IH (S i)) as (k & v & Hk & Hv); [lia|].
    exists (S k), v. split; [done|]. replace (i + S k)%nat with (S i + k)%nat by lia. done.
  - exists 0%nat, x. split; [done|]. rewrite Nat.add_0_r. apply Z.eqb_neq. done.
Qed.

(** A table with a cell in use has a positive count. *)
Lemma count_used_from_pos (t : list Z) (i k : nat) :
  t !! k = Some (Z.of_nat (i + k)) → 0 < count_used_from i t.
Proof.
  revert i k. induction t as [|x t IH]; intros i k H; [done|].
  destruct k as [|k]; simpl in *.
  - injection H as ->. rewrite Nat.add_0_r, Z.eqb_refl.
    pose proof (count_used_from_bounds t (S i)). lia.
  - replace (i + S k)%nat with (S i + k)%nat in H by lia.
    specialize (IH _ _ H). destruct (x =? Z.of_nat i); lia.
Qed.

(** ** The scan of the table *)

Lemma alloc_scan_finds (fuel s k : nat) (w : world) (t : list Z) (v : Z) :
  allocated_slots (the_allocator w) = Some t →
  Z.of_nat (length t) = n_allocated_slots (the_allocator w) →
  n_allocated_slots (the_allocator w) <= Int.max_signed →
  0 <= n_used_slots (the_allocator w) < n_allocated_slots (the_allocator w) →
  t !! k = Some v → v < 0 →
  (∀ (j : nat) (u : Z), (s ≤ j < k)%nat → t !! j = Some u → 0 <= u) →
  (s ≤ k)%nat → (k - s < fuel)%nat →
  alloc_scan fuel (Z.of_nat s) w
  = Some (Z.of_nat k,
          set_the_allocator
            (set_n_used_slots (n_used_slots (the_allocator w) + 1)
               (set_allocated_slots (Some (<[k := Z.of_nat k]> t))
                  (the_allocator w))) w).
Proof.
  intros Ht Hlen Hmax Hused Hk Hv.
  pose proof (lookup_lt_Some _ _ _ Hk) as Hklt.
  revert s. induction fuel as [|fuel IH]; intros s Hbefore Hsk Hfuel; [lia|].
  cbn [alloc_scan]. exec_open. take_true. rewrite Ht.
  destruct (decide (s = k)) as [->|Hne].
  - rewrite (run_load t k v w Hk). take_true.
    rewrite (run_store t k (Z.of_nat k) w Hklt). fields.
    unfold Int.min_signed, Int.max_signed in *.
    rewrite run_int_add by (unfold Int.min_signed, Int.max_signed; lia).
    reflexivity.
  - destruct (lookup_lt_is_Some_2 t s) as [u Hu]; [lia|].
    rewrite (run_load t s u w Hu).
    assert (0 <= u) by (apply (Hbefore s u); [lia|done]).
    take_false.
    unfold Int.min_signed, Int.max_signed in *.
    rewrite run_int_add by (unfold Int.min_signed, Int.max_signed; lia).
    replace (Z.of_nat s + 1) with (Z.of_nat (S s)) by lia.
    apply IH; [|lia|lia].
    intros j u' Hj. apply Hbefore. lia.
Qed.

(** A table with a free slot has a first one. *)
Lemma first_free_slot (a : DBusDataSlotAllocator) :
  allocator_inv a →
  n_used_slots a < n_allocated_slots a →
  ∃ (k : nat) (t : list Z) (v : Z),
    allocated_slots a = Some t ∧ t !! k = Some v ∧ v < 0
    ∧ ∀ (j : nat) (u : Z), (j < k)%nat → t !! j = Some u → 0 <= u.
Proof.
  intros [Hlen Hmax Hok Hused] Hlt. unfold table in *.
  destruct (allocated_slots a) as [t|] eqn:Ht; simpl in *.
  2:{ pose proof (count_used_from_bounds [] 0). unfold count_used in *. simpl in *. lia. }
  assert (∃ (k : nat) (v : Z), t !! k = Some v ∧ v < 0) as (k0 & v0 & Hk0 & Hv0).
  { destruct (count_used_from_lt t 0) as (k & v & Hk & Hv);
      [unfold count_used in *; lia|].
    exists k, v. split; [done|]. destruct (Hok k v Hk); [done|lia]. }
  destruct (list_find (λ v, v < 0) t) as [[k v]|] eqn:Hfind.
  - apply list_find_Some in Hfind as (Hk & Hv & Hmin).
    exists k, t, v. repeat split; try done.
    intros j u Hj Hu. specialize (Hmin j u Hu Hj). lia.
  - apply list_find_None in Hfind. rewrite Forall_forall in Hfind.
    exfalso. apply (Hfind v0); [|done]. apply list_elem_of_lookup. eauto.
Qed.

(** The first branch of allocation: a free slot is taken again. *)
Lemma alloc_run_reuse (grow : realloc_result Z) (w : world) :
  allocator_inv (the_allocator w) →
  n_used_slots (the_allocator w) < n_allocated_slots (the_allocator w) →
  ∃ (k : nat) (t : list Z) (v : Z),
    allocated_slots (the_allocator w) = Some t
    ∧ t !! k = Some v ∧ v < 0
    ∧ (∀ (j : nat) (u : Z), (j < k)%nat → t !! j = Some u → 0 <= u)
    ∧ _dbus_data_slot_allocator_alloc true grow w
      = Some (Z.of_nat k,
              set_the_allocator
                (set_n_used_slots (n_used_slots (the_allocator w) + 1)
                   (set_allocated_slots (Some (<[k := Z.of_nat k]> t))
                      (the_allocator w))) w).
Proof.
  intros Hinv Hlt.
  destruct (first_free_slot _ Hinv Hlt) as (k & t & v & Ht & Hk & Hv & Hmin).
  exists k, t, v. repeat split; try done.
  destruct Hinv as [Hlen Hmax Hok Hused]. unfold table in *. rewrite Ht in *.
  simpl in Hlen, Hused.
  pose proof (count_used_from_bounds t 0) as Hb. unfold count_used in Hused.
  pose proof (lookup_lt_Some _ _ _ Hk) as Hklt.
  unfold _dbus_data_slot_allocator_alloc. cbn [negb]. exec_open. take_true.
  rewrite (alloc_scan_finds _ 0 k w t v); try done; try lia.
  2:{ intros j u Hj. apply Hmin. lia. }
  fields. rewrite !run_assert_true; try reflexivity.
  - apply Z.ltb_lt. lia.
  - apply Z.leb_le. lia.
  - apply Z.ltb_lt. lia.
Qed.


(** ** Growing the table *)

Lemma resize_one_more {A : Type} (junk : nat → A) (l : list A) :
  resize junk l (length l + 1) = l ++ [junk (length l)].
Proof.
  unfold resize. rewrite take_ge by lia.
  replace (length l + 1 - length l)%nat with 1%nat by lia. reflexivity.
Qed.

Lemma insert_last {A : Type} (l : list A) (x y : A) :
  <[length l := y]> (l ++ [x]) = l ++ [y].
Proof.
  rewrite insert_app_r_alt by lia. rewrite Nat.sub_diag. reflexivity.
Qed.

Lemma alloc_run_unlocked (grow : realloc_result Z) (w : world) :
  _dbus_data_slot_allocator_alloc false grow w = Some (-1, w).
Proof. reflexivity. Qed.

(** The second branch of allocation when [dbus_realloc] fails. *)
Lemma alloc_run_fail (w : world) :
  allocator_inv (the_allocator w) →
  n_used_slots (the_allocator w) = n_allocated_slots (the_allocator w) →
  n_allocated_slots (the_allocator w) < Int.max_signed →
  _dbus_data_slot_allocator_alloc true OutOfMemory w = Some (-1, w).
Proof.
  intros [Hlen Hmax Hok Hused] Heq Hlt.
  unfold _dbus_data_slot_allocator_alloc. cbn [negb]. exec_open. take_false.
  rewrite run_int_add by (unfold Int.min_signed in *; lia).
  unfold dbus_realloc. take_false. reflexivity.
Qed.

(** The second branch of allocation when [dbus_realloc] succeeds. *)
Lemma alloc_run_grow (junk : nat → Z) (w : world) :
  allocator_inv (the_allocator w) →
  n_used_slots (the_allocator w) = n_allocated_slots (the_allocator w) →
  n_allocated_slots (the_allocator w) < Int.max_signed →
  _dbus_data_slot_allocator_alloc true (Resized junk) w
  = Some (n_allocated_slots (the_allocator w),
          set_the_allocator
            {| allocated_slots :=
                 Some (table (the_allocator w)
                       ++ [n_allocated_slots (the_allocator w)]);
               n_allocated_slots := n_allocated_slots (the_allocator w) + 1;
               n_used_slots := n_used_slots (the_allocator w) + 1;
               lock := lock (the_allocator w) |} w).
Proof.
  intros [Hlen Hmax Hok Hused] Heq Hlt.
  unfold _dbus_data_slot_allocator_alloc. cbn [negb]. exec_open. take_false.
  rewrite run_int_add by (unfold Int.min_signed in *; lia).
  unfold dbus_realloc. take_false. exec_open.
  rewrite run_int_add by (unfold Int.min_signed in *; lia).
  rewrite run_int_add by (unfold Int.min_signed in *; lia).
  fold (table (the_allocator w)).
  rewrite <- Hlen.
  replace (Z.to_nat (Z.of_nat (length (table (the_allocator w))) + 1))
    with (length (table (the_allocator w)) + 1)%nat by lia.
  rewrite resize_one_more.
  rewrite run_store by (rewrite length_app; simpl; lia).
  rewrite insert_last.
  rewrite !run_assert_true; [reflexivity| |]; fields.
  - apply Z.ltb_lt. lia.
  - apply Z.leb_le. lia.
Qed.

(** Allocation at the largest table an [int] can count has no defined
    result: the new length overflows. *)
Lemma alloc_run_overflow (grow : realloc_result Z) (w : world) :
  n_used_slots (the_allocator w) = n_allocated_slots (the_allocator w) →
  n_allocated_slots (the_allocator w) = Int.max_signed →
  _dbus_data_slot_allocator_alloc true grow w = None.
Proof.
  intros Heq Hmax.
  unfold _dbus_data_slot_allocator_alloc. cbn [negb]. exec_open. take_false.
  rewrite Hmax. reflexivity.
Qed.

(** ** Releasing a slot *)

Lemma allocated_table (a : DBusDataSlotAllocator) (slot : Z) :
  allocated a slot →
  ∃ t : list Z, allocated_slots a = Some t
                ∧ t !! Z.to_nat slot = Some slot ∧ 0 <= slot.
Proof.
  intros [Hpos Hk]. unfold table in Hk.
  destruct (allocated_slots a) as [t|]; simpl in Hk; [|done].
  exists t. done.
Qed.

Lemma allocated_used (a : DBusDataSlotAllocator) (slot : Z) :
  allocator_inv a → allocated a slot →
  1 <= n_used_slots a ∧ slot < n_allocated_slots a.
Proof.
  intros [Hlen Hmax Hok Hused] [Hpos Hk].
  pose proof (lookup_lt_Some _ _ _ Hk) as Hlt. split; [|lia].
  rewrite Hused. unfold count_used.
  assert (0 < count_used_from 0 (table a)); [|lia].
  apply (count_used_from_pos _ 0 (Z.to_nat slot)).
  rewrite Hk. f_equal. lia.
Qed.

(** Freeing a slot while other slots stay in use. *)
Lemma free_run_keep (slot : Z) (w : world) (t : list Z) :
  allocator_inv (the_allocator w) →
  allocated (the_allocator w) slot →
  allocated_slots (the_allocator w) = Some t →
  n_used_slots (the_allocator w) ≠ 1 →
  _dbus_data_slot_allocator_free slot w
  = Some (tt,
          set_the_allocator
            (set_n_used_slots (n_used_slots (the_allocator w) - 1)
               (set_allocated_slots (Some (<[Z.to_nat slot := -1]> t))
                  (the_allocator w))) w).
Proof.
  intros Hinv Hal Ht Hne.
  destruct (allocated_used _ _ Hinv Hal) as [Hu Hs].
  destruct Hinv as [Hlen Hmax Hok Hused]. destruct Hal as [Hpos Hk].
  unfold table in *. rewrite Ht in *. simpl in Hlen, Hk.
  pose proof (lookup_lt_Some _ _ _ Hk) as Hlt.
  unfold _dbus_data_slot_allocator_free. exec_open.
  rewrite run_assert_true by (apply Z.ltb_lt; lia).
  rewrite Ht, (run_load_Z _ _ _ _ Hpos Hk).
  rewrite run_assert_true by (apply Z.eqb_eq; lia).
  rewrite run_store_Z by lia. fields.
  pose proof (count_used_from_bounds t 0) as Hb.
  unfold count_used in Hused; simpl in Hused.
  rewrite run_int_sub by (unfold Int.min_signed, Int.max_signed in *; lia).
  take_false. reflexivity.
Qed.

(** Freeing the last slot in use. *)
Lemma free_run_last (slot : Z) (w : world) :
  allocator_inv (the_allocator w) →
  allocated (the_allocator w) slot →
  n_used_slots (the_allocator w) = 1 →
  _dbus_data_slot_allocator_free slot w
  = Some (tt,
          set_the_allocator
            {| allocated_slots := None; n_allocated_slots := 0;
               n_used_slots := 0; lock := lock (the_allocator w) |} w).
Proof.
  intros Hinv Hal Hone.
  destruct (allocated_used _ _ Hinv Hal) as [Hu Hs].
  destruct (allocated_table _ _ Hal) as (t & Ht & Hk & Hpos).
  destruct Hinv as [Hlen Hmax Hok Hused].
  unfold table in *. rewrite Ht in *. simpl in Hlen.
  pose proof (lookup_lt_Some _ _ _ Hk) as Hlt.
  unfold _dbus_data_slot_allocator_free. exec_open.
  rewrite run_assert_true by (apply Z.ltb_lt; lia).
  rewrite Ht, (run_load_Z _ _ _ _ Hpos Hk).
  rewrite run_assert_true by (apply Z.eqb_eq; lia).
  rewrite run_store_Z by lia. fields.
  pose proof (count_used_from_bounds t 0) as Hb.
  unfold count_used in Hused; simpl in Hused.
  rewrite run_int_sub by (unfold Int.min_signed, Int.max_signed in *; lia).
  take_true. unfold set_the_allocator. fields. rewrite Hone. reflexivity.
Qed.

(** ** The invariant is kept *)

Lemma allocator_inv_init (new_lock : pointer) (w : world) :
  ∃ (ok : bool) (w' : world),
    _dbus_data_slot_allocator_init new_lock w = Some (ok, w')
    ∧ the_allocator w'
      = {| allocated_slots := None; n_allocated_slots := 0;
           n_used_slots := 0; lock := new_lock |}
    ∧ the_list w' = the_list w ∧ calls w' = calls w.
Proof.
  unfold _dbus_data_slot_allocator_init. exec_open.
  destruct (new_lock =? NULL); eexists _, _; (split; [reflexivity|done]).
Qed.

Lemma allocator_inv_empty (p : pointer) :
  allocator_inv {| allocated_slots := None; n_allocated_slots := 0;
                   n_used_slots := 0; lock := p |}.
Proof. split; unfold table, Int.max_signed; simpl; done. Qed.

Lemma table_ok_insert (t : list Z) (k : nat) (v : Z) :
  table_ok t → v = Z.of_nat k ∨ v < 0 → table_ok (<[k := v]> t).
Proof.
  intros Hok Hv i u Hi.
  destruct (decide (k = i)) as [->|Hne].
  - pose proof (lookup_lt_Some _ _ _ Hi) as Hlt. rewrite length_insert in Hlt.
    rewrite list_lookup_insert_eq in Hi by done. injection Hi as <-. done.
  - rewrite list_lookup_insert_ne in Hi by done. by apply Hok.
Qed.

Lemma inv_after_reuse (a : DBusDataSlotAllocator) (t : list Z) (k : nat) (v : Z) :
  allocator_inv a → allocated_slots a = Some t → t !! k = Some v → v < 0 →
  let a' := set_n_used_slots (n_used_slots a + 1)
              (set_allocated_slots (Some (<[k := Z.of_nat k]> t)) a) in
  allocator_inv a'
  ∧ ¬ allocated a (Z.of_nat k)
  ∧ ∀ s : Z, allocated a' s ↔ s = Z.of_nat k ∨ allocated a s.
Proof.
  intros [Hlen Hmax Hok Hused] Ht Hk Hv a'. unfold table in *.
  rewrite Ht in *. simpl in Hlen, Hok, Hused.
  pose proof (lookup_lt_Some _ _ _ Hk) as Hlt.
  split; [|split].
  - split; unfold table; subst a'; fields; simpl.
    + rewrite length_insert. done.
    + done.
    + apply table_ok_insert; auto.
    + unfold count_used in *. rewrite (count_used_from_insert t 0 k v _ Hk).
      simpl. rewrite Z.eqb_refl.
      replace (v =? Z.of_nat k) with false by (symmetry; apply Z.eqb_neq; lia).
      lia.
  - intros [_ H]. unfold table in H. rewrite Ht in H. simpl in H.
    rewrite Nat2Z.id, Hk in H. injection H as ->. lia.
  - intros s. unfold allocated, table. subst a'. fields. rewrite Ht. simpl.
    destruct (decide (s = Z.of_nat k)) as [->|Hne].
    + rewrite Nat2Z.id, list_lookup_insert_eq by done. split; [auto|]. intros _. split; [lia|done].
    + destruct (decide (0 <= s)) as [Hs|Hs]; [|split; [lia|intros [?|?]; lia]].
      rewrite list_lookup_insert_ne by lia. split; [auto|]. intros [?|?]; [lia|done].
Qed.

Lemma inv_after_grow (a : DBusDataSlotAllocator) :
  allocator_inv a → n_used_slots a = n_allocated_slots a →
  n_allocated_slots a < Int.max_signed →
  let a' := {| allocated_slots := Some (table a ++ [n_allocated_slots a]);
               n_allocated_slots := n_allocated_slots a + 1;
               n_used_slots := n_used_slots a + 1;
               lock := lock a |} in
  allocator_inv a'
  ∧ 0 <= n_allocated_slots a
  ∧ ¬ allocated a (n_allocated_slots a)
  ∧ ∀ s : Z, allocated a' s ↔ s = n_allocated_slots a ∨ allocated a s.
Proof.
  intros [Hlen Hmax Hok Hused] Heq Hlt a'.
  assert (table a' = table a ++ [n_allocated_slots a]) as Htab by reflexivity.
  split; [|split; [lia|split]].
  - split; rewrite ?Htab; subst a'; fields.
    + rewrite length_app. simpl. lia.
    + lia.
    + intros i v Hi. destruct (decide (i < length (table a))%nat) as [Hi'|Hi'].
      * rewrite lookup_app_l in Hi by done. by apply Hok.
      * rewrite lookup_app_r in Hi by lia.
        destruct (i - length (table a))%nat as [|n] eqn:E; simpl in Hi; [|done].
        injection Hi as <-. left. lia.
    + unfold count_used in *. rewrite count_used_from_app. simpl.
      replace (n_allocated_slots a =? Z.of_nat (length (table a))) with true
        by (symmetry; apply Z.eqb_eq; lia).
      lia.
  - intros [_ H]. apply lookup_lt_Some in H. lia.
  - intros s. unfold allocated. rewrite Htab. clear Htab. subst a'.
    destruct (decide (s = n_allocated_slots a)) as [->|Hne].
    + split; [auto|]. intros _. split; [lia|].
      rewrite lookup_app_r by lia.
      replace (Z.to_nat (n_allocated_slots a) - length (table a))%nat with 0%nat by lia.
      done.
    + destruct (decide (0 <= s)) as [Hs|Hs]; [|split; [lia|intros [?|?]; lia]].
      destruct (decide (Z.to_nat s < length (table a))%nat) as [Hi'|Hi'].
      * rewrite lookup_app_l by done. split; [auto|]. intros [?|?]; [lia|done].
      * rewrite lookup_app_r by lia.
        split.
        -- intros [_ H]. apply lookup_lt_Some in H. simpl in H. lia.
        -- intros [?|[_ H]]; [lia|]. apply lookup_lt_Some in H. lia.
Qed.

Lemma inv_after_free (a : DBusDataSlotAllocator) (t : list Z) (slot : Z) :
  allocator_inv a → allocated a slot → allocated_slots a = Some t →
  let a' := set_n_used_slots (n_used_slots a - 1)
              (set_allocated_slots (Some (<[Z.to_nat slot := -1]> t)) a) in
  allocator_inv a'
  ∧ ∀ s : Z, allocated a' s ↔ s ≠ slot ∧ allocated a s.
Proof.
  intros [Hlen Hmax Hok Hused] [Hpos Hk] Ht a'. unfold table in *.
  rewrite Ht in *. simpl in Hlen, Hok, Hused, Hk.
  pose proof (lookup_lt_Some _ _ _ Hk) as Hlt.
  split.
  - split; unfold table; subst a'; fields; simpl.
    + rewrite length_insert. done.
    + done.
    + apply table_ok_insert; auto. lia.
    + unfold count_used in *.
      rewrite (count_used_from_insert t 0 (Z.to_nat slot) slot _ Hk).
      cbn [Nat.add].
      replace (slot =? Z.of_nat (Z.to_nat slot)) with true
        by (symmetry; apply Z.eqb_eq; lia).
      replace (-1 =? Z.of_nat (Z.to_nat slot)) with false
        by (symmetry; apply Z.eqb_neq; lia).
      lia.
  - intros s. unfold allocated, table. subst a'. fields. rewrite Ht. simpl.
    destruct (decide (s = slot)) as [->|Hne].
    + rewrite list_lookup_insert_eq by done. split; [|tauto].
      intros [_ H]. injection H as H. lia.
    + destruct (decide (0 <= s)) as [Hs|Hs]; [|split; intros; lia].
      rewrite list_lookup_insert_ne by lia. tauto.
Qed.

(** With one slot in use, the allocated slot is the only one. *)
Lemma allocated_unique (a : DBusDataSlotAllocator) (slot s : Z) :
  allocator_inv a → n_used_slots a = 1 →
  allocated a slot → allocated a s → s = slot.
Proof.
  intros Hinv Hone Hal Hs.
  destruct (decide (s = slot)) as [|Hne]; [done|exfalso].
  destruct (allocated_table _ _ Hal) as (t & Ht & _ & _).
  destruct (inv_after_free a t slot Hinv Hal Ht) as [Hinv' Hiff].
  assert (Hs' := proj2 (Hiff s) (conj Hne Hs)).
  destruct (allocated_used _ _ Hinv' Hs') as [Hu _]. fields. lia.
Qed.

(** ** One call on the allocator *)

Lemma used_le_allocated (a : DBusDataSlotAllocator) :
  allocator_inv a → 0 <= n_used_slots a <= n_allocated_slots a.
Proof.
  intros [Hlen Hmax Hok Hused].
  pose proof (count_used_from_bounds (table a) 0). unfold count_used in *. lia.
Qed.

(** Allocation has a result below the largest table. *)
Lemma alloc_defined (locked : bool) (grow : realloc_result Z) (w : world) :
  allocator_inv (the_allocator w) →
  n_allocated_slots (the_allocator w) < Int.max_signed →
  ∃ (slot : Z) (w' : world),
    _dbus_data_slot_allocator_alloc locked grow w = Some (slot, w').
Proof.
  intros Hinv Hlt. destruct locked; [|eexists _, _; apply alloc_run_unlocked].
  pose proof (used_le_allocated _ Hinv) as Hle.
  destruct (decide (n_used_slots (the_allocator w)
                    < n_allocated_slots (the_allocator w))) as [Hfree|Hfull].
  - destruct (alloc_run_reuse grow w Hinv Hfree) as (k & t & v & _ & _ & _ & _ & H).
    eauto.
  - destruct grow as [|junk].
    + eexists _, _. apply alloc_run_fail; [done|lia|done].
    + eexists _, _. apply alloc_run_grow; [done|lia|done].
Qed.

(** What allocation returns and leaves, whatever the environment does. *)
Lemma alloc_step (locked : bool) (grow : realloc_result Z)
    (w w' : world) (slot : Z) :
  allocator_inv (the_allocator w) →
  _dbus_data_slot_allocator_alloc locked grow w = Some (slot, w') →
  (slot = -1 ∧ w' = w)
  ∨ (0 <= slot
     ∧ ¬ allocated (the_allocator w) slot
     ∧ allocator_inv (the_allocator w')
     ∧ n_allocated_slots (the_allocator w')
       <= n_allocated_slots (the_allocator w) + 1
     ∧ ∀ s : Z, allocated (the_allocator w') s
                ↔ s = slot ∨ allocated (the_allocator w) s).
Proof.
  intros Hinv Hrun.
  destruct locked; [|rewrite alloc_run_unlocked in Hrun; left; by inversion Hrun].
  pose proof (used_le_allocated _ Hinv) as Hle.
  destruct (decide (n_used_slots (the_allocator w)
                    < n_allocated_slots (the_allocator w))) as [Hfree|Hfull].
  - destruct (alloc_run_reuse grow w Hinv Hfree)
      as (k & t & v & Ht & Hk & Hv & _ & H).
    rewrite H in Hrun. inversion Hrun; subst. right.
    destruct (inv_after_reuse _ t k v Hinv Ht Hk Hv) as (Hinv' & Hnot & Hiff).
    fields. split; [lia|]. split; [done|]. split; [done|]. split; [lia|done].
  - assert (n_used_slots (the_allocator w) = n_allocated_slots (the_allocator w))
      as Heq by lia.
    destruct (decide (n_allocated_slots (the_allocator w) = Int.max_signed))
      as [Hmax|Hmax].
    { rewrite alloc_run_overflow in Hrun by done. done. }
    assert (n_allocated_slots (the_allocator w) < Int.max_signed) as Hlt.
    { destruct Hinv. lia. }
    destruct grow as [|junk].
    + rewrite alloc_run_fail in Hrun by done. left. by inversion Hrun.
    + rewrite alloc_run_grow in Hrun by done. inversion Hrun; subst. right.
      destruct (inv_after_grow _ Hinv Heq Hlt) as (Hinv' & Hpos & Hnot & Hiff).
      fields. split; [lia|]. split; [done|]. split; [done|]. split; [lia|done].
Qed.

(** What freeing an allocated slot leaves. *)
Lemma free_step (slot : Z) (w : world) :
  allocator_inv (the_allocator w) →
  allocated (the_allocator w) slot →
  ∃ w' : world,
    _dbus_data_slot_allocator_free slot w = Some (tt, w')
    ∧ allocator_inv (the_allocator w')
    ∧ n_allocated_slots (the_allocator w')
      <= n_allocated_slots (the_allocator w)
    ∧ ∀ s : Z, allocated (the_allocator w') s
               ↔ s ≠ slot ∧ allocated (the_allocator w) s.
Proof.
  intros Hinv Hal.
  destruct (allocated_table _ _ Hal) as (t & Ht & _ & _).
  destruct (decide (n_used_slots (the_allocator w) = 1)) as [Hone|Hmore].
  - eexists. split; [by apply free_run_last|]. fields.
    split; [apply allocator_inv_empty|]. split.
    { pose proof (used_le_allocated _ Hinv). lia. }
    intros s. split.
    + intros [_ H]. done.
    + intros [Hne Hs]. destruct Hne. by apply (allocated_unique _ _ _ Hinv Hone Hal).
  - eexists. split; [by apply free_run_keep|]. fields.
    destruct (inv_after_free _ t slot Hinv Hal Ht) as [Hinv' Hiff].
    split; [done|]. split; [lia|done].
Qed.

(** ** Sequences of calls *)

Lemma remove_one_elem (x k : Z) (l : list Z) :
  NoDup l → k ∈ remove_one x l ↔ k ≠ x ∧ k ∈ l.
Proof.
  induction l as [|y l IH]; intros Hnd; simpl.
  - split; [intros H|intros [_ H]]; by apply not_elem_of_nil in H.
  - apply NoDup_cons in Hnd as [Hy Hnd]. case_bool_decide as E.
    + subst y. rewrite elem_of_cons. split.
      * intros H. split; [|by right]. intros ->. done.
      * intros [Hne [?|?]]; done.
    + rewrite !elem_of_cons, IH by done. split.
      * intros [->|[? ?]]; [split; [done|by left]|split; [done|by right]].
      * intros [Hne [->|?]]; [by left|by right].
Qed.

Lemma remove_one_nodup (x : Z) (l : list Z) : NoDup l → NoDup (remove_one x l).
Proof.
  induction l as [|y l IH]; intros Hnd; simpl; [done|].
  apply NoDup_cons in Hnd as [Hy Hnd]. case_bool_decide; [done|].
  apply NoDup_cons. split; [|by apply IH].
  rewrite remove_one_elem by done. tauto.
Qed.

Lemma live_inv_alloc (locked : bool) (grow : realloc_result Z)
    (w w' : world) (live : list Z) (slot : Z) :
  live_inv w live →
  _dbus_data_slot_allocator_alloc locked grow w = Some (slot, w') →
  live_inv w' (if 0 <=? slot then slot :: live else live)
  ∧ (0 <= slot → slot ∉ live)
  ∧ n_allocated_slots (the_allocator w')
    <= n_allocated_slots (the_allocator w) + 1.
Proof.
  intros [Hinv Hnd Hlive] Hrun.
  destruct (alloc_step _ _ _ _ _ Hinv Hrun)
    as [[-> ->]|(Hpos & Hnot & Hinv' & Hn & Hiff)].
  - simpl. split; [done|]. split; [lia|lia].
  - replace (0 <=? slot) with true by (symmetry; apply Z.leb_le; lia).
    assert (slot ∉ live) as Hfresh by (rewrite Hlive; done).
    split; [|done]. split; [done| |].
    + apply NoDup_cons. done.
    + intros s. rewrite elem_of_cons, Hlive. symmetry. apply Hiff.
Qed.

Lemma live_inv_free (slot : Z) (w : world) (live : list Z) :
  live_inv w live → slot ∈ live →
  ∃ w' : world,
    _dbus_data_slot_allocator_free slot w = Some (tt, w')
    ∧ live_inv w' (remove_one slot live)
    ∧ n_allocated_slots (the_allocator w')
      <= n_allocated_slots (the_allocator w).
Proof.
  intros [Hinv Hnd Hlive] Hin. apply Hlive in Hin.
  destruct (free_step slot w Hinv Hin) as (w' & Hrun & Hinv' & Hn & Hiff).
  exists w'. split; [done|]. split; [|done]. split; [done| |].
  - by apply remove_one_nodup.
  - intros s. rewrite remove_one_elem by done. rewrite Hlive. symmetry. apply Hiff.
Qed.

Lemma run_ops_live_inv (ops : list op) (w w' : world) (live live' : list Z) :
  live_inv w live → run_ops ops w live = Reached w' live' → live_inv w' live'.
Proof.
  revert w live. induction ops as [|[locked grow|slot] ops IH];
    intros w live Hinv Hrun; simpl in Hrun.
  - by inversion Hrun; subst.
  - destruct (_dbus_data_slot_allocator_alloc locked grow w)
      as [[slot w1]|] eqn:E; [|done].
    eapply IH; [|done]. by apply (live_inv_alloc _ _ _ _ _ _ Hinv E).
  - case_bool_decide as Hin; [|done].
    destruct (live_inv_free slot w live Hinv Hin) as (w1 & E & Hinv1 & _).
    rewrite E in Hrun. by eapply IH.
Qed.

Lemma run_ops_app (pre post : list op) (w w2 : world) (live live2 : list Z) :
  run_ops (pre ++ post) w live = Reached w2 live2 →
  ∃ (w1 : world) (live1 : list Z),
    run_ops pre w live = Reached w1 live1
    ∧ run_ops post w1 live1 = Reached w2 live2.
Proof.
  revert w live. induction pre as [|[locked grow|slot] pre IH];
    intros w live Hrun; simpl in *.
  - eauto.
  - destruct (_dbus_data_slot_allocator_alloc locked grow w)
      as [[slot w1]|]; [|done]. by apply IH.
  - case_bool_decide; [|done].
    destruct (_dbus_data_slot_allocator_free slot w) as [[? w1]|]; [|done].
    by apply IH.
Qed.

(** A sequence of calls has a defined result as long as the table stays
    below the largest [int]; it takes that many allocations to get there. *)
Lemma run_ops_defined (ops : list op) (w : world) (live : list Z) :
  live_inv w live →
  n_allocated_slots (the_allocator w) + Z.of_nat (length ops) <= Int.max_signed →
  run_ops ops w live ≠ Stuck.
Proof.
  revert w live. induction ops as [|[locked grow|slot] ops IH];
    intros w live Hinv Hlen; simpl in *; [done| |].
  - destruct (alloc_defined locked grow w) as (slot & w1 & E);
      [by destruct Hinv|lia|].
    rewrite E. destruct (live_inv_alloc _ _ _ _ _ _ Hinv E) as (Hinv1 & _ & Hn).
    apply IH; [done|lia].
  - case_bool_decide as Hin; [|done].
    destruct (live_inv_free slot w live Hinv Hin) as (w1 & E & Hinv1 & Hn).
    rewrite E. apply IH; [done|lia].
Qed.

Lemma table_okb_from_sound (t : list Z) (i : nat) :
  table_okb_from i t = true →
  ∀ (k : nat) (v : Z), t !! k = Some v → v = Z.of_nat (i + k) ∨ v < 0.
Proof.
  revert i. induction t as [|x t IH]; intros i H k v Hk; [done|].
  simpl in H. apply andb_true_iff in H as [Hx Ht].
  destruct k as [|k]; simpl in Hk.
  - injection Hk as <-. rewrite Nat.add_0_r.
    apply orb_true_iff in Hx as [Hx|Hx]; [left; lia|right; lia].
  - replace (i + S k)%nat with (S i + k)%nat by lia. by apply IH.
Qed.

Lemma allocator_invb_sound (a : DBusDataSlotAllocator) :
  allocator_invb a = true → allocator_inv a.
Proof.
  unfold allocator_invb. rewrite !andb_true_iff.
  intros [[[Hlen Hmax] Hok] Hused]. split; [lia|lia| |lia].
  intros i v Hi. by apply (table_okb_from_sound _ 0 Hok i v).
Qed.

(** Every state a sequence of calls reaches from an initialised allocator
    satisfies the invariant. *)
Lemma reached_allocator_inv (new_lock : pointer) (w0 w1 w : world) (ok : bool)
    (ops : list op) (live : list Z) :
  _dbus_data_slot_allocator_init new_lock w0 = Some (ok, w1) →
  run_ops ops w1 [] = Reached w live →
  live_inv w live.
Proof.
  intros Hinit Hrun.
  destruct (allocator_inv_init new_lock w0) as (ok' & w1' & Hinit' & Ha & _).
  rewrite Hinit in Hinit'. inversion Hinit'; subst ok' w1'. clear Hinit'.
  apply (run_ops_live_inv ops w1 w [] live); [|done].
  split.
  - rewrite Ha. apply allocator_inv_empty.
  - apply NoDup_nil. done.
  - intros k. split; [intros H; by apply not_elem_of_nil in H|].
    intros [_ H]. unfold table in H. rewrite Ha in H. done.
Qed.

(** ** Properties of the allocator *)

(** C1. In a state of the allocator where fewer slots are in use than the
    table has cells, allocation (with the lock taken) returns the smallest
    index whose cell is free, writes that index into the cell and adds one
    to the number of used slots; the other cells, the number of allocated
    slots and everything else stay as they were. *)
Theorem alloc_reuses_first_free_slot (grow : realloc_result Z) (w : world) :
  allocator_inv (the_allocator w) →
  n_used_slots (the_allocator w) < n_allocated_slots (the_allocator w) →
  ∃ (k : nat) (t : list Z) (v : Z),
    allocated_slots (the_allocator w) = Some t
    ∧ t !! k = Some v ∧ v < 0
    ∧ (∀ (j : nat) (u : Z), (j < k)%nat → t !! j = Some u → 0 <= u)
    ∧ _dbus_data_slot_allocator_alloc true grow w
      = Some (Z.of_nat k,
              set_the_allocator
                (set_n_used_slots (n_used_slots (the_allocator w) + 1)
                   (set_allocated_slots (Some (<[k := Z.of_nat k]> t))
                      (the_allocator w))) w).
Proof. apply alloc_run_reuse. Qed.

Lemma alloc_reuses_first_free_slot_witness :
  ∃ (k : nat) (t : list Z) (v : Z),
    Some [0; -1; 2; -1] = Some t
    ∧ t !! k = Some v ∧ v < 0
    ∧ (∀ (j : nat) (u : Z), (j < k)%nat → t !! j = Some u → 0 <= u)
    ∧ _dbus_data_slot_allocator_alloc true OutOfMemory
        (with_allocator [0; -1; 2; -1] 2)
      = Some (Z.of_nat k,
              set_the_allocator
                {| allocated_slots := Some (<[k := Z.of_nat k]> t);
                   n_allocated_slots := 4; n_used_slots := 3; lock := 1 |}
                (with_allocator [0; -1; 2; -1] 2)).
Proof.
  apply (alloc_reuses_first_free_slot OutOfMemory (with_allocator [0; -1; 2; -1] 2)).
  - apply allocator_invb_sound. vm_compute. reflexivity.
  - vm_compute. reflexivity.
Defined.

(** C2. In a state of the allocator where every cell of the table is in
    use, and the table is below the largest length an [int] can hold,
    allocation asks for a table of one more cell.  If that fails, it returns
    -1 and leaves the state as it was.  If it succeeds, it returns the old
    number of allocated slots; the table has gained one cell holding that
    number; the numbers of allocated and used slots are each one more. *)
Theorem alloc_grows_table_by_one (w : world) :
  allocator_inv (the_allocator w) →
  n_used_slots (the_allocator w) = n_allocated_slots (the_allocator w) →
  n_allocated_slots (the_allocator w) < Int.max_signed →
  _dbus_data_slot_allocator_alloc true OutOfMemory w = Some (-1, w)
  ∧ ∀ junk : nat → Z,
      _dbus_data_slot_allocator_alloc true (Resized junk) w
      = Some (n_allocated_slots (the_allocator w),
              set_the_allocator
                {| allocated_slots :=
                     Some (table (the_allocator w)
                           ++ [n_allocated_slots (the_allocator w)]);
                   n_allocated_slots := n_allocated_slots (the_allocator w) + 1;
                   n_used_slots := n_used_slots (the_allocator w) + 1;
                   lock := lock (the_allocator w) |} w).
Proof.
  intros Hinv Heq Hlt. split.
  - by apply alloc_run_fail.
  - intros junk. by apply alloc_run_grow.
Qed.

Lemma alloc_grows_table_by_one_witness :
  _dbus_data_slot_allocator_alloc true OutOfMemory (with_allocator [0; 1; 2] 3)
  = Some (-1, with_allocator [0; 1; 2] 3)
  ∧ ∀ junk : nat → Z,
      _dbus_data_slot_allocator_alloc true (Resized junk)
        (with_allocator [0; 1; 2] 3)
      = Some (3, with_allocator [0; 1; 2; 3] 4).
Proof.
  apply (alloc_grows_table_by_one (with_allocator [0; 1; 2] 3)).
  - apply allocator_invb_sound. vm_compute. reflexivity.
  - reflexivity.
  - vm_compute. reflexivity.
Defined.

(** C3. Freeing a slot that is allocated has a result: the number of used
    slots is one less and nothing outside the allocator changes.  If slots
    remain in use, the cell of the freed slot holds -1 and the table is
    otherwise as before, with the same number of allocated slots.  If none
    remains, the table is released ([NULL]), the number of allocated slots
    is zero, and the next allocation returns 0 when it takes the lock and
    gets its memory, and fails with -1 otherwise. *)
Theorem free_marks_slot_and_shrinks_to_empty (slot : Z) (w : world) :
  allocator_inv (the_allocator w) →
  allocated (the_allocator w) slot →
  ∃ w' : world,
    _dbus_data_slot_allocator_free slot w = Some (tt, w')
    ∧ n_used_slots (the_allocator w') = n_used_slots (the_allocator w) - 1
    ∧ lock (the_allocator w') = lock (the_allocator w)
    ∧ the_list w' = the_list w ∧ calls w' = calls w
    ∧ (n_used_slots (the_allocator w') ≠ 0 →
       allocated_slots (the_allocator w')
       = Some (<[Z.to_nat slot := -1]> (table (the_allocator w)))
       ∧ n_allocated_slots (the_allocator w')
         = n_allocated_slots (the_allocator w))
    ∧ (n_used_slots (the_allocator w') = 0 →
       allocated_slots (the_allocator w') = None
       ∧ n_allocated_slots (the_allocator w') = 0
       ∧ (∀ junk : nat → Z, ∃ w'' : world,
            _dbus_data_slot_allocator_alloc true (Resized junk) w'
            = Some (0, w''))
       ∧ (∀ (locked : bool) (grow : realloc_result Z), ∃ (r : Z) (w'' : world),
            _dbus_data_slot_allocator_alloc locked grow w' = Some (r, w'')
            ∧ (r = 0 ∨ r = -1))).
Proof.
  intros Hinv Hal.
  destruct (allocated_table _ _ Hal) as (t & Ht & _ & _).
  destruct (decide (n_used_slots (the_allocator w) = 1)) as [Hone|Hmore].
  - eexists. split; [by apply free_run_last|]. fields.
    split; [lia|]. split; [done|]. split; [done|]. split; [done|].
    split; [done|]. intros _. split; [done|]. split; [done|].
    set (w' := set_the_allocator _ w).
    assert (allocator_inv (the_allocator w')) as Hinv'
      by apply allocator_inv_empty.
    assert (∀ junk : nat → Z,
              _dbus_data_slot_allocator_alloc true (Resized junk) w'
              = Some (0, set_the_allocator
                           {| allocated_slots := Some [0];
                              n_allocated_slots := 1; n_used_slots := 1;
                              lock := lock (the_allocator w) |} w')) as Hgrow.
    { intros junk. by rewrite alloc_run_grow. }
    split; [intros junk; eexists; apply Hgrow|].
    intros locked grow. destruct locked; [destruct grow as [|junk]|].
    + eexists _, _. split; [by apply alloc_run_fail|by right].
    + eexists _, _. split; [apply Hgrow|by left].
    + eexists _, _. split; [apply alloc_run_unlocked|by right].
  - eexists. split; [by apply free_run_keep|]. fields.
    split; [done|]. split; [done|]. split; [done|]. split; [done|].
    split; [|lia]. intros _. unfold table. rewrite Ht. done.
Qed.

Lemma free_marks_slot_and_shrinks_to_empty_witness :
  ∃ w' : world,
    _dbus_data_slot_allocator_free 0 (with_allocator [0; -1] 1) = Some (tt, w')
    ∧ n_used_slots (the_allocator w') = 1 - 1
    ∧ lock (the_allocator w') = 1
    ∧ the_list w' = the_list empty_world ∧ calls w' = []
    ∧ (n_used_slots (the_allocator w') ≠ 0 →
       allocated_slots (the_allocator w') = Some (<[0%nat := -1]> [0; -1])
       ∧ n_allocated_slots (the_allocator w') = 2)
    ∧ (n_used_slots (the_allocator w') = 0 →
       allocated_slots (the_allocator w') = None
       ∧ n_allocated_slots (the_allocator w') = 0
       ∧ (∀ junk : nat → Z, ∃ w'' : world,
            _dbus_data_slot_allocator_alloc true (Resized junk) w'
            = Some (0, w''))
       ∧ (∀ (locked : bool) (grow : realloc_result Z), ∃ (r : Z) (w'' : world),
            _dbus_data_slot_allocator_alloc locked grow w' = Some (r, w'')
            ∧ (r = 0 ∨ r = -1))).
Proof.
  apply (free_marks_slot_and_shrinks_to_empty 0 (with_allocator [0; -1] 1)).
  - apply allocator_invb_sound. vm_compute. reflexivity.
  - split; [lia|reflexivity].
Defined.

(** C4. Start from an allocator that was initialised and make any sequence
    of allocations and frees, each free being of an identifier that is live
    then.  At every point of the sequence the live identifiers are pairwise
    distinct, and what an allocation made at that point returns is not among
    them. *)
Theorem live_identifiers_are_distinct
    (new_lock : pointer) (w0 w1 : world) (ok : bool)
    (pre post : list op) (w2 : world) (live2 : list Z) :
  _dbus_data_slot_allocator_init new_lock w0 = Some (ok, w1) →
  run_ops (pre ++ post) w1 [] = Reached w2 live2 →
  ∃ (w : world) (live : list Z),
    run_ops pre w1 [] = Reached w live
    ∧ NoDup live
    ∧ ∀ (locked : bool) (grow : realloc_result Z) (slot : Z) (w' : world),
        _dbus_data_slot_allocator_alloc locked grow w = Some (slot, w') →
        slot ∉ live.
Proof.
  intros Hinit Hrun.
  destruct (run_ops_app _ _ _ _ _ _ Hrun) as (w & live & Hpre & _).
  exists w, live. split; [done|].
  pose proof (reached_allocator_inv _ _ _ _ _ _ _ Hinit Hpre) as Hinv.
  split; [by destruct Hinv|].
  intros locked grow slot w' Halloc Hin.
  assert (0 <= slot) as Hpos.
  { apply (live_allocated _ _ Hinv) in Hin. by destruct Hin. }
  destruct (live_inv_alloc _ _ _ _ _ _ Hinv Halloc) as (_ & Hfresh & _).
  by apply Hfresh.
Qed.

Lemma live_identifiers_are_distinct_witness :
  ∃ (w : world) (live : list Z),
    run_ops [Allocate true (Resized garbage_int);
             Allocate true (Resized garbage_int);
             Allocate true (Resized garbage_int);
             Release 1]
      (set_the_allocator
         {| allocated_slots := None; n_allocated_slots := 0;
            n_used_slots := 0; lock := 1 |} empty_world) []
    = Reached w live
    ∧ NoDup live
    ∧ ∀ (locked : bool) (grow : realloc_result Z) (slot : Z) (w' : world),
        _dbus_data_slot_allocator_alloc locked grow w = Some (slot, w') →
        slot ∉ live.
Proof.
  apply (live_identifiers_are_distinct 1 empty_world _ true
           [Allocate true (Resized garbage_int);
            Allocate true (Resized garbage_int);
            Allocate true (Resized garbage_int);
            Release 1]
           [Allocate true OutOfMemory; Release 0]
           (with_allocator [-1; 1; 2] 2) [1; 2]).
  - reflexivity.
  - vm_compute. reflexivity.
Defined.

(** An identifier that was freed can be returned again: after two
    allocations and the free of identifier 0, allocation returns 0. *)
Example freed_identifier_is_reused :
  ∃ w : world,
    run_ops [Allocate true (Resized garbage_int);
             Allocate true (Resized garbage_int);
             Release 0;
             Allocate true OutOfMemory] empty_world []
    = Reached w [0; 1].
Proof. eexists. vm_compute. reflexivity. Qed.

(** ** Cells of the slot list *)

Lemma run_assign_data (i : nat) (p : pointer) (w : world)
    (s : list DBusDataSlot) (c : DBusDataSlot) :
  slots (the_list w) = Some s → s !! i = Some c →
  assign_data (Z.of_nat i) p w
  = Some (tt, set_the_list
                (set_slots (Some (<[i := set_data p c]> s)) (the_list w)) w).
Proof.
  intros Hs Hc. pose proof (lookup_lt_Some _ _ _ Hc).
  unfold assign_data. exec_open.
  rewrite Hs, (run_load _ _ _ _ Hc), run_store by done. reflexivity.
Qed.

Lemma run_assign_free_data_func (i : nat) (f : DBusFreeFunction) (w : world)
    (s : list DBusDataSlot) (c : DBusDataSlot) :
  slots (the_list w) = Some s → s !! i = Some c →
  assign_free_data_func (Z.of_nat i) f w
  = Some (tt, set_the_list
                (set_slots (Some (<[i := set_free_data_func f c]> s))
                   (the_list w)) w).
Proof.
  intros Hs Hc. pose proof (lookup_lt_Some _ _ _ Hc).
  unfold assign_free_data_func. exec_open.
  rewrite Hs, (run_load _ _ _ _ Hc), run_store by done. reflexivity.
Qed.

(** The two assignments that fill a cell. *)
Lemma run_assign_both (i : nat) (p : pointer) (f : DBusFreeFunction)
    (w : world) (s : list DBusDataSlot) :
  slots (the_list w) = Some s → (i < length s)%nat →
  (assign_data (Z.of_nat i) p ;; assign_free_data_func (Z.of_nat i) f) w
  = Some (tt, set_the_list
                (set_slots (Some (<[i := {| data := p; free_data_func := f |}]> s))
                   (the_list w)) w).
Proof.
  intros Hs Hi. destruct (lookup_lt_is_Some_2 s i Hi) as [c Hc].
  rewrite run_bind, (run_assign_data i p w s c Hs Hc).
  rewrite (run_assign_free_data_func i f _ (<[i := set_data p c]> s) (set_data p c));
    [|reflexivity|by rewrite list_lookup_insert_eq].
  unfold set_the_list, set_slots. fields. rewrite list_insert_insert_eq. reflexivity.
Qed.

(** The loop that clears the new cells. *)
Lemma run_set_clear (fuel i : nat) (w : world) (s : list DBusDataSlot) :
  slots (the_list w) = Some s →
  n_slots (the_list w) = Z.of_nat (length s) →
  n_slots (the_list w) <= Int.max_signed →
  (i ≤ length s)%nat → (length s - i ≤ fuel)%nat →
  set_clear fuel (Z.of_nat i) w
  = Some (tt, set_the_list
                (set_slots (Some (take i s ++ replicate (length s - i) empty_slot))
                   (the_list w)) w).
Proof.
  revert i w s. induction fuel as [|fuel IH]; intros i w s Hs Hn Hmax Hi Hfuel.
  - cbn [set_clear]. exec_open. take_false.
    replace (length s - i)%nat with 0%nat by lia.
    rewrite take_ge, app_nil_r by lia.
    destruct w as [a [b n] c]. simpl in *. by subst.
  - cbn [set_clear]. exec_open.
    destruct (decide (i = length s)) as [->|Hne].
    + take_false. rewrite Nat.sub_diag, take_ge, app_nil_r by lia.
      destruct w as [a [b n] c]. simpl in *. by subst.
    + take_true.
      pose proof (run_assign_both i NULL NULL w s Hs ltac:(lia)) as Hcell.
      rewrite run_bind in Hcell.
      destruct (assign_data (Z.of_nat i) NULL w) as [[[] w1]|]; [|done].
      rewrite Hcell. fields.
      rewrite run_int_add by (unfold Int.min_signed in *; lia).
      replace (Z.of_nat i + 1) with (Z.of_nat (S i)) by lia.
      rewrite (IH (S i) _ (<[i := empty_slot]> s)); fields;
        rewrite ?length_insert; try done; try lia.
      unfold set_the_list, set_slots. fields. do 4 f_equal.
      destruct (lookup_lt_is_Some_2 (<[i := empty_slot]> s) i) as [c Hc];
        [rewrite length_insert; lia|].
      rewrite (take_S_r _ _ _ Hc).
      rewrite list_lookup_insert_eq in Hc by lia. injection Hc as <-.
      rewrite take_insert_ge by lia.
      replace (length s - i)%nat with (S (length s - S i)) by lia.
      rewrite <- app_assoc. reflexivity.
Qed.

(** ** The walk over the list that destroys it *)

Lemma run_free_walk (fuel i : nat) (w : world) (s : list DBusDataSlot) :
  slots (the_list w) = Some s →
  n_slots (the_list w) = Z.of_nat (length s) →
  n_slots (the_list w) <= Int.max_signed →
  (i ≤ length s)%nat → (length s - i ≤ fuel)%nat →
  free_walk fuel (Z.of_nat i) w
  = Some (tt, set_calls (calls w ++ pending_calls (drop i s))
                (set_the_list
                   (set_slots
                      (Some (take i s ++ replicate (length s - i) empty_slot))
                      (the_list w)) w)).
Proof.
  revert i w s. induction fuel as [|fuel IH]; intros i w s Hs Hn Hmax Hi Hfuel.
  - cbn [free_walk]. exec_open. take_false.
    replace (length s - i)%nat with 0%nat by lia.
    rewrite take_ge, drop_ge, !app_nil_r by lia.
    destruct w as [a [b n] c]. simpl in *. by subst.
  - cbn [free_walk]. exec_open.
    destruct (decide (i = length s)) as [->|Hne].
    + take_false. rewrite Nat.sub_diag, take_ge, drop_ge, !app_nil_r by lia.
      destruct w as [a [b n] c]. simpl in *. by subst.
    + take_true. rewrite Hs.
      destruct (lookup_lt_is_Some_2 s i) as [c Hc]; [lia|].
      rewrite (run_load _ _ _ _ Hc).
      rewrite (drop_S _ _ _ Hc).
      assert (∀ w1 : world,
                slots (the_list w1) = Some s →
                n_slots (the_list w1) = Z.of_nat (length s) →
                the_allocator w1 = the_allocator w →
                the_list w1 = the_list w →
                match assign_data (Z.of_nat i) NULL w1 with
                | Some (_, w2) =>
                    match assign_free_data_func (Z.of_nat i) NULL w2 with
                    | Some (_, w3) =>
                        match int_add (Z.of_nat i) 1 w3 with
                        | Some (i', w4) => free_walk fuel i' w4
                        | None => None
                        end
                    | None => None
                    end
                | None => None
                end
                = Some (tt, set_calls (calls w1 ++ pending_calls (drop (S i) s))
                              (set_the_list
                                 (set_slots
                                    (Some (take i s
                                           ++ replicate (length s - i) empty_slot))
                                    (the_list w)) w))) as Hrest.
      { intros w1 Hs1 Hn1 Ha1 Hl1.
        pose proof (run_assign_both i NULL NULL w1 s Hs1 ltac:(lia)) as Hcell.
        rewrite run_bind in Hcell.
        destruct (assign_data (Z.of_nat i) NULL w1) as [[[] w2]|]; [|done].
        rewrite Hcell.
        rewrite run_int_add by (unfold Int.min_signed in *; lia).
        replace (Z.of_nat i + 1) with (Z.of_nat (S i)) by lia.
        rewrite (IH (S i) _ (<[i := empty_slot]> s)); fields;
          rewrite ?length_insert; try done; try lia.
        rewrite drop_insert_lt by lia.
        unfold set_the_list, set_slots, set_calls. fields.
        rewrite Ha1, Hl1. do 5 f_equal.
        destruct (lookup_lt_is_Some_2 (<[i := empty_slot]> s) i) as [c' Hc'];
          [rewrite length_insert; lia|].
        rewrite (take_S_r _ _ _ Hc').
        rewrite list_lookup_insert_eq in Hc' by lia. injection Hc' as <-.
        rewrite take_insert_ge by lia.
        replace (length s - i)%nat with (S (length s - S i)) by lia.
        rewrite <- app_assoc. reflexivity. }
      unfold pending_calls at 1. cbn [omap list_omap].
      fold (pending_calls (drop (S i) s)).
      destruct (free_data_func c =? NULL) eqn:Ef.
      * apply Hrest; done.
      * rewrite !(run_load _ _ _ _ Hc). unfold call_free_function at 1.
        rewrite Hrest by done. fields.
        rewrite <- app_assoc. reflexivity.
Qed.

(** ** Storing in the list and reading it *)

Lemma resize_longer {A : Type} (junk : nat → A) (l : list A) (n : nat) :
  (length l ≤ n)%nat →
  resize junk l n = l ++ (junk <$> seq (length l) (n - length l))
  ∧ length (resize junk l n) = n.
Proof.
  intros Hn. unfold resize. rewrite take_ge by done. split; [done|].
  rewrite length_app, length_fmap, length_seq. lia.
Qed.

(** [set] and [get] start with the same two assertions on the slot; what
    follows is proved once, for a slot that passes them. *)
Section ValidSlot.

Variables (w : world) (slot : Z).
Hypothesis Hinv : allocator_inv (the_allocator w).
Hypothesis Hal : allocated (the_allocator w) slot.

Lemma valid_slot_bounds :
  0 <= slot < n_allocated_slots (the_allocator w)
  ∧ n_allocated_slots (the_allocator w) <= Int.max_signed.
Proof.
  destruct (allocated_used _ _ Hinv Hal) as [_ Hlt].
  pose proof (inv_range _ Hinv). pose proof Hal as [Hpos _]. lia.
Qed.

Lemma run_slot_checks {B : Type} (k : exec B) :
  (_dbus_assert (slot <? n_allocated_slots (the_allocator w));;
   v ← load (allocated_slots (the_allocator w)) slot;
   _dbus_assert (v =? slot);;
   k) w
  = k w.
Proof.
  destruct valid_slot_bounds as [[Hpos Hlt] _].
  destruct (allocated_table _ _ Hal) as (t & Ht & Hk & _).
  rewrite run_bind, run_assert_true by (apply Z.ltb_lt; lia).
  rewrite run_bind, Ht, (run_load_Z _ _ _ _ Hpos Hk).
  rewrite run_bind, run_assert_true by (apply Z.eqb_eq; lia).
  reflexivity.
Qed.

(** [set] on a slot beyond the list when [dbus_realloc] fails. *)
Lemma set_run_fail (p : pointer) (f : DBusFreeFunction) :
  n_slots (the_list w) <= slot →
  _dbus_data_slot_list_set OutOfMemory slot p f w = Some (None, w).
Proof.
  intros Hge. destruct valid_slot_bounds as [[Hpos Hlt] Hmax].
  unfold _dbus_data_slot_list_set.
  rewrite run_bind. unfold read_allocator at 1. cbv beta iota.
  rewrite run_slot_checks.
  exec_open. take_true.
  rewrite run_int_add by (unfold Int.min_signed in *; lia).
  unfold dbus_realloc. take_false. reflexivity.
Qed.

(** [set] on a slot beyond the list when [dbus_realloc] succeeds. *)
Lemma set_run_grow (junk : nat → DBusDataSlot) (p : pointer)
    (f : DBusFreeFunction) :
  list_inv (the_list w) →
  n_slots (the_list w) <= slot →
  _dbus_data_slot_list_set (Resized junk) slot p f w
  = Some (Some (NULL, NULL),
          set_the_list
            {| slots :=
                 Some (<[Z.to_nat slot := {| data := p; free_data_func := f |}]>
                         (entries (the_list w)
                          ++ replicate (Z.to_nat (slot + 1 - n_slots (the_list w)))
                               empty_slot));
               n_slots := slot + 1 |} w).
Proof.
  intros [Hlen Hlmax] Hge. destruct valid_slot_bounds as [[Hpos Hlt] Hmax].
  unfold _dbus_data_slot_list_set.
  rewrite run_bind. unfold read_allocator at 1. cbv beta iota.
  rewrite run_slot_checks.
  exec_open. take_true.
  rewrite run_int_add by (unfold Int.min_signed in *; lia).
  unfold dbus_realloc. take_false. exec_open.
  rewrite run_int_add by (unfold Int.min_signed in *; lia).
  fold (entries (the_list w)) in *.
  set (s := entries (the_list w)) in *.
  set (n := n_slots (the_list w)) in *.
  destruct (resize_longer junk s (Z.to_nat (slot + 1))) as [Hres Hreslen]; [lia|].
  set (s1 := resize junk s (Z.to_nat (slot + 1))) in *.
  replace n with (Z.of_nat (length s)) at 2 by done.
  rewrite (run_set_clear _ (length s) _ s1); fields; try done; try lia.
  cbv beta iota. cbn [negb]. fields.
  rewrite run_assert_true by (apply Z.ltb_lt; lia).
  assert (take (length s) s1 ++ replicate (length s1 - length s) empty_slot
          = s ++ replicate (Z.to_nat (slot + 1 - n)) empty_slot) as Hcleared.
  { rewrite Hres at 1. rewrite take_app_length. f_equal. f_equal. lia. }
  rewrite Hcleared.
  set (s2 := s ++ replicate (Z.to_nat (slot + 1 - n)) empty_slot).
  assert (length s2 = Z.to_nat (slot + 1)) as Hlen2.
  { unfold s2. rewrite length_app, length_replicate. lia. }
  assert (s2 !! Z.to_nat slot = Some empty_slot) as Hold.
  { unfold s2. rewrite lookup_app_r by lia. apply lookup_replicate_2. lia. }
  rewrite !(run_load_Z _ _ _ _ Hpos Hold).
  pose proof (run_assign_both (Z.to_nat slot) p f
                (set_the_list {| slots := Some s2; n_slots := slot + 1 |} w) s2
                eq_refl ltac:(lia)) as Hcell.
  rewrite Z2Nat.id in Hcell by done. rewrite run_bind in Hcell.
  unfold set_slots, set_n_slots, set_the_list in *. fields.
  destruct (assign_data slot p _) as [[[] w1]|]; [|done].
  rewrite Hcell. reflexivity.
Qed.

(** A slot below the length of the list has an entry. *)
Lemma entry_within :
  list_inv (the_list w) → slot < n_slots (the_list w) →
  ∃ (s : list DBusDataSlot) (c : DBusDataSlot),
    slots (the_list w) = Some s ∧ s !! Z.to_nat slot = Some c.
Proof.
  intros [Hlen Hlmax] Hin. destruct valid_slot_bounds as [[Hpos _] _].
  destruct (slots (the_list w)) as [s|] eqn:Hs; simpl in Hlen; [|lia].
  destruct (lookup_lt_is_Some_2 s (Z.to_nat slot)) as [c Hc]; [lia|].
  by exists s, c.
Qed.

(** [set] on a slot within the list. *)
Lemma set_run_within (grow : realloc_result DBusDataSlot)
    (p : pointer) (f : DBusFreeFunction) :
  list_inv (the_list w) →
  slot < n_slots (the_list w) →
  ∃ c : DBusDataSlot,
    entries (the_list w) !! Z.to_nat slot = Some c
    ∧ _dbus_data_slot_list_set grow slot p f w
      = Some (Some (free_data_func c, data c),
              set_the_list
                {| slots :=
                     Some (<[Z.to_nat slot := {| data := p; free_data_func := f |}]>
                             (entries (the_list w)));
                   n_slots := n_slots (the_list w) |} w).
Proof.
  intros Hlinv Hin. destruct valid_slot_bounds as [[Hpos _] _].
  destruct (entry_within Hlinv Hin) as (s & c & Hs & Hc).
  unfold entries. rewrite Hs. cbn [default from_option].
  exists c. split; [done|].
  pose proof (lookup_lt_Some _ _ _ Hc) as Hlt.
  unfold _dbus_data_slot_list_set.
  rewrite run_bind. unfold read_allocator at 1. cbv beta iota.
  rewrite run_slot_checks.
  exec_open. take_false. cbn [negb].
  rewrite run_assert_true by (apply Z.ltb_lt; lia).
  rewrite Hs, !(run_load_Z _ _ _ _ Hpos Hc).
  pose proof (run_assign_both (Z.to_nat slot) p f w s Hs Hlt) as Hcell.
  rewrite Z2Nat.id in Hcell by done. rewrite run_bind in Hcell.
  destruct (assign_data slot p w) as [[[] w1]|]; [|done].
  rewrite Hcell. reflexivity.
Qed.

Lemma get_run_beyond :
  n_slots (the_list w) <= slot →
  _dbus_data_slot_list_get slot w = Some (NULL, w).
Proof.
  intros Hge.
  unfold _dbus_data_slot_list_get.
  rewrite run_bind. unfold read_allocator at 1. cbv beta iota.
  rewrite run_slot_checks.
  exec_open. take_true. reflexivity.
Qed.

Lemma get_run_within :
  list_inv (the_list w) →
  slot < n_slots (the_list w) →
  ∃ c : DBusDataSlot,
    entries (the_list w) !! Z.to_nat slot = Some c
    ∧ _dbus_data_slot_list_get slot w = Some (data c, w).
Proof.
  intros Hlinv Hin. destruct valid_slot_bounds as [[Hpos _] _].
  destruct (entry_within Hlinv Hin) as (s & c & Hs & Hc).
  unfold entries. rewrite Hs. cbn [default from_option].
  exists c. split; [done|].
  unfold _dbus_data_slot_list_get.
  rewrite run_bind. unfold read_allocator at 1. cbv beta iota.
  rewrite run_slot_checks.
  exec_open. take_false.
  rewrite Hs, (run_load_Z _ _ _ _ Hpos Hc). reflexivity.
Qed.

End ValidSlot.

(** ** Destroying the list *)

Lemma list_free_run (w : world) :
  list_inv (the_list w) →
  _dbus_data_slot_list_free w
  = Some (tt, set_calls (calls w ++ pending_calls (entries (the_list w)))
                (set_the_list {| slots := None; n_slots := 0 |} w)).
Proof.
  intros [Hlen Hlmax]. unfold _dbus_data_slot_list_free, entries in *.
  rewrite run_bind. unfold read_list at 1. cbv beta iota.
  destruct (slots (the_list w)) as [s|] eqn:Hs; simpl in Hlen.
  - rewrite run_bind.
    rewrite (run_free_walk _ 0 w s) by (try done; lia).
    exec_open. rewrite drop_0. reflexivity.
  - rewrite <- Hlen. exec_open.
    change (Z.to_nat (Z.of_nat 0)) with 0%nat. cbn [free_walk]. exec_open.
    take_false. cbn [default pending_calls omap list_omap].
    rewrite app_nil_r. destruct w. reflexivity.
Qed.

Lemma list_inv_blocks (s : list DBusDataSlot) :
  Z.of_nat (length s) <= Int.max_signed →
  list_inv {| slots := Some s; n_slots := Z.of_nat (length s) |}.
Proof. intros H. split; [reflexivity|exact H]. Qed.

(** The invariant of the list is established by [init], kept by [set] and
    established again by [free]. *)
Lemma list_inv_init (w : world) :
  ∃ w' : world,
    _dbus_data_slot_list_init w = Some (tt, w')
    ∧ the_list w' = {| slots := None; n_slots := 0 |}
    ∧ list_inv (the_list w').
Proof.
  eexists. split; [reflexivity|]. split; [reflexivity|].
  split; [reflexivity|]. unfold Int.max_signed. simpl. lia.
Qed.

Lemma list_inv_set (grow : realloc_result DBusDataSlot) (slot : Z)
    (p : pointer) (f : DBusFreeFunction) (w : world) :
  allocator_inv (the_allocator w) →
  allocated (the_allocator w) slot →
  list_inv (the_list w) →
  ∃ (res : option (DBusFreeFunction * pointer)) (w' : world),
    _dbus_data_slot_list_set grow slot p f w = Some (res, w')
    ∧ list_inv (the_list w')
    ∧ n_slots (the_list w) <= n_slots (the_list w')
    ∧ the_allocator w' = the_allocator w.
Proof.
  intros Hinv Hal Hlinv.
  destruct (allocated_used _ _ Hinv Hal) as [_ Hlt].
  pose proof (inv_range _ Hinv) as Hmax.
  assert (0 <= slot) as Hpos by (by destruct Hal).
  destruct (decide (slot < n_slots (the_list w))) as [Hin|Hout].
  - destruct (set_run_within w slot Hinv Hal grow p f Hlinv Hin) as (c & Hc & Hrun).
    eexists _, _. split; [exact Hrun|]. fields.
    split; [|split; [lia|done]].
    destruct Hlinv as [Hlen Hlmax]. split; fields; simpl; [|done].
    rewrite length_insert. done.
  - destruct grow as [|junk].
    + eexists _, _. split; [apply set_run_fail; [done|done|lia]|].
      split; [done|]. split; [lia|done].
    + eexists _, _. split; [apply set_run_grow; [done|done|done|lia]|]. fields.
      split; [|split; [lia|done]].
      destruct Hlinv as [Hlen Hlmax]. split; fields; simpl; [|lia].
      rewrite length_insert, length_app, length_replicate.
      unfold entries. lia.
Qed.

Lemma pending_calls_cons (c : DBusDataSlot) (s : list DBusDataSlot) :
  pending_calls (c :: s)
  = (if free_data_func c =? NULL then [] else [(free_data_func c, data c)])
    ++ pending_calls s.
Proof.
  unfold pending_calls. cbn [omap list_omap].
  destruct (free_data_func c =? NULL); reflexivity.
Qed.

(** ** Properties of the slot list *)

(** C5. A [set] on an allocated slot has a result and calls no free
    function.  It succeeds unless the slot is at or beyond the length of the
    list and [dbus_realloc] fails, in which case nothing has changed.  When
    it succeeds, the pair it hands back is the one the list held at the
    slot, or [NULL] and [NULL] if the list did not reach the slot, and the
    list holds the new pair at the slot. *)
Theorem set_hands_back_old_pair (grow : realloc_result DBusDataSlot)
    (slot : Z) (p : pointer) (f : DBusFreeFunction) (w : world) :
  allocator_inv (the_allocator w) →
  allocated (the_allocator w) slot →
  list_inv (the_list w) →
  ∃ (res : option (DBusFreeFunction * pointer)) (w' : world),
    _dbus_data_slot_list_set grow slot p f w = Some (res, w')
    ∧ calls w' = calls w
    ∧ (res = None ↔ n_slots (the_list w) <= slot ∧ grow = OutOfMemory)
    ∧ (res = None → w' = w)
    ∧ ∀ (old_free_func : DBusFreeFunction) (old_data : pointer),
        res = Some (old_free_func, old_data) →
        (∀ c : DBusDataSlot,
           entries (the_list w) !! Z.to_nat slot = Some c →
           old_free_func = free_data_func c ∧ old_data = data c)
        ∧ (entries (the_list w) !! Z.to_nat slot = None →
           old_free_func = NULL ∧ old_data = NULL)
        ∧ entries (the_list w') !! Z.to_nat slot
          = Some {| data := p; free_data_func := f |}.
Proof.
  intros Hinv Hal Hlinv.
  destruct (decide (slot < n_slots (the_list w))) as [Hin|Hout].
  - destruct (set_run_within w slot Hinv Hal grow p f Hlinv Hin) as (c & Hc & Hrun).
    eexists _, _. split; [exact Hrun|]. split; [done|].
    split; [split; [done|lia]|]. split; [done|].
    intros old_f old_p [= <- <-]. split; [|split].
    + intros c' Hc'. rewrite Hc in Hc'. by injection Hc' as <-.
    + intros Hnone. by rewrite Hc in Hnone.
    + unfold entries at 1. fields. simpl.
      apply list_lookup_insert_eq. by apply lookup_lt_Some in Hc.
  - assert (entries (the_list w) !! Z.to_nat slot = None) as Hnone.
    { apply lookup_ge_None. destruct Hlinv as [Hlen _], Hal as [Hpos _].
      unfold entries. lia. }
    destruct grow as [|junk].
    + eexists _, _. split; [apply set_run_fail; [done|done|lia]|].
      split; [done|]. split; [split; [intros _; split; [lia|done]|done]|].
      split; [done|]. intros ? ? [=].
    + eexists _, _. split; [apply set_run_grow; [done|done|done|lia]|].
      split; [done|]. split; [split; [done|intros [_ ?]; done]|].
      split; [done|].
      intros old_f old_p [= <- <-]. split; [|split].
      * intros c Hc. by rewrite Hnone in Hc.
      * done.
      * unfold entries at 1. fields. simpl.
        apply list_lookup_insert_eq.
        rewrite length_app, length_replicate.
        destruct Hlinv as [Hlen _], Hal as [Hpos _]. unfold entries. lia.
Qed.

Lemma set_hands_back_old_pair_witness :
  ∃ (res : option (DBusFreeFunction * pointer)) (w' : world),
    _dbus_data_slot_list_set OutOfMemory 1 101 501
      (with_slots [0; 1; 2] 3
         [{| data := 100; free_data_func := 500 |};
          {| data := 7; free_data_func := 9 |}])
    = Some (res, w')
    ∧ calls w' = []
    ∧ (res = None ↔ 2 <= 1 ∧ @OutOfMemory DBusDataSlot = OutOfMemory)
    ∧ (res = None →
       w' = with_slots [0; 1; 2] 3
              [{| data := 100; free_data_func := 500 |};
               {| data := 7; free_data_func := 9 |}])
    ∧ ∀ (old_free_func : DBusFreeFunction) (old_data : pointer),
        res = Some (old_free_func, old_data) →
        (∀ c : DBusDataSlot,
           Some {| data := 7; free_data_func := 9 |} = Some c →
           old_free_func = free_data_func c ∧ old_data = data c)
        ∧ (Some {| data := 7; free_data_func := 9 |} = None →
           old_free_func = NULL ∧ old_data = NULL)
        ∧ entries (the_list w') !! 1%nat
          = Some {| data := 101; free_data_func := 501 |}.
Proof.
  apply (set_hands_back_old_pair OutOfMemory 1 101 501
           (with_slots [0; 1; 2] 3
              [{| data := 100; free_data_func := 500 |};
               {| data := 7; free_data_func := 9 |}])).
  - apply allocator_invb_sound. vm_compute. reflexivity.
  - split; [lia|reflexivity].
  - apply list_inv_blocks. vm_compute. discriminate.
Defined.

(** The same call, run: it succeeds with no memory to be had, hands back
    the pair (9, 7) that the list held at slot 1 and stores the new one. *)
Example set_hands_back_old_pair_run :
  _dbus_data_slot_list_set OutOfMemory 1 101 501
    (with_slots [0; 1; 2] 3
       [{| data := 100; free_data_func := 500 |};
        {| data := 7; free_data_func := 9 |}])
  = Some (Some (9, 7),
          with_slots [0; 1; 2] 3
            [{| data := 100; free_data_func := 500 |};
             {| data := 101; free_data_func := 501 |}]).
Proof. vm_compute. reflexivity. Qed.

(** C6. A [set] on an allocated slot at or beyond the length of the list
    asks for a block of [slot + 1] entries.  If that fails, it returns
    [FALSE] and leaves everything as it was.  If it succeeds, the list has
    exactly [slot + 1] entries: the old ones, then cleared entries ([NULL]
    value, [NULL] destructor) up to the slot, whose cleared entry received
    the new pair after [NULL] and [NULL] were handed back. *)
Theorem set_grows_to_slot_plus_one (slot : Z) (p : pointer)
    (f : DBusFreeFunction) (w : world) :
  allocator_inv (the_allocator w) →
  allocated (the_allocator w) slot →
  list_inv (the_list w) →
  n_slots (the_list w) <= slot →
  _dbus_data_slot_list_set OutOfMemory slot p f w = Some (None, w)
  ∧ ∀ junk : nat → DBusDataSlot, ∃ w' : world,
      _dbus_data_slot_list_set (Resized junk) slot p f w
      = Some (Some (NULL, NULL), w')
      ∧ n_slots (the_list w') = slot + 1
      ∧ Z.of_nat (length (entries (the_list w'))) = slot + 1
      ∧ entries (the_list w')
        = entries (the_list w)
          ++ replicate (Z.to_nat (slot - n_slots (the_list w))) empty_slot
          ++ [{| data := p; free_data_func := f |}]
      ∧ the_allocator w' = the_allocator w ∧ calls w' = calls w.
Proof.
  intros Hinv Hal Hlinv Hge. split; [by apply set_run_fail|].
  intros junk. eexists. split; [by apply set_run_grow|].
  destruct Hlinv as [Hlen _], Hal as [Hpos _].
  fold (entries (the_list w)) in Hlen.
  assert (<[Z.to_nat slot := {| data := p; free_data_func := f |}]>
            (entries (the_list w)
             ++ replicate (Z.to_nat (slot + 1 - n_slots (the_list w))) empty_slot)
          = entries (the_list w)
            ++ replicate (Z.to_nat (slot - n_slots (the_list w))) empty_slot
            ++ [{| data := p; free_data_func := f |}]) as Hshape.
  { replace (Z.to_nat (slot + 1 - n_slots (the_list w)))
      with (Z.to_nat (slot - n_slots (the_list w)) + 1)%nat by lia.
    rewrite replicate_add, app_assoc. cbn [replicate].
    replace (Z.to_nat slot)
      with (length (entries (the_list w)
                    ++ replicate (Z.to_nat (slot - n_slots (the_list w)))
                         empty_slot)).
    - rewrite insert_last, <- app_assoc. reflexivity.
    - rewrite length_app, length_replicate. lia. }
  unfold entries at 1 2. fields. cbn [default from_option id].
  rewrite Hshape. split; [done|]. split; [|done].
  rewrite !length_app, length_replicate. cbn [length]. lia.
Qed.

Lemma set_grows_to_slot_plus_one_witness :
  _dbus_data_slot_list_set OutOfMemory 2 102 502
    (with_slots [0; 1; 2] 3 [{| data := 100; free_data_func := 500 |}])
  = Some (None, with_slots [0; 1; 2] 3 [{| data := 100; free_data_func := 500 |}])
  ∧ ∀ junk : nat → DBusDataSlot, ∃ w' : world,
      _dbus_data_slot_list_set (Resized junk) 2 102 502
        (with_slots [0; 1; 2] 3 [{| data := 100; free_data_func := 500 |}])
      = Some (Some (NULL, NULL), w')
      ∧ n_slots (the_list w') = 3
      ∧ Z.of_nat (length (entries (the_list w'))) = 3
      ∧ entries (the_list w')
        = [{| data := 100; free_data_func := 500 |}; empty_slot;
           {| data := 102; free_data_func := 502 |}]
      ∧ the_allocator w' = the_allocator (with_allocator [0; 1; 2] 3)
      ∧ calls w' = [].
Proof.
  apply (set_grows_to_slot_plus_one 2 102 502
           (with_slots [0; 1; 2] 3 [{| data := 100; free_data_func := 500 |}])).
  - apply allocator_invb_sound. vm_compute. reflexivity.
  - split; [lia|reflexivity].
  - apply list_inv_blocks. vm_compute. discriminate.
  - vm_compute. discriminate.
Defined.

(** C7. A [get] on an allocated slot changes nothing.  At or beyond the
    length of the list it returns [NULL]; within the list it returns the
    value stored at the slot. *)
Theorem get_reads_without_change (slot : Z) (w : world) :
  allocator_inv (the_allocator w) →
  allocated (the_allocator w) slot →
  list_inv (the_list w) →
  (n_slots (the_list w) <= slot →
   _dbus_data_slot_list_get slot w = Some (NULL, w))
  ∧ (slot < n_slots (the_list w) →
     ∃ c : DBusDataSlot,
       entries (the_list w) !! Z.to_nat slot = Some c
       ∧ _dbus_data_slot_list_get slot w = Some (data c, w)).
Proof.
  intros Hinv Hal Hlinv. split.
  - by apply get_run_beyond.
  - by apply get_run_within.
Qed.

Lemma get_reads_without_change_witness :
  (1 <= 2 →
   _dbus_data_slot_list_get 2
     (with_slots [0; 1; 2] 3 [{| data := 100; free_data_func := 500 |}])
   = Some (NULL, with_slots [0; 1; 2] 3 [{| data := 100; free_data_func := 500 |}]))
  ∧ (2 < 1 →
     ∃ c : DBusDataSlot,
       [{| data := 100; free_data_func := 500 |}] !! 2%nat = Some c
       ∧ _dbus_data_slot_list_get 2
           (with_slots [0; 1; 2] 3 [{| data := 100; free_data_func := 500 |}])
         = Some (data c,
                 with_slots [0; 1; 2] 3 [{| data := 100; free_data_func := 500 |}])).
Proof.
  apply (get_reads_without_change 2
           (with_slots [0; 1; 2] 3 [{| data := 100; free_data_func := 500 |}])).
  - apply allocator_invb_sound. vm_compute. reflexivity.
  - split; [lia|reflexivity].
  - apply list_inv_blocks. vm_compute. discriminate.
Defined.

(** C8. Destroying a list calls, for each entry from the first to the last
    that has a destructor, that destructor once on the value of the entry,
    in the order of the indices, and calls nothing else; the list is then
    empty, with no storage and length zero. *)
Theorem list_free_calls_each_destructor_once (w : world) :
  list_inv (the_list w) →
  ∃ w' : world,
    _dbus_data_slot_list_free w = Some (tt, w')
    ∧ calls w' = calls w ++ pending_calls (entries (the_list w))
    ∧ the_list w' = {| slots := None; n_slots := 0 |}
    ∧ the_allocator w' = the_allocator w.
Proof.
  intros Hlinv. eexists. split; [by apply list_free_run|]. done.
Qed.

Lemma list_free_calls_each_destructor_once_witness :
  ∃ w' : world,
    _dbus_data_slot_list_free
      (with_slots [0; 1; 2] 3
         [{| data := 100; free_data_func := 500 |};
          {| data := 7; free_data_func := NULL |};
          {| data := NULL; free_data_func := 502 |}])
    = Some (tt, w')
    ∧ calls w' = [] ++ [(500, 100); (502, NULL)]
    ∧ the_list w' = {| slots := None; n_slots := 0 |}
    ∧ the_allocator w' = the_allocator (with_allocator [0; 1; 2] 3).
Proof.
  apply (list_free_calls_each_destructor_once
           (with_slots [0; 1; 2] 3
              [{| data := 100; free_data_func := 500 |};
               {| data := 7; free_data_func := NULL |};
               {| data := NULL; free_data_func := 502 |}])).
  apply list_inv_blocks. vm_compute. discriminate.
Defined.

(** C9. A [set] on an allocated slot within the list succeeds whatever
    [dbus_realloc] would do, and the list keeps its length. *)
Theorem set_within_list_cannot_fail (grow : realloc_result DBusDataSlot)
    (slot : Z) (p : pointer) (f : DBusFreeFunction) (w : world) :
  allocator_inv (the_allocator w) →
  allocated (the_allocator w) slot →
  list_inv (the_list w) →
  slot < n_slots (the_list w) →
  ∃ (old : DBusFreeFunction * pointer) (w' : world),
    _dbus_data_slot_list_set grow slot p f w = Some (Some old, w')
    ∧ n_slots (the_list w') = n_slots (the_list w)
    ∧ length (entries (the_list w')) = length (entries (the_list w)).
Proof.
  intros Hinv Hal Hlinv Hin.
  destruct (set_run_within w slot Hinv Hal grow p f Hlinv Hin) as (c & Hc & Hrun).
  eexists _, _. split; [exact Hrun|]. split; [done|].
  unfold entries at 1. fields. simpl. apply length_insert.
Qed.

Lemma set_within_list_cannot_fail_witness :
  ∃ (old : DBusFreeFunction * pointer) (w' : world),
    _dbus_data_slot_list_set OutOfMemory 0 101 501
      (with_slots [0; 1; 2] 3 [{| data := 100; free_data_func := 500 |}])
    = Some (Some old, w')
    ∧ n_slots (the_list w') = 1
    ∧ length (entries (the_list w')) = 1%nat.
Proof.
  apply (set_within_list_cannot_fail OutOfMemory 0 101 501
           (with_slots [0; 1; 2] 3 [{| data := 100; free_data_func := 500 |}])).
  - apply allocator_invb_sound. vm_compute. reflexivity.
  - split; [lia|reflexivity].
  - apply list_inv_blocks. vm_compute. discriminate.
  - vm_compute. reflexivity.
Defined.

(** C10. A [set] on an allocated slot has a result, and every entry that
    the list had at another index is the same afterwards. *)
Theorem set_changes_only_its_slot (grow : realloc_result DBusDataSlot)
    (slot : Z) (p : pointer) (f : DBusFreeFunction) (w : world) :
  allocator_inv (the_allocator w) →
  allocated (the_allocator w) slot →
  list_inv (the_list w) →
  ∃ (res : option (DBusFreeFunction * pointer)) (w' : world),
    _dbus_data_slot_list_set grow slot p f w = Some (res, w')
    ∧ ∀ (i : nat) (c : DBusDataSlot),
        Z.of_nat i ≠ slot →
        entries (the_list w) !! i = Some c →
        entries (the_list w') !! i = Some c.
Proof.
  intros Hinv Hal Hlinv.
  assert (0 <= slot) as Hpos by (by destruct Hal).
  destruct (decide (slot < n_slots (the_list w))) as [Hin|Hout].
  - destruct (set_run_within w slot Hinv Hal grow p f Hlinv Hin) as (c & Hc & Hrun).
    eexists _, _. split; [exact Hrun|].
    intros i c' Hne Hi. unfold entries at 1. fields. simpl.
    rewrite list_lookup_insert_ne by lia. done.
  - destruct grow as [|junk].
    + eexists _, _. split; [apply set_run_fail; [done|done|lia]|]. done.
    + eexists _, _. split; [apply set_run_grow; [done|done|done|lia]|].
      intros i c Hne Hi. unfold entries at 1. fields. simpl.
      rewrite list_lookup_insert_ne by lia.
      apply lookup_app_l_Some. done.
Qed.

Lemma set_changes_only_its_slot_witness :
  ∃ (res : option (DBusFreeFunction * pointer)) (w' : world),
    _dbus_data_slot_list_set (Resized garbage_slot) 2 102 502
      (with_slots [0; 1; 2] 3
         [{| data := 100; free_data_func := 500 |};
          {| data := 7; free_data_func := 9 |}])
    = Some (res, w')
    ∧ ∀ (i : nat) (c : DBusDataSlot),
        Z.of_nat i ≠ 2 →
        [{| data := 100; free_data_func := 500 |};
         {| data := 7; free_data_func := 9 |}] !! i = Some c →
        entries (the_list w') !! i = Some c.
Proof.
  apply (set_changes_only_its_slot (Resized garbage_slot) 2 102 502
           (with_slots [0; 1; 2] 3
              [{| data := 100; free_data_func := 500 |};
               {| data := 7; free_data_func := 9 |}])).
  - apply allocator_invb_sound. vm_compute. reflexivity.
  - split; [lia|reflexivity].
  - apply list_inv_blocks. vm_compute. discriminate.
Defined.

(** ** Every outcome of a call on the allocator *)

(** The three ways allocation ends in a state that satisfies the invariant:
    it fails, it takes a free cell again, or it appends a cell. *)
Lemma alloc_cases (locked : bool) (grow : realloc_result Z)
    (w w' : world) (r : Z) :
  allocator_inv (the_allocator w) →
  _dbus_data_slot_allocator_alloc locked grow w = Some (r, w') →
  (r = -1 ∧ w' = w
   ∧ (locked = false
      ∨ (n_used_slots (the_allocator w) = n_allocated_slots (the_allocator w)
         ∧ grow = OutOfMemory)))
  ∨ (∃ (k : nat) (t : list Z) (v : Z),
       locked = true
       ∧ n_used_slots (the_allocator w) < n_allocated_slots (the_allocator w)
       ∧ allocated_slots (the_allocator w) = Some t
       ∧ t !! k = Some v ∧ v < 0
       ∧ (∀ (j : nat) (u : Z), (j < k)%nat → t !! j = Some u → 0 <= u)
       ∧ r = Z.of_nat k
       ∧ w' = set_the_allocator
                (set_n_used_slots (n_used_slots (the_allocator w) + 1)
                   (set_allocated_slots (Some (<[k := Z.of_nat k]> t))
                      (the_allocator w))) w)
  ∨ (locked = true
     ∧ (∃ junk : nat → Z, grow = Resized junk)
     ∧ n_used_slots (the_allocator w) = n_allocated_slots (the_allocator w)
     ∧ n_allocated_slots (the_allocator w) < Int.max_signed
     ∧ r = n_allocated_slots (the_allocator w)
     ∧ w' = set_the_allocator
              {| allocated_slots :=
                   Some (table (the_allocator w)
                         ++ [n_allocated_slots (the_allocator w)]);
                 n_allocated_slots := n_allocated_slots (the_allocator w) + 1;
                 n_used_slots := n_used_slots (the_allocator w) + 1;
                 lock := lock (the_allocator w) |} w).
Proof.
  intros Hinv Hrun.
  destruct locked.
  2:{ rewrite alloc_run_unlocked in Hrun. left. inversion Hrun; subst.
      split; [done|]. split; [done|]. by left. }
  pose proof (used_le_allocated _ Hinv) as Hle.
  destruct (decide (n_used_slots (the_allocator w)
                    < n_allocated_slots (the_allocator w))) as [Hfree|Hfull].
  - destruct (alloc_run_reuse grow w Hinv Hfree)
      as (k & t & v & Ht & Hk & Hv & Hmin & H).
    rewrite H in Hrun. inversion Hrun; subst. right. left.
    exists k, t, v. repeat (split; [done|]). done.
  - assert (n_used_slots (the_allocator w) = n_allocated_slots (the_allocator w))
      as Heq by lia.
    destruct (decide (n_allocated_slots (the_allocator w) = Int.max_signed))
      as [Hmax|Hmax].
    { rewrite alloc_run_overflow in Hrun by done. done. }
    assert (n_allocated_slots (the_allocator w) < Int.max_signed) as Hlt.
    { destruct Hinv. lia. }
    destruct grow as [|junk].
    + rewrite alloc_run_fail in Hrun by done. left. inversion Hrun; subst.
      split; [done|]. split; [done|]. by right.
    + rewrite alloc_run_grow in Hrun by done. inversion Hrun; subst.
      right. right. split; [done|]. split; [by exists junk|]. done.
Qed.

(** A slot that is not allocated fails the assertions that open [free],
    [set] and [get], or, when it is negative, leads the source to read
    before the table. *)
Lemma slot_checks_stop {B : Type} (slot : Z) (w : world) (k : exec B) :
  allocator_inv (the_allocator w) →
  ¬ allocated (the_allocator w) slot →
  (_dbus_assert (slot <? n_allocated_slots (the_allocator w));;
   v ← load (allocated_slots (the_allocator w)) slot;
   _dbus_assert (v =? slot);;
   k) w
  = None.
Proof.
  intros Hinv Hnot. rewrite run_bind.
  destruct (slot <? n_allocated_slots (the_allocator w)) eqn:Hlt; [|done].
  rewrite run_assert_true by done. rewrite run_bind. unfold load.
  destruct (allocated_slots (the_allocator w)) as [t|] eqn:Ht; [|done].
  destruct (0 <=? slot) eqn:Hpos; [|done].
  destruct (t !! Z.to_nat slot) as [v|] eqn:Hv; [|done].
  unfold mret, exec_ret. rewrite run_bind.
  destruct (v =? slot) eqn:Hvs; [|done].
  exfalso. apply Hnot. split; [lia|].
  unfold table. rewrite Ht. simpl. rewrite Hv. f_equal. lia.
Qed.

Lemma alloc_frame (locked : bool) (grow : realloc_result Z)
    (w w' : world) (r : Z) :
  allocator_inv (the_allocator w) →
  _dbus_data_slot_allocator_alloc locked grow w = Some (r, w') →
  the_list w' = the_list w ∧ calls w' = calls w
  ∧ lock (the_allocator w') = lock (the_allocator w).
Proof.
  intros Hinv Hrun.
  destruct (alloc_cases _ _ _ _ _ Hinv Hrun)
    as [(_ & -> & _)|[(k & t & v & _ & _ & _ & _ & _ & _ & _ & ->)
                     |(_ & _ & _ & _ & _ & ->)]]; done.
Qed.

Lemma free_unallocated_stops (slot : Z) (w : world) :
  allocator_inv (the_allocator w) →
  ¬ allocated (the_allocator w) slot →
  _dbus_data_slot_allocator_free slot w = None.
Proof.
  intros Hinv Hnot. unfold _dbus_data_slot_allocator_free.
  rewrite run_bind. unfold read_allocator at 1. cbv beta iota.
  by apply slot_checks_stop.
Qed.

(** The cells before the first free one are all counted. *)
Lemma count_used_from_prefix (t : list Z) (i k : nat) :
  (∀ (j : nat) (u : Z), (j < k)%nat → t !! j = Some u → u = Z.of_nat (i + j)) →
  (k ≤ length t)%nat →
  Z.of_nat k <= count_used_from i t.
Proof.
  revert i k. induction t as [|x t IH]; intros i k Hpre Hk; simpl in *.
  - lia.
  - destruct k as [|k]; [pose proof (count_used_from_bounds t (S i));
                         destruct (x =? Z.of_nat i); lia|].
    rewrite (Hpre 0%nat x) by (done || lia). rewrite Nat.add_0_r, Z.eqb_refl.
    assert (Z.of_nat k <= count_used_from (S i) t); [|lia].
    apply IH; [|lia]. intros j u Hj Hu.
    replace (S i + j)%nat with (i + S j)%nat by lia.
    apply (Hpre (S j) u); [lia|done].
Qed.

(** ** Further properties of the allocator *)

(** X1. An allocation that returns a negative value returns -1 and leaves
    the allocator, the list and the call log exactly as they were; it does
    so exactly when the lock was not taken, or when every cell is in use and
    [dbus_realloc] failed. *)
Theorem alloc_failure_changes_nothing (locked : bool) (grow : realloc_result Z)
    (w w' : world) (r : Z) :
  allocator_inv (the_allocator w) →
  _dbus_data_slot_allocator_alloc locked grow w = Some (r, w') →
  (r < 0 → r = -1 ∧ w' = w)
  ∧ (r < 0
     ↔ locked = false
       ∨ (n_used_slots (the_allocator w) = n_allocated_slots (the_allocator w)
          ∧ grow = OutOfMemory)).
Proof.
  intros Hinv Hrun. pose proof (used_le_allocated _ Hinv) as Hle.
  destruct (alloc_cases _ _ _ _ _ Hinv Hrun)
    as [(-> & -> & Hwhy)|[(k & t & v & -> & Hlt & _ & _ & _ & _ & -> & _)
                         |(-> & [junk ->] & Heq & _ & -> & _)]].
  - split; [done|]. split; [done|lia].
  - split; [lia|]. split; [lia|]. intros [?|[? _]]; [done|lia].
  - split; [lia|]. split; [lia|]. intros [?|[_ ?]]; done.
Qed.

Lemma alloc_failure_changes_nothing_witness :
  (-1 < 0 → -1 = -1 ∧ with_allocator [0; 1] 2 = with_allocator [0; 1] 2)
  ∧ (-1 < 0
     ↔ true = false
       ∨ (n_used_slots (the_allocator (with_allocator [0; 1] 2))
          = n_allocated_slots (the_allocator (with_allocator [0; 1] 2))
          ∧ @OutOfMemory Z = OutOfMemory)).
Proof.
  apply (alloc_failure_changes_nothing true OutOfMemory
           (with_allocator [0; 1] 2) (with_allocator [0; 1] 2) (-1)).
  - apply allocator_invb_sound. vm_compute. reflexivity.
  - vm_compute. reflexivity.
Defined.

(** X2. Whatever the lock and [dbus_realloc] do, allocation keeps the
    invariant of the allocator, keeps every allocated slot allocated, and
    touches neither the list, the call log nor the lock; a returned
    identifier was not allocated before and is allocated after, and it is
    the only new one. *)
Theorem alloc_keeps_invariant_and_allocations
    (locked : bool) (grow : realloc_result Z) (w w' : world) (r : Z) :
  allocator_inv (the_allocator w) →
  _dbus_data_slot_allocator_alloc locked grow w = Some (r, w') →
  allocator_inv (the_allocator w')
  ∧ (∀ s : Z, allocated (the_allocator w) s → allocated (the_allocator w') s)
  ∧ (0 <= r →
     ¬ allocated (the_allocator w) r
     ∧ allocated (the_allocator w') r
     ∧ ∀ s : Z, allocated (the_allocator w') s →
                s = r ∨ allocated (the_allocator w) s)
  ∧ the_list w' = the_list w ∧ calls w' = calls w
  ∧ lock (the_allocator w') = lock (the_allocator w).
Proof.
  intros Hinv Hrun.
  destruct (alloc_frame _ _ _ _ _ Hinv Hrun) as (Hl & Hc & Hk).
  destruct (alloc_step _ _ _ _ _ Hinv Hrun)
    as [[-> ->]|(Hpos & Hnot & Hinv' & _ & Hiff)].
  - split; [done|]. split; [done|]. split; [lia|done].
  - split; [done|]. split; [intros s Hs; apply Hiff; by right|].
    split; [|done]. intros _. split; [done|].
    split; [apply Hiff; by left|]. intros s Hs. by apply Hiff.
Qed.

Lemma alloc_keeps_invariant_and_allocations_witness :
  allocator_inv (the_allocator (with_allocator [0; 1; 2] 3))
  ∧ (∀ s : Z, allocated (the_allocator (with_allocator [0; -1; 2] 2)) s →
              allocated (the_allocator (with_allocator [0; 1; 2] 3)) s)
  ∧ (0 <= 1 →
     ¬ allocated (the_allocator (with_allocator [0; -1; 2] 2)) 1
     ∧ allocated (the_allocator (with_allocator [0; 1; 2] 3)) 1
     ∧ ∀ s : Z, allocated (the_allocator (with_allocator [0; 1; 2] 3)) s →
                s = 1 ∨ allocated (the_allocator (with_allocator [0; -1; 2] 2)) s)
  ∧ the_list (with_allocator [0; 1; 2] 3) = the_list (with_allocator [0; -1; 2] 2)
  ∧ calls (with_allocator [0; 1; 2] 3) = calls (with_allocator [0; -1; 2] 2)
  ∧ lock (the_allocator (with_allocator [0; 1; 2] 3))
    = lock (the_allocator (with_allocator [0; -1; 2] 2)).
Proof.
  apply (alloc_keeps_invariant_and_allocations true OutOfMemory
           (with_allocator [0; -1; 2] 2) (with_allocator [0; 1; 2] 3) 1).
  - apply allocator_invb_sound. vm_compute. reflexivity.
  - vm_compute. reflexivity.
Defined.

(** X3. Identifiers stay dense: an identifier returned by allocation is at
    most the number of slots that were in use before the call, because every
    cell below it is in use. *)
Theorem alloc_returns_dense_identifier
    (locked : bool) (grow : realloc_result Z) (w w' : world) (r : Z) :
  allocator_inv (the_allocator w) →
  _dbus_data_slot_allocator_alloc locked grow w = Some (r, w') →
  0 <= r →
  r <= n_used_slots (the_allocator w)
  ∧ ∀ s : Z, 0 <= s < r → allocated (the_allocator w) s.
Proof.
  intros Hinv Hrun Hpos.
  destruct (alloc_cases _ _ _ _ _ Hinv Hrun)
    as [(-> & _)|[(k & t & v & _ & Hlt & Ht & Hk & Hv & Hmin & -> & _)
                 |(_ & _ & Heq & _ & -> & _)]]; [lia| |].
  - destruct Hinv as [Hlen Hmax Hok Hused]. unfold table in *.
    rewrite Ht in *. simpl in Hlen, Hok, Hused.
    pose proof (lookup_lt_Some _ _ _ Hk) as Hklt.
    assert (∀ (j : nat) (u : Z), (j < k)%nat → t !! j = Some u → u = Z.of_nat j)
      as Hpre.
    { intros j u Hj Hu. destruct (Hok j u Hu) as [|Hneg]; [done|].
      specialize (Hmin j u Hj Hu). lia. }
    split.
    + rewrite Hused. apply count_used_from_prefix; [|lia]. exact Hpre.
    + intros s [Hs0 Hsk]. split; [done|]. unfold table. rewrite Ht. simpl.
      destruct (lookup_lt_is_Some_2 t (Z.to_nat s)) as [u Hu]; [lia|].
      rewrite Hu. f_equal. rewrite (Hpre (Z.to_nat s) u) by (done || lia). lia.
  - split; [lia|]. intros s [Hs0 Hsn]. split; [done|].
    destruct Hinv as [Hlen Hmax Hok Hused].
    destruct (lookup_lt_is_Some_2 (table (the_allocator w)) (Z.to_nat s))
      as [u Hu]; [lia|].
    rewrite Hu. f_equal.
    assert (count_used_from 0 (table (the_allocator w))
            = Z.of_nat (length (table (the_allocator w)))) as Hfull
      by (unfold count_used in Hused; lia).
    destruct (decide (u = s)) as [|Hne]; [done|exfalso].
    pose proof (count_used_from_insert _ 0 (Z.to_nat s) u s Hu) as Hi.
    pose proof (count_used_from_bounds
                  (<[Z.to_nat s := s]> (table (the_allocator w))) 0) as Hb.
    rewrite length_insert in Hb. cbn [Nat.add] in Hi.
    replace (u =? Z.of_nat (Z.to_nat s)) with false in Hi
      by (symmetry; apply Z.eqb_neq; lia).
    replace (s =? Z.of_nat (Z.to_nat s)) with true in Hi
      by (symmetry; apply Z.eqb_eq; lia).
    lia.
Qed.

Lemma alloc_returns_dense_identifier_witness :
  1 <= n_used_slots (the_allocator (with_allocator [0; -1; 2] 2))
  ∧ ∀ s : Z, 0 <= s < 1 →
             allocated (the_allocator (with_allocator [0; -1; 2] 2)) s.
Proof.
  apply (alloc_returns_dense_identifier true OutOfMemory
           (with_allocator [0; -1; 2] 2) (with_allocator [0; 1; 2] 3) 1).
  - apply allocator_invb_sound. vm_compute. reflexivity.
  - vm_compute. reflexivity.
  - lia.
Defined.

Lemma free_frame (slot : Z) (w w' : world) :
  allocator_inv (the_allocator w) →
  allocated (the_allocator w) slot →
  _dbus_data_slot_allocator_free slot w = Some (tt, w') →
  the_list w' = the_list w ∧ calls w' = calls w
  ∧ lock (the_allocator w') = lock (the_allocator w).
Proof.
  intros Hinv Hal Hrun.
  destruct (allocated_table _ _ Hal) as (t & Ht & _ & _).
  destruct (decide (n_used_slots (the_allocator w) = 1)) as [Hone|Hmore].
  - rewrite (free_run_last slot w Hinv Hal Hone) in Hrun.
    by inversion Hrun; subst.
  - rewrite (free_run_keep slot w t Hinv Hal Ht Hmore) in Hrun.
    by inversion Hrun; subst.
Qed.

(** X4. Freeing an allocated slot always has a result.  It keeps the
    invariant of the allocator; the slot is no longer allocated and every
    other slot is allocated after the call exactly if it was before; the
    table does not grow; the list, the call log and the lock are not
    touched. *)
Theorem free_keeps_invariant_and_other_allocations (slot : Z) (w : world) :
  allocator_inv (the_allocator w) →
  allocated (the_allocator w) slot →
  ∃ w' : world,
    _dbus_data_slot_allocator_free slot w = Some (tt, w')
    ∧ allocator_inv (the_allocator w')
    ∧ ¬ allocated (the_allocator w') slot
    ∧ (∀ s : Z, s ≠ slot →
                allocated (the_allocator w') s ↔ allocated (the_allocator w) s)
    ∧ n_allocated_slots (the_allocator w') <= n_allocated_slots (the_allocator w)
    ∧ the_list w' = the_list w ∧ calls w' = calls w
    ∧ lock (the_allocator w') = lock (the_allocator w).
Proof.
  intros Hinv Hal.
  destruct (free_step slot w Hinv Hal) as (w' & Hrun & Hinv' & Hn & Hiff).
  exists w'. split; [done|]. split; [done|].
  split; [intros H; apply Hiff in H; by destruct H|].
  split; [intros s Hne; rewrite Hiff; tauto|].
  split; [done|]. by apply (free_frame slot).
Qed.

Lemma free_keeps_invariant_and_other_allocations_witness :
  ∃ w' : world,
    _dbus_data_slot_allocator_free 1 (with_allocator [0; 1; 2] 3) = Some (tt, w')
    ∧ allocator_inv (the_allocator w')
    ∧ ¬ allocated (the_allocator w') 1
    ∧ (∀ s : Z, s ≠ 1 →
                allocated (the_allocator w') s
                ↔ allocated (the_allocator (with_allocator [0; 1; 2] 3)) s)
    ∧ n_allocated_slots (the_allocator w') <= 3
    ∧ the_list w' = the_list empty_world ∧ calls w' = []
    ∧ lock (the_allocator w') = 1.
Proof.
  apply (free_keeps_invariant_and_other_allocations 1 (with_allocator [0; 1; 2] 3)).
  - apply allocator_invb_sound. vm_compute. reflexivity.
  - split; [lia|reflexivity].
Defined.

(** X5. A slot cannot be freed twice: after the free of an allocated slot,
    a second free of the same slot stops at an assertion of the source (or,
    the table being released, at its first one) and has no result. *)
Theorem free_twice_stops (slot : Z) (w : world) :
  allocator_inv (the_allocator w) →
  allocated (the_allocator w) slot →
  ∃ w' : world,
    _dbus_data_slot_allocator_free slot w = Some (tt, w')
    ∧ _dbus_data_slot_allocator_free slot w' = None.
Proof.
  intros Hinv Hal.
  destruct (free_step slot w Hinv Hal) as (w' & Hrun & Hinv' & _ & Hiff).
  exists w'. split; [done|].
  apply free_unallocated_stops; [done|].
  intros H. apply Hiff in H. by destruct H.
Qed.

Lemma free_twice_stops_witness :
  ∃ w' : world,
    _dbus_data_slot_allocator_free 1 (with_allocator [0; 1; 2] 3) = Some (tt, w')
    ∧ _dbus_data_slot_allocator_free 1 w' = None.
Proof.
  apply (free_twice_stops 1 (with_allocator [0; 1; 2] 3)).
  - apply allocator_invb_sound. vm_compute. reflexivity.
  - split; [lia|reflexivity].
Defined.

(** X6. After the free of an allocated slot that leaves other slots in use,
    the next allocation that takes the lock never calls [dbus_realloc], so
    it cannot fail for lack of memory; it returns the smallest free index,
    which is at most the slot just freed. *)
Theorem alloc_after_free_needs_no_memory (slot : Z) (w : world) :
  allocator_inv (the_allocator w) →
  allocated (the_allocator w) slot →
  n_used_slots (the_allocator w) ≠ 1 →
  ∃ w1 : world,
    _dbus_data_slot_allocator_free slot w = Some (tt, w1)
    ∧ ∀ grow : realloc_result Z, ∃ (r : Z) (w2 : world),
        _dbus_data_slot_allocator_alloc true grow w1 = Some (r, w2)
        ∧ 0 <= r <= slot
        ∧ ¬ allocated (the_allocator w1) r
        ∧ allocated (the_allocator w2) r
        ∧ n_allocated_slots (the_allocator w2)
          = n_allocated_slots (the_allocator w).
Proof.
  intros Hinv Hal Hmore.
  destruct (allocated_table _ _ Hal) as (t & Ht & Hk & Hpos).
  destruct (allocated_used _ _ Hinv Hal) as [Hu Hs].
  pose proof (used_le_allocated _ Hinv) as Hle.
  pose proof (lookup_lt_Some _ _ _ Hk) as Hklt.
  eexists. split; [by apply free_run_keep|].
  set (w1 := set_the_allocator _ w).
  destruct (inv_after_free _ t slot Hinv Hal Ht) as [Hinv1 _].
  intros grow.
  destruct (alloc_run_reuse grow w1)
    as (k' & t' & v & Ht' & Hk' & Hv & Hmin & Hrun); [done|subst w1; fields; lia|].
  subst w1. fields. injection Ht' as <-.
  eexists (Z.of_nat k'), _. split; [exact Hrun|].
  assert (k' ≤ Z.to_nat slot)%nat as Hle'.
  { destruct (decide (k' ≤ Z.to_nat slot)%nat) as [|Hgt]; [done|exfalso].
    assert (0 <= -1); [|lia].
    apply (Hmin (Z.to_nat slot) (-1)); [lia|].
    by apply list_lookup_insert_eq. }
  pose proof (lookup_lt_Some _ _ _ Hk') as Hk'lt. rewrite length_insert in Hk'lt.
  split; [lia|].
  split; [|split; [|done]].
  - intros [_ H]. unfold table in H. fields. simpl in H.
    rewrite Nat2Z.id, Hk' in H. injection H as ->. lia.
  - split; [lia|]. unfold table. fields. simpl.
    rewrite Nat2Z.id. apply list_lookup_insert_eq. by rewrite length_insert.
Qed.

Lemma alloc_after_free_needs_no_memory_witness :
  ∃ w1 : world,
    _dbus_data_slot_allocator_free 2 (with_allocator [0; -1; 2; 3] 3)
    = Some (tt, w1)
    ∧ ∀ grow : realloc_result Z, ∃ (r : Z) (w2 : world),
        _dbus_data_slot_allocator_alloc true grow w1 = Some (r, w2)
        ∧ 0 <= r <= 2
        ∧ ¬ allocated (the_allocator w1) r
        ∧ allocated (the_allocator w2) r
        ∧ n_allocated_slots (the_allocator w2) = 4.
Proof.
  apply (alloc_after_free_needs_no_memory 2 (with_allocator [0; -1; 2; 3] 3)).
  - apply allocator_invb_sound. vm_compute. reflexivity.
  - split; [lia|reflexivity].
  - vm_compute. discriminate.
Defined.

(** ** Further properties of sequences of calls *)

Lemma live_inv_init (new_lock : pointer) (w0 w1 : world) (ok : bool) :
  _dbus_data_slot_allocator_init new_lock w0 = Some (ok, w1) →
  live_inv w1 []
  ∧ the_allocator w1
    = {| allocated_slots := None; n_allocated_slots := 0;
         n_used_slots := 0; lock := new_lock |}
  ∧ the_list w1 = the_list w0 ∧ calls w1 = calls w0.
Proof.
  intros Hinit. split.
  - by apply (reached_allocator_inv new_lock w0 w1 w1 ok []).
  - destruct (allocator_inv_init new_lock w0) as (ok' & w1' & Hinit' & H).
    rewrite Hinit in Hinit'. by inversion Hinit'; subst.
Qed.

Lemma run_grants_in_order (junks : list (nat → Z)) (w : world)
    (m : nat) (live : list Z) :
  allocator_inv (the_allocator w) →
  table (the_allocator w) = Z.of_nat <$> seq 0 m →
  n_used_slots (the_allocator w) = Z.of_nat m →
  Z.of_nat (m + length junks) <= Int.max_signed →
  ∃ w' : world,
    run_ops ((λ j, Allocate true (Resized j)) <$> junks) w live
    = Reached w' (reverse (Z.of_nat <$> seq m (length junks)) ++ live)
    ∧ allocator_inv (the_allocator w')
    ∧ table (the_allocator w') = Z.of_nat <$> seq 0 (m + length junks)
    ∧ n_allocated_slots (the_allocator w') = Z.of_nat (m + length junks)
    ∧ n_used_slots (the_allocator w') = Z.of_nat (m + length junks)
    ∧ the_list w' = the_list w ∧ calls w' = calls w.
Proof.
  revert w m live. induction junks as [|junk junks IH];
    intros w m live Hinv Htab Hused Hmax.
  - exists w. simpl. rewrite Nat.add_0_r. split; [done|]. split; [done|].
    split; [done|]. split; [|done].
    rewrite <- (inv_length _ Hinv), Htab, length_fmap, length_seq. done.
  - assert (n_allocated_slots (the_allocator w) = Z.of_nat m) as Hn.
    { rewrite <- (inv_length _ Hinv), Htab, length_fmap, length_seq. done. }
    simpl in Hmax.
    cbn [fmap list_fmap run_ops].
    rewrite alloc_run_grow by (done || lia).
    set (w1 := set_the_allocator _ w).
    destruct (inv_after_grow (the_allocator w) Hinv) as (Hinv1 & _);
      [lia|lia|].
    destruct (IH w1 (S m) (Z.of_nat m :: live)) as (w' & Hrun & H');
      [done| | |lia|].
    { unfold table at 1. subst w1. fields. cbn [default from_option id].
      rewrite Htab, Hn, seq_S, fmap_app. done. }
    { subst w1. fields. lia. }
    exists w'. rewrite Hn.
    replace (0 <=? Z.of_nat m) with true by (symmetry; apply Z.leb_le; lia).
    split.
    + rewrite Hrun. f_equal. cbn [length seq fmap list_fmap].
      rewrite reverse_cons, <- app_assoc. done.
    + cbn [length]. replace (m + S (length junks))%nat
        with (S m + length junks)%nat by lia. exact H'.
Qed.

(** X7. A fresh allocator numbers its slots in order: after [init], any
    number [n] of allocations that take the lock and get their memory, [n]
    fitting an [int], return 0, 1, ..., [n - 1] one after the other, and
    leave a table of [n] cells all in use. *)
Theorem fresh_allocations_are_numbered_in_order
    (new_lock : pointer) (w0 w1 : world) (ok : bool) (junks : list (nat → Z)) :
  _dbus_data_slot_allocator_init new_lock w0 = Some (ok, w1) →
  Z.of_nat (length junks) <= Int.max_signed →
  ∃ w : world,
    run_ops ((λ j, Allocate true (Resized j)) <$> junks) w1 []
    = Reached w (reverse (Z.of_nat <$> seq 0 (length junks)))
    ∧ table (the_allocator w) = Z.of_nat <$> seq 0 (length junks)
    ∧ n_allocated_slots (the_allocator w) = Z.of_nat (length junks)
    ∧ n_used_slots (the_allocator w) = Z.of_nat (length junks).
Proof.
  intros Hinit Hmax.
  destruct (live_inv_init _ _ _ _ Hinit) as ([Hinv _ _] & Ha & _).
  destruct (run_grants_in_order junks w1 0 []) as (w & Hrun & _ & Ht & Hn & Hu & _);
    [done|by rewrite Ha|by rewrite Ha|done|].
  exists w. rewrite app_nil_r in Hrun. done.
Qed.

Lemma fresh_allocations_are_numbered_in_order_witness :
  ∃ w : world,
    run_ops ((λ j, Allocate true (Resized j))
               <$> [garbage_int; garbage_int; garbage_int])
      (set_the_allocator
         {| allocated_slots := None; n_allocated_slots := 0;
            n_used_slots := 0; lock := 1 |} empty_world) []
    = Reached w (reverse (Z.of_nat <$> seq 0 3))
    ∧ table (the_allocator w) = Z.of_nat <$> seq 0 3
    ∧ n_allocated_slots (the_allocator w) = Z.of_nat 3
    ∧ n_used_slots (the_allocator w) = Z.of_nat 3.
Proof.
  apply (fresh_allocations_are_numbered_in_order 1 empty_world _ true
           [garbage_int; garbage_int; garbage_int]).
  - reflexivity.
  - vm_compute. discriminate.
Defined.

(** X8. From an allocator that was initialised, a sequence of at most
    [INT_MAX] allocations and frees never stops in the allocator, whatever
    the lock and [dbus_realloc] do: either some free is of an identifier
    that is not live, or every call has a result, with no assertion failed,
    no access outside the table and no overflow. *)
Theorem valid_sequences_never_stop
    (new_lock : pointer) (w0 w1 : world) (ok : bool) (ops : list op) :
  _dbus_data_slot_allocator_init new_lock w0 = Some (ok, w1) →
  Z.of_nat (length ops) <= Int.max_signed →
  run_ops ops w1 [] = Misuse
  ∨ ∃ (w : world) (live : list Z), run_ops ops w1 [] = Reached w live.
Proof.
  intros Hinit Hlen.
  destruct (live_inv_init _ _ _ _ Hinit) as (Hinv & Ha & _).
  pose proof (run_ops_defined ops w1 [] Hinv) as Hdef.
  rewrite Ha in Hdef. cbn [n_allocated_slots] in Hdef.
  destruct (run_ops ops w1 []) as [w live| |]; [right; eauto|by left|].
  exfalso. by apply Hdef.
Qed.

Lemma valid_sequences_never_stop_witness :
  run_ops [Allocate true (Resized garbage_int); Allocate false OutOfMemory;
           Release 0; Allocate true OutOfMemory]
    (set_the_allocator
       {| allocated_slots := None; n_allocated_slots := 0;
          n_used_slots := 0; lock := 1 |} empty_world) []
  = Misuse
  ∨ ∃ (w : world) (live : list Z),
      run_ops [Allocate true (Resized garbage_int); Allocate false OutOfMemory;
               Release 0; Allocate true OutOfMemory]
        (set_the_allocator
           {| allocated_slots := None; n_allocated_slots := 0;
              n_used_slots := 0; lock := 1 |} empty_world) []
      = Reached w live.
Proof.
  apply (valid_sequences_never_stop 1 empty_world _ true
           [Allocate true (Resized garbage_int); Allocate false OutOfMemory;
            Release 0; Allocate true OutOfMemory]).
  - reflexivity.
  - vm_compute. discriminate.
Defined.

Lemma remove_one_length (x : Z) (l : list Z) :
  x ∈ l → S (length (remove_one x l)) = length l.
Proof.
  induction l as [|y l IH]; intros Hin; simpl.
  - by apply not_elem_of_nil in Hin.
  - case_bool_decide as E; [done|].
    apply elem_of_cons in Hin as [->|Hin]; [done|].
    simpl. by rewrite IH.
Qed.

(** What holds of the states that sequences of calls reach, beyond the
    invariant: the count of used slots is the number of live identifiers, an
    allocator without used slot has no table, free cells hold -1. *)
Lemma run_ops_tidy (ops : list op) (w w' : world) (live live' : list Z) :
  live_inv w live →
  n_used_slots (the_allocator w) = Z.of_nat (length live) →
  (n_used_slots (the_allocator w) = 0 →
   allocated_slots (the_allocator w) = None
   ∧ n_allocated_slots (the_allocator w) = 0) →
  (∀ (i : nat) (v : Z),
     table (the_allocator w) !! i = Some v → v = Z.of_nat i ∨ v = -1) →
  run_ops ops w live = Reached w' live' →
  n_used_slots (the_allocator w') = Z.of_nat (length live')
  ∧ (n_used_slots (the_allocator w') = 0 →
     allocated_slots (the_allocator w') = None
     ∧ n_allocated_slots (the_allocator w') = 0)
  ∧ (∀ (i : nat) (v : Z),
       table (the_allocator w') !! i = Some v → v = Z.of_nat i ∨ v = -1)
  ∧ the_list w' = the_list w ∧ calls w' = calls w.
Proof.
  revert w live. induction ops as [|[locked grow|slot] ops IH];
    intros w live Hlive Hn Hempty Hcells Hrun; simpl in Hrun.
  - by inversion Hrun; subst.
  - destruct (_dbus_data_slot_allocator_alloc locked grow w)
      as [[r w1]|] eqn:E; [|done].
    pose proof (live_allocator _ _ Hlive) as Hinv.
    pose proof (used_le_allocated _ Hinv) as Hle.
    destruct (live_inv_alloc _ _ _ _ _ _ Hlive E) as (Hlive1 & _ & _).
    destruct (alloc_frame _ _ _ _ _ Hinv E) as (Hl & Hc & _).
    rewrite <- Hl, <- Hc.
    apply (IH w1 _ Hlive1); [| | |done];
      destruct (alloc_cases _ _ _ _ _ Hinv E)
        as [(-> & -> & _)|[(k & t & v & _ & Hlt & Ht & Hk & Hv & _ & -> & ->)
                           |(_ & _ & Heq & _ & -> & ->)]];
      try done; fields;
      try (replace (0 <=? Z.of_nat k) with true
             by (symmetry; apply Z.leb_le; lia));
      try (replace (0 <=? n_allocated_slots (the_allocator w)) with true
             by (symmetry; apply Z.leb_le; lia));
      cbn [length]; try lia.
    + intros i u. unfold table. fields. cbn [default from_option id].
      destruct (decide (k = i)) as [->|Hne].
      * pose proof (lookup_lt_Some _ _ _ Hk).
        rewrite list_lookup_insert_eq by done. intros [= <-]. by left.
      * rewrite list_lookup_insert_ne by done. intros Hu.
        apply Hcells. unfold table. by rewrite Ht.
    + intros i u. unfold table at 1. fields. cbn [default from_option id].
      intros Hu. apply lookup_app_Some in Hu as [Hu|[Hge Hu]]; [by apply Hcells|].
      destruct (i - length (table (the_allocator w)))%nat eqn:Ei; [|done].
      injection Hu as <-. left. rewrite <- (inv_length _ Hinv). lia.
  - case_bool_decide as Hin; [|done].
    pose proof (live_allocator _ _ Hlive) as Hinv.
    assert (allocated (the_allocator w) slot) as Hal
      by (by apply (live_allocated _ _ Hlive)).
    destruct (live_inv_free slot w live Hlive Hin) as (w1 & E & Hlive1 & _).
    rewrite E in Hrun.
    destruct (free_frame slot w w1 Hinv Hal E) as (Hl & Hc & _).
    rewrite <- Hl, <- Hc.
    pose proof (remove_one_length slot live Hin) as Hlen.
    destruct (allocated_table _ _ Hal) as (t & Ht & Hk & Hpos).
    apply (IH w1 _ Hlive1); [| | |done];
      (destruct (decide (n_used_slots (the_allocator w) = 1)) as [Hone|Hmore];
       [rewrite (free_run_last slot w Hinv Hal Hone) in E
       |rewrite (free_run_keep slot w t Hinv Hal Ht Hmore) in E]);
      inversion E; subst w1; fields; try done; try lia.
    intros i u. unfold table. fields. cbn [default from_option id].
    destruct (decide (Z.to_nat slot = i)) as [<-|Hne].
    + pose proof (lookup_lt_Some _ _ _ Hk).
      rewrite list_lookup_insert_eq by done. intros [= <-]. by right.
    + rewrite list_lookup_insert_ne by done. intros Hu.
      apply Hcells. unfold table. by rewrite Ht.
Qed.

(** X9. In every state that a sequence of allocations and frees reaches
    from an initialised allocator, each free being of a live identifier:
    the number of used slots is the number of live identifiers; the live
    identifiers are exactly the slots the assertions of [set] and [get]
    accept; when none is live the table is released and the number of
    allocated slots is zero; every cell of the table holds its own index or
    -1; the list and the call log are as they were. *)
Theorem reached_states_are_tidy
    (new_lock : pointer) (w0 w1 : world) (ok : bool)
    (ops : list op) (w : world) (live : list Z) :
  _dbus_data_slot_allocator_init new_lock w0 = Some (ok, w1) →
  run_ops ops w1 [] = Reached w live →
  n_used_slots (the_allocator w) = Z.of_nat (length live)
  ∧ (∀ k : Z, k ∈ live ↔ allocated (the_allocator w) k)
  ∧ (live = [] →
     allocated_slots (the_allocator w) = None
     ∧ n_allocated_slots (the_allocator w) = 0)
  ∧ (∀ (i : nat) (v : Z),
       table (the_allocator w) !! i = Some v → v = Z.of_nat i ∨ v = -1)
  ∧ the_list w = the_list w0 ∧ calls w = calls w0.
Proof.
  intros Hinit Hrun.
  destruct (live_inv_init _ _ _ _ Hinit) as (Hinv1 & Ha & Hl & Hc).
  pose proof (run_ops_live_inv _ _ _ _ _ Hinv1 Hrun) as Hinv.
  destruct (run_ops_tidy ops w1 w [] live Hinv1) as (Hn & He & Hcells & Hl' & Hc');
    try done; try (by rewrite Ha).
  split; [done|]. split; [by destruct Hinv|].
  split; [intros ->; by apply He|].
  split; [done|]. by rewrite Hl', Hc'.
Qed.

Lemma reached_states_are_tidy_witness :
  n_used_slots (the_allocator (with_allocator [-1; 1] 1)) = Z.of_nat (length [1])
  ∧ (∀ k : Z, k ∈ [1] ↔ allocated (the_allocator (with_allocator [-1; 1] 1)) k)
  ∧ ([1] = [] →
     allocated_slots (the_allocator (with_allocator [-1; 1] 1)) = None
     ∧ n_allocated_slots (the_allocator (with_allocator [-1; 1] 1)) = 0)
  ∧ (∀ (i : nat) (v : Z),
       table (the_allocator (with_allocator [-1; 1] 1)) !! i = Some v →
       v = Z.of_nat i ∨ v = -1)
  ∧ the_list (with_allocator [-1; 1] 1) = the_list empty_world
  ∧ calls (with_allocator [-1; 1] 1) = calls empty_world.
Proof.
  eapply (reached_states_are_tidy 1 empty_world _ true
            [Allocate true (Resized garbage_int);
             Allocate true (Resized garbage_int); Release 0]).
  - reflexivity.
  - vm_compute. reflexivity.
Defined.

(** ** Further properties of the slot list *)

(** What [get] returns, in one formula. *)
Lemma get_run (slot : Z) (w : world) :
  allocator_inv (the_allocator w) →
  allocated (the_allocator w) slot →
  list_inv (the_list w) →
  _dbus_data_slot_list_get slot w
  = Some (match entries (the_list w) !! Z.to_nat slot with
          | Some c => data c
          | None => NULL
          end, w).
Proof.
  intros Hinv Hal Hlinv.
  destruct (decide (slot < n_slots (the_list w))) as [Hin|Hout].
  - destruct (get_run_within w slot Hinv Hal Hlinv Hin) as (c & Hc & Hrun).
    by rewrite Hc.
  - rewrite (get_run_beyond w slot Hinv Hal) by lia.
    destruct Hlinv as [Hlen _], Hal as [Hpos _].
    rewrite (proj2 (lookup_ge_None (entries (the_list w)) (Z.to_nat slot)));
      [done|unfold entries; lia].
Qed.

(** What a [set] that succeeds leaves and hands back, in one formula. *)
Lemma set_success_shape (grow : realloc_result DBusDataSlot) (slot : Z)
    (p : pointer) (f : DBusFreeFunction) (w w' : world)
    (old : DBusFreeFunction * pointer) :
  allocator_inv (the_allocator w) →
  allocated (the_allocator w) slot →
  list_inv (the_list w) →
  _dbus_data_slot_list_set grow slot p f w = Some (Some old, w') →
  w' = set_the_list
         {| slots :=
              Some (<[Z.to_nat slot := {| data := p; free_data_func := f |}]>
                      (entries (the_list w)
                       ++ replicate (Z.to_nat (slot + 1 - n_slots (the_list w)))
                            empty_slot));
            n_slots := Z.max (n_slots (the_list w)) (slot + 1) |} w
  ∧ old = (free_data_func (default empty_slot
                             (entries (the_list w) !! Z.to_nat slot)),
           data (default empty_slot (entries (the_list w) !! Z.to_nat slot))).
Proof.
  intros Hinv Hal Hlinv Hrun.
  destruct (decide (slot < n_slots (the_list w))) as [Hin|Hout].
  - destruct (set_run_within w slot Hinv Hal grow p f Hlinv Hin) as (c & Hc & H).
    rewrite H in Hrun. inversion Hrun; subst. rewrite Hc.
    replace (Z.to_nat (slot + 1 - n_slots (the_list w))) with 0%nat by lia.
    cbn [replicate]. rewrite app_nil_r, Z.max_l by lia. done.
  - destruct grow as [|junk].
    + rewrite set_run_fail in Hrun by (done || lia). done.
    + rewrite set_run_grow in Hrun by (done || lia).
      inversion Hrun; subst. rewrite Z.max_r by lia. split; [done|].
      destruct Hlinv as [Hlen _], Hal as [Hpos _].
      rewrite (proj2 (lookup_ge_None (entries (the_list w)) (Z.to_nat slot)));
        [done|unfold entries; lia].
Qed.

Lemma list_inv_after_set (slot : Z) (c : DBusDataSlot) (l : DBusDataSlotList) :
  list_inv l → 0 <= slot < Int.max_signed →
  list_inv
    {| slots := Some (<[Z.to_nat slot := c]>
                        (entries l
                         ++ replicate (Z.to_nat (slot + 1 - n_slots l)) empty_slot));
       n_slots := Z.max (n_slots l) (slot + 1) |}.
Proof.
  intros [Hlen Hmax] Hslot. fold (entries l) in Hlen. split; fields; simpl.
  - rewrite length_insert, length_app, length_replicate. lia.
  - lia.
Qed.

(** X10. What was set is what is got: after a [set] that succeeds, [get]
    on the same slot returns the value just stored, and [get] on any other
    allocated slot returns what it returned before the [set]. *)
Theorem set_then_get (grow : realloc_result DBusDataSlot) (slot : Z)
    (p : pointer) (f : DBusFreeFunction) (w w' : world)
    (old : DBusFreeFunction * pointer) :
  allocator_inv (the_allocator w) →
  allocated (the_allocator w) slot →
  list_inv (the_list w) →
  _dbus_data_slot_list_set grow slot p f w = Some (Some old, w') →
  _dbus_data_slot_list_get slot w' = Some (p, w')
  ∧ ∀ j : Z, j ≠ slot → allocated (the_allocator w) j →
      ∃ v : pointer,
        _dbus_data_slot_list_get j w = Some (v, w)
        ∧ _dbus_data_slot_list_get j w' = Some (v, w').
Proof.
  intros Hinv Hal Hlinv Hrun.
  destruct (set_success_shape _ _ _ _ _ _ _ Hinv Hal Hlinv Hrun) as [Hw' _].
  destruct (valid_slot_bounds w slot Hinv Hal) as [[Hpos Hlt] Hmax].
  pose proof (list_inv_after_set slot {| data := p; free_data_func := f |}
                (the_list w) Hlinv ltac:(lia)) as Hlinv'.
  pose proof (linv_length _ Hlinv) as Hlen. fold (entries (the_list w)) in Hlen.
  assert (the_allocator w' = the_allocator w) as Ha by (by subst w').
  assert (entries (the_list w')
          = <[Z.to_nat slot := {| data := p; free_data_func := f |}]>
              (entries (the_list w)
               ++ replicate (Z.to_nat (slot + 1 - n_slots (the_list w)))
                    empty_slot)) as He by (by subst w').
  assert (list_inv (the_list w')) as Hl' by (by subst w').
  clear Hw'. split.
  - rewrite get_run by (by rewrite ?Ha). rewrite He.
    rewrite list_lookup_insert_eq; [done|].
    rewrite length_app, length_replicate. lia.
  - intros j Hne Hj. eexists. split; [by apply get_run|].
    rewrite get_run by (by rewrite ?Ha). f_equal. f_equal.
    destruct Hj as [Hjpos _]. rewrite He.
    rewrite list_lookup_insert_ne by lia.
    destruct (entries (the_list w) !! Z.to_nat j) as [c|] eqn:Hc.
    + by rewrite (lookup_app_l_Some _ _ _ _ Hc).
    + apply lookup_ge_None in Hc. rewrite lookup_app_r by done.
      destruct (replicate _ empty_slot !! _) as [c|] eqn:Hr; [|done].
      apply lookup_replicate in Hr as [-> _]. done.
Qed.

Lemma set_then_get_witness :
  _dbus_data_slot_list_get 2
    (with_slots [0; 1; 2] 3
       [{| data := 100; free_data_func := 500 |}; empty_slot;
        {| data := 102; free_data_func := 502 |}])
  = Some (102,
          with_slots [0; 1; 2] 3
            [{| data := 100; free_data_func := 500 |}; empty_slot;
             {| data := 102; free_data_func := 502 |}])
  ∧ ∀ j : Z, j ≠ 2 →
      allocated (the_allocator
                   (with_slots [0; 1; 2] 3
                      [{| data := 100; free_data_func := 500 |}])) j →
      ∃ v : pointer,
        _dbus_data_slot_list_get j
          (with_slots [0; 1; 2] 3 [{| data := 100; free_data_func := 500 |}])
        = Some (v, with_slots [0; 1; 2] 3
                     [{| data := 100; free_data_func := 500 |}])
        ∧ _dbus_data_slot_list_get j
            (with_slots [0; 1; 2] 3
               [{| data := 100; free_data_func := 500 |}; empty_slot;
                {| data := 102; free_data_func := 502 |}])
          = Some (v, with_slots [0; 1; 2] 3
                       [{| data := 100; free_data_func := 500 |}; empty_slot;
                        {| data := 102; free_data_func := 502 |}]).
Proof.
  apply (set_then_get (Resized garbage_slot) 2 102 502
           (with_slots [0; 1; 2] 3 [{| data := 100; free_data_func := 500 |}])
           (with_slots [0; 1; 2] 3
              [{| data := 100; free_data_func := 500 |}; empty_slot;
               {| data := 102; free_data_func := 502 |}])
           (NULL, NULL)).
  - apply allocator_invb_sound. vm_compute. reflexivity.
  - split; [lia|reflexivity].
  - apply list_inv_blocks. vm_compute. discriminate.
  - vm_compute. reflexivity.
Defined.

(** X11. Ownership is handed back: after a [set] that stored a pair at a
    slot, the next [set] on that slot succeeds whatever [dbus_realloc] would
    do, hands back exactly that pair, and neither of the two calls has
    called a free function. *)
Theorem set_twice_hands_back_first
    (grow1 grow2 : realloc_result DBusDataSlot) (slot : Z)
    (p1 p2 : pointer) (f1 f2 : DBusFreeFunction) (w w1 : world)
    (old : DBusFreeFunction * pointer) :
  allocator_inv (the_allocator w) →
  allocated (the_allocator w) slot →
  list_inv (the_list w) →
  _dbus_data_slot_list_set grow1 slot p1 f1 w = Some (Some old, w1) →
  ∃ w2 : world,
    _dbus_data_slot_list_set grow2 slot p2 f2 w1 = Some (Some (f1, p1), w2)
    ∧ calls w2 = calls w
    ∧ n_slots (the_list w2) = n_slots (the_list w1).
Proof.
  intros Hinv Hal Hlinv Hrun.
  destruct (set_success_shape _ _ _ _ _ _ _ Hinv Hal Hlinv Hrun) as [Hw1 _].
  destruct (valid_slot_bounds w slot Hinv Hal) as [[Hpos Hlt] Hmax].
  pose proof (list_inv_after_set slot {| data := p1; free_data_func := f1 |}
                (the_list w) Hlinv ltac:(lia)) as Hlinv1.
  pose proof (linv_length _ Hlinv) as Hlen. fold (entries (the_list w)) in Hlen.
  destruct (set_run_within w1 slot) with (grow := grow2) (p := p2) (f := f2)
    as (c & Hc & Hrun2); try (by subst w1).
  { subst w1. fields. lia. }
  eexists. split; [|split].
  - rewrite Hrun2. do 3 f_equal.
    subst w1. unfold entries in Hc. fields. simpl in Hc.
    rewrite list_lookup_insert_eq in Hc.
    + by injection Hc as <-.
    + rewrite length_app, length_replicate. fold (entries (the_list w)). lia.
  - by subst w1.
  - done.
Qed.

Lemma set_twice_hands_back_first_witness :
  ∃ w2 : world,
    _dbus_data_slot_list_set OutOfMemory 1 201 601
      (with_slots [0; 1; 2] 3
         [{| data := 100; free_data_func := 500 |};
          {| data := 101; free_data_func := 501 |}])
    = Some (Some (501, 101), w2)
    ∧ calls w2 = []
    ∧ n_slots (the_list w2) = 2.
Proof.
  apply (set_twice_hands_back_first (Resized garbage_slot) OutOfMemory 1
           101 201 501 601
           (with_slots [0; 1; 2] 3 [{| data := 100; free_data_func := 500 |}])
           (with_slots [0; 1; 2] 3
              [{| data := 100; free_data_func := 500 |};
               {| data := 101; free_data_func := 501 |}])
           (NULL, NULL)).
  - apply allocator_invb_sound. vm_compute. reflexivity.
  - split; [lia|reflexivity].
  - apply list_inv_blocks. vm_compute. discriminate.
  - vm_compute. reflexivity.
Defined.

(** X12. [set] is all or nothing and never shrinks the list.  On an
    allocated slot it has a result, keeps the invariant of the list and
    touches neither the allocator nor the call log.  It fails only when the
    slot is at or beyond the length of the list and [dbus_realloc] fails,
    and then nothing has changed; when it succeeds the length is the larger
    of the old length and [slot + 1]. *)
Theorem set_is_all_or_nothing (grow : realloc_result DBusDataSlot)
    (slot : Z) (p : pointer) (f : DBusFreeFunction) (w : world) :
  allocator_inv (the_allocator w) →
  allocated (the_allocator w) slot →
  list_inv (the_list w) →
  ∃ (res : option (DBusFreeFunction * pointer)) (w' : world),
    _dbus_data_slot_list_set grow slot p f w = Some (res, w')
    ∧ list_inv (the_list w')
    ∧ the_allocator w' = the_allocator w ∧ calls w' = calls w
    ∧ (res = None ↔ n_slots (the_list w) <= slot ∧ grow = OutOfMemory)
    ∧ (res = None → w' = w)
    ∧ (res ≠ None →
       n_slots (the_list w') = Z.max (n_slots (the_list w)) (slot + 1)).
Proof.
  intros Hinv Hal Hlinv.
  destruct (valid_slot_bounds w slot Hinv Hal) as [[Hpos Hlt] Hmax].
  assert (∀ (old : DBusFreeFunction * pointer) (w' : world),
            _dbus_data_slot_list_set grow slot p f w = Some (Some old, w') →
            list_inv (the_list w')
            ∧ the_allocator w' = the_allocator w ∧ calls w' = calls w
            ∧ n_slots (the_list w') = Z.max (n_slots (the_list w)) (slot + 1))
    as Hok.
  { intros old w' Hrun.
    destruct (set_success_shape _ _ _ _ _ _ _ Hinv Hal Hlinv Hrun) as [-> _].
    split; [|done]. apply list_inv_after_set; [done|lia]. }
  destruct (decide (slot < n_slots (the_list w))) as [Hin|Hout].
  - destruct (set_run_within w slot Hinv Hal grow p f Hlinv Hin) as (c & Hc & H).
    destruct (Hok _ _ H) as (? & ? & ? & ?).
    eexists _, _. split; [exact H|]. repeat (split; [done|]).
    split; [split; [done|lia]|]. split; [done|]. done.
  - destruct grow as [|junk].
    + eexists _, _. split; [apply set_run_fail; [done|done|lia]|].
      repeat (split; [done|]). split; [split; [intros _; split; [lia|done]|done]|].
      split; done.
    + pose proof (set_run_grow w slot Hinv Hal junk p f Hlinv ltac:(lia)) as H.
      destruct (Hok _ _ H) as (? & ? & ? & ?).
      eexists _, _. split; [exact H|]. repeat (split; [done|]).
      split; [split; [done|intros [_ ?]; done]|]. split; [done|]. done.
Qed.

Lemma set_is_all_or_nothing_witness :
  ∃ (res : option (DBusFreeFunction * pointer)) (w' : world),
    _dbus_data_slot_list_set OutOfMemory 2 102 502
      (with_slots [0; 1; 2] 3 [{| data := 100; free_data_func := 500 |}])
    = Some (res, w')
    ∧ list_inv (the_list w')
    ∧ the_allocator w' = the_allocator (with_allocator [0; 1; 2] 3)
    ∧ calls w' = []
    ∧ (res = None ↔ 1 <= 2 ∧ @OutOfMemory DBusDataSlot = OutOfMemory)
    ∧ (res = None →
       w' = with_slots [0; 1; 2] 3 [{| data := 100; free_data_func := 500 |}])
    ∧ (res ≠ None → n_slots (the_list w') = Z.max 1 (2 + 1)).
Proof.
  apply (set_is_all_or_nothing OutOfMemory 2 102 502
           (with_slots [0; 1; 2] 3 [{| data := 100; free_data_func := 500 |}])).
  - apply allocator_invb_sound. vm_compute. reflexivity.
  - split; [lia|reflexivity].
  - apply list_inv_blocks. vm_compute. discriminate.
Defined.

(** X13. Destroying a list leaves a list that can be destroyed again and
    used again: a second destroy has a result, calls no free function and
    changes nothing, and [get] on any allocated slot returns [NULL]. *)
Theorem list_free_leaves_empty_list (w : world) :
  list_inv (the_list w) →
  ∃ w1 : world,
    _dbus_data_slot_list_free w = Some (tt, w1)
    ∧ list_inv (the_list w1)
    ∧ _dbus_data_slot_list_free w1 = Some (tt, w1)
    ∧ ∀ slot : Z,
        allocator_inv (the_allocator w) →
        allocated (the_allocator w) slot →
        _dbus_data_slot_list_get slot w1 = Some (NULL, w1).
Proof.
  intros Hlinv. eexists. split; [by apply list_free_run|].
  set (w1 := set_calls _ _).
  assert (list_inv (the_list w1)) as Hlinv1.
  { split; [reflexivity|]. unfold Int.max_signed. simpl. lia. }
  split; [done|]. split.
  - rewrite (list_free_run w1 Hlinv1). subst w1. unfold entries. fields.
    cbn [default from_option pending_calls omap list_omap].
    rewrite app_nil_r. reflexivity.
  - intros slot Hinv Hal. apply get_run_beyond; try done.
    subst w1. fields. by destruct Hal.
Qed.

Lemma list_free_leaves_empty_list_witness :
  ∃ w1 : world,
    _dbus_data_slot_list_free
      (with_slots [0; 1] 2
         [{| data := 100; free_data_func := 500 |};
          {| data := 101; free_data_func := 501 |}])
    = Some (tt, w1)
    ∧ list_inv (the_list w1)
    ∧ _dbus_data_slot_list_free w1 = Some (tt, w1)
    ∧ ∀ slot : Z,
        allocator_inv (the_allocator (with_allocator [0; 1] 2)) →
        allocated (the_allocator (with_allocator [0; 1] 2)) slot →
        _dbus_data_slot_list_get slot w1 = Some (NULL, w1).
Proof.
  apply (list_free_leaves_empty_list
           (with_slots [0; 1] 2
              [{| data := 100; free_data_func := 500 |};
               {| data := 101; free_data_func := 501 |}])).
  apply list_inv_blocks. vm_compute. discriminate.
Defined.

Lemma set_unallocated_stops (grow : realloc_result DBusDataSlot) (slot : Z)
    (p : pointer) (f : DBusFreeFunction) (w : world) :
  allocator_inv (the_allocator w) →
  ¬ allocated (the_allocator w) slot →
  _dbus_data_slot_list_set grow slot p f w = None.
Proof.
  intros Hinv Hnot. unfold _dbus_data_slot_list_set.
  rewrite run_bind. unfold read_allocator at 1. cbv beta iota.
  by apply slot_checks_stop.
Qed.

Lemma get_unallocated_stops (slot : Z) (w : world) :
  allocator_inv (the_allocator w) →
  ¬ allocated (the_allocator w) slot →
  _dbus_data_slot_list_get slot w = None.
Proof.
  intros Hinv Hnot. unfold _dbus_data_slot_list_get.
  rewrite run_bind. unfold read_allocator at 1. cbv beta iota.
  by apply slot_checks_stop.
Qed.

(** X14. The data of a released identifier stays in the list.  The free of
    an allocated slot does not touch the list; afterwards [get] and [set] on
    that slot stop at their assertion, so the data cannot be retrieved; and
    when a later allocation returns an identifier, [get] on it returns
    whatever the list held at that index before, [NULL] if the list did not
    reach it. *)
Theorem released_identifier_keeps_its_data (slot : Z) (w : world) :
  allocator_inv (the_allocator w) →
  allocated (the_allocator w) slot →
  list_inv (the_list w) →
  ∃ w1 : world,
    _dbus_data_slot_allocator_free slot w = Some (tt, w1)
    ∧ the_list w1 = the_list w
    ∧ _dbus_data_slot_list_get slot w1 = None
    ∧ (∀ (grow : realloc_result DBusDataSlot) (p : pointer) (f : DBusFreeFunction),
         _dbus_data_slot_list_set grow slot p f w1 = None)
    ∧ ∀ (locked : bool) (grow : realloc_result Z) (r : Z) (w2 : world),
        _dbus_data_slot_allocator_alloc locked grow w1 = Some (r, w2) →
        0 <= r →
        _dbus_data_slot_list_get r w2
        = Some (match entries (the_list w) !! Z.to_nat r with
                | Some c => data c
                | None => NULL
                end, w2).
Proof.
  intros Hinv Hal Hlinv.
  destruct (free_step slot w Hinv Hal) as (w1 & Hrun & Hinv1 & _ & Hiff).
  destruct (free_frame slot w w1 Hinv Hal Hrun) as (Hl & _).
  assert (¬ allocated (the_allocator w1) slot) as Hnot.
  { intros H. apply Hiff in H. by destruct H. }
  exists w1. split; [done|]. split; [done|].
  split; [by apply get_unallocated_stops|].
  split; [intros; by apply set_unallocated_stops|].
  intros locked grow r w2 Halloc Hpos.
  destruct (alloc_frame _ _ _ _ _ Hinv1 Halloc) as (Hl2 & _).
  destruct (alloc_step _ _ _ _ _ Hinv1 Halloc)
    as [[-> _]|(_ & _ & Hinv2 & _ & Hiff2)]; [lia|].
  rewrite get_run; [by rewrite Hl2, Hl|done|apply Hiff2; by left|].
  by rewrite Hl2, Hl.
Qed.

Lemma released_identifier_keeps_its_data_witness :
  ∃ w1 : world,
    _dbus_data_slot_allocator_free 1
      (with_slots [0; 1] 2
         [{| data := 100; free_data_func := 500 |};
          {| data := 101; free_data_func := 501 |}])
    = Some (tt, w1)
    ∧ the_list w1
      = the_list (with_slots [0; 1] 2
                    [{| data := 100; free_data_func := 500 |};
                     {| data := 101; free_data_func := 501 |}])
    ∧ _dbus_data_slot_list_get 1 w1 = None
    ∧ (∀ (grow : realloc_result DBusDataSlot) (p : pointer) (f : DBusFreeFunction),
         _dbus_data_slot_list_set grow 1 p f w1 = None)
    ∧ ∀ (locked : bool) (grow : realloc_result Z) (r : Z) (w2 : world),
        _dbus_data_slot_allocator_alloc locked grow w1 = Some (r, w2) →
        0 <= r →
        _dbus_data_slot_list_get r w2
        = Some (match [{| data := 100; free_data_func := 500 |};
                       {| data := 101; free_data_func := 501 |}] !! Z.to_nat r with
                | Some c => data c
                | None => NULL
                end, w2).
Proof.
  apply (released_identifier_keeps_its_data 1
           (with_slots [0; 1] 2
              [{| data := 100; free_data_func := 500 |};
               {| data := 101; free_data_func := 501 |}])).
  - apply allocator_invb_sound. vm_compute. reflexivity.
  - split; [lia|reflexivity].
  - apply list_inv_blocks. vm_compute. discriminate.
Defined.

(** X15. A slot that is not allocated and not negative, so one that is
    beyond the table or whose cell is free, is refused by an assertion: in a
    state that satisfies the invariant of the allocator, either the slot is
    not below the number of allocated slots, which fails the first assertion
    of [free], [set] and [get], or its cell is inside the table and holds a
    value other than the slot, which fails the second; and each of the three
    functions has no result on it. *)
Theorem unallocated_slot_is_refused (grow : realloc_result DBusDataSlot)
    (slot : Z) (p : pointer) (f : DBusFreeFunction) (w : world) :
  allocator_inv (the_allocator w) →
  0 <= slot →
  ¬ allocated (the_allocator w) slot →
  ((slot <? n_allocated_slots (the_allocator w)) = false
   ∨ ∃ v : Z,
       load (allocated_slots (the_allocator w)) slot w = Some (v, w)
       ∧ (v =? slot) = false)
  ∧ _dbus_data_slot_allocator_free slot w = None
  ∧ _dbus_data_slot_list_set grow slot p f w = None
  ∧ _dbus_data_slot_list_get slot w = None.
Proof.
  intros Hinv Hpos Hnot. split.
  - destruct (slot <? n_allocated_slots (the_allocator w)) eqn:Hlt; [|by left].
    right. apply Z.ltb_lt in Hlt.
    pose proof (inv_length _ Hinv) as Hlen. unfold table in *.
    destruct (allocated_slots (the_allocator w)) as [t|] eqn:Ht;
      simpl in Hlen; [|lia].
    destruct (lookup_lt_is_Some_2 t (Z.to_nat slot)) as [v Hv]; [lia|].
    exists v. split; [by apply run_load_Z|].
    apply Z.eqb_neq. intros ->. apply Hnot. split; [done|].
    unfold table. by rewrite Ht.
  - split; [by apply free_unallocated_stops|].
    split; [by apply set_unallocated_stops|by apply get_unallocated_stops].
Qed.

Lemma unallocated_slot_is_refused_witness :
  ((1 <? n_allocated_slots (the_allocator (with_allocator [0; -1; 2] 2))) = false
   ∨ ∃ v : Z,
       load (allocated_slots (the_allocator (with_allocator [0; -1; 2] 2))) 1
         (with_allocator [0; -1; 2] 2)
       = Some (v, with_allocator [0; -1; 2] 2)
       ∧ (v =? 1) = false)
  ∧ _dbus_data_slot_allocator_free 1 (with_allocator [0; -1; 2] 2) = None
  ∧ _dbus_data_slot_list_set (Resized garbage_slot) 1 101 501
      (with_allocator [0; -1; 2] 2) = None
  ∧ _dbus_data_slot_list_get 1 (with_allocator [0; -1; 2] 2) = None.
Proof.
  apply (unallocated_slot_is_refused (Resized garbage_slot) 1 101 501
           (with_allocator [0; -1; 2] 2)).
  - apply allocator_invb_sound. vm_compute. reflexivity.
  - lia.
  - intros [_ H]. vm_compute in H. discriminate.
Defined.

(** ** The test of the source passes *)

Example test_with_100_slots :
  ∃ w : world,
    _dbus_data_slot_test generous 4096 100 empty_world = Some (true, w)
    ∧ the_allocator w = {| allocated_slots := None; n_allocated_slots := 0;
                           n_used_slots := 0; lock := 1 |}
    ∧ the_list w = {| slots := None; n_slots := 0 |}
    ∧ length (calls w) = 100%nat.
Proof. eexists. vm_compute. done. Qed.

(** In a table without free cell every slot below its length is
    allocated. *)
Lemma full_table_allocated (a : DBusDataSlotAllocator) (s : Z) :
  allocator_inv a → n_used_slots a = n_allocated_slots a →
  0 <= s < n_allocated_slots a → allocated a s.
Proof.
  intros [Hlen Hmax Hok Hused] Heq [Hs0 Hsn]. split; [done|].
  destruct (lookup_lt_is_Some_2 (table a) (Z.to_nat s)) as [u Hu]; [lia|].
  rewrite Hu. f_equal.
  destruct (decide (u = s)) as [|Hne]; [done|exfalso].
  pose proof (count_used_from_insert _ 0 (Z.to_nat s) u s Hu) as Hi.
  pose proof (count_used_from_bounds (<[Z.to_nat s := s]> (table a)) 0) as Hb.
  rewrite length_insert in Hb. cbn [Nat.add] in Hi.
  replace (u =? Z.of_nat (Z.to_nat s)) with false in Hi
    by (symmetry; apply Z.eqb_neq; lia).
  replace (s =? Z.of_nat (Z.to_nat s)) with true in Hi
    by (symmetry; apply Z.eqb_eq; lia).
  unfold count_used in Hused. lia.
Qed.

Lemma run_test_alloc_loop (env : test_env) (N : Z) (fuel : nat) (i : Z)
    (w : world) :
  allocator_inv (the_allocator w) →
  n_allocated_slots (the_allocator w) = i →
  n_used_slots (the_allocator w) = i →
  0 <= i <= N → N <= Int.max_signed →
  (Z.to_nat (N - i) ≤ fuel)%nat →
  (∀ j : Z, i <= j < N →
     env_locked env j = true ∧ ∃ junk : nat → Z, env_table env j = Resized junk) →
  ∃ w' : world,
    test_alloc_loop env N fuel i w = Some (tt, w')
    ∧ (N <= i → w' = w)
    ∧ allocator_inv (the_allocator w')
    ∧ n_allocated_slots (the_allocator w') = N
    ∧ n_used_slots (the_allocator w') = N
    ∧ lock (the_allocator w') = lock (the_allocator w)
    ∧ the_list w' = the_list w ∧ calls w' = calls w.
Proof.
  revert i w. induction fuel as [|fuel IH];
    intros i w Hinv Hn Hu Hi Hmax Hfuel Henv.
  - exists w. cbn [test_alloc_loop]. take_false.
    split; [reflexivity|]. split; [done|]. split; [done|].
    split; [lia|]. split; [lia|]. done.
  - cbn [test_alloc_loop]. destruct (decide (i < N)) as [Hlt|Hge].
    2:{ exists w. take_false.
        split; [reflexivity|]. split; [done|]. split; [done|].
        split; [lia|]. split; [lia|]. done. }
    take_true. destruct (Henv i) as (Hl & junk & Hj); [lia|].
    rewrite run_bind, Hl, Hj, alloc_run_grow by (done || lia).
    replace (n_allocated_slots (the_allocator w) =? i) with true
      by (symmetry; apply Z.eqb_eq; lia).
    cbv beta iota.
    rewrite run_bind. unfold mret at 1, exec_ret at 1.
    rewrite run_bind, run_int_add by (unfold Int.min_signed, Int.max_signed in *; lia).
    set (w1 := set_the_allocator _ w).
    destruct (inv_after_grow (the_allocator w) Hinv) as (Hinv1 & _); [lia|lia|].
    destruct (IH (i + 1) w1) as (w' & Hrun & _ & H').
    + exact Hinv1.
    + subst w1. fields. lia.
    + subst w1. fields. lia.
    + lia.
    + done.
    + lia.
    + intros j Hj'. apply Henv. lia.
    + exists w'. split; [exact Hrun|]. split; [lia|]. exact H'.
Qed.

Lemma test_entries_length (fn : DBusFreeFunction) (n : nat) :
  length (test_entries fn n) = n.
Proof. unfold test_entries. by rewrite length_fmap, length_seq. Qed.

Lemma test_entries_S (fn : DBusFreeFunction) (n : nat) :
  test_entries fn (S n)
  = test_entries fn n ++ [{| data := Z.of_nat n; free_data_func := fn |}].
Proof. unfold test_entries. by rewrite seq_S, fmap_app. Qed.

Lemma test_entries_lookup (fn : DBusFreeFunction) (n j : nat) :
  (j < n)%nat →
  test_entries fn n !! j = Some {| data := Z.of_nat j; free_data_func := fn |}.
Proof.
  intros Hj. unfold test_entries. rewrite list_lookup_fmap, lookup_seq_lt by done.
  reflexivity.
Qed.

Lemma run_test_set_loop (env : test_env) (fn : DBusFreeFunction) (N : Z)
    (fuel : nat) (i : Z) (w : world) :
  allocator_inv (the_allocator w) →
  (∀ j : Z, 0 <= j < N → allocated (the_allocator w) j) →
  list_inv (the_list w) →
  entries (the_list w) = test_entries fn (Z.to_nat i) →
  0 <= i <= N →
  (Z.to_nat (N - i) ≤ fuel)%nat →
  (∀ j : Z, i <= j < N →
     ∃ junk : nat → DBusDataSlot, env_first env j = Resized junk) →
  ∃ w' : world,
    test_set_loop env fn N fuel i w = Some (tt, w')
    ∧ the_allocator w' = the_allocator w ∧ calls w' = calls w
    ∧ list_inv (the_list w')
    ∧ entries (the_list w') = test_entries fn (Z.to_nat N).
Proof.
  revert i w. induction fuel as [|fuel IH];
    intros i w Hinv Hall Hlinv Hent Hi Hfuel Henv.
  - exists w. cbn [test_set_loop]. take_false.
    split; [reflexivity|]. replace N with i by lia. done.
  - cbn [test_set_loop]. destruct (decide (i < N)) as [Hlt|Hge].
    2:{ exists w. take_false. split; [reflexivity|]. replace N with i by lia. done. }
    take_true. destruct (Henv i) as (junk & Hj); [lia|].
    assert (allocated (the_allocator w) i) as Hal by (apply Hall; lia).
    assert (n_slots (the_list w) = i) as Hn.
    { rewrite <- (linv_length _ Hlinv). fold (entries (the_list w)).
      rewrite Hent, test_entries_length. lia. }
    rewrite run_bind, Hj, (set_run_grow w i Hinv Hal) by (done || lia).
    rewrite Hn, Hent.
    replace (Z.to_nat (i + 1 - i)) with 1%nat by lia.
    cbn [replicate].
    assert (<[Z.to_nat i := {| data := _DBUS_INT_TO_POINTER i;
                               free_data_func := fn |}]>
              (test_entries fn (Z.to_nat i) ++ [empty_slot])
            = test_entries fn (Z.to_nat (i + 1))) as Hins.
    { replace (Z.to_nat (i + 1)) with (S (Z.to_nat i)) by lia.
      rewrite test_entries_S, Z2Nat.id by lia.
      rewrite <- (test_entries_length fn (Z.to_nat i)) at 1.
      apply insert_last. }
    rewrite Hins.
    set (w1 := set_the_list _ w).
    assert (list_inv (the_list w1)) as Hlinv1.
    { subst w1. split; fields; simpl.
      - rewrite test_entries_length. lia.
      - destruct (valid_slot_bounds w i Hinv Hal). lia. }
    assert (entries (the_list w1) = test_entries fn (Z.to_nat (i + 1))) as Hent1.
    { by subst w1. }
    rewrite run_bind, run_assert_true by reflexivity.
    rewrite run_bind, run_assert_true by reflexivity.
    rewrite run_bind, (get_run i w1) by done.
    rewrite Hent1, test_entries_lookup by lia.
    cbn [data]. rewrite Z2Nat.id by lia.
    rewrite run_bind, run_assert_true by apply Z.eqb_refl.
    destruct (valid_slot_bounds w i Hinv Hal) as [[_ Hlta] Hmax].
    rewrite run_bind, run_int_add
      by (unfold Int.min_signed, Int.max_signed in *; lia).
    destruct (IH (i + 1) w1) as (w' & Hrun & H'); try done; try lia.
    + intros j Hj'. apply Henv. lia.
    + exists w'. split; [exact Hrun|]. exact H'.
Qed.

Lemma run_call_through (fn : DBusFreeFunction) (p : pointer) (w : world) :
  p < Int.max_signed → Int.min_signed <= p →
  call_through fn fn p p w = Some (p + 1, w).
Proof.
  intros Hp Hp'. unfold call_through, test_free_slot_data_func,
    _DBUS_POINTER_TO_INT.
  rewrite Z.eqb_refl, run_bind, run_assert_true by apply Z.eqb_refl.
  apply run_int_add. lia.
Qed.

Lemma run_test_replace_loop (env : test_env) (fn : DBusFreeFunction) (N : Z)
    (fuel : nat) (i : Z) (w : world) :
  allocator_inv (the_allocator w) →
  (∀ j : Z, 0 <= j < N → allocated (the_allocator w) j) →
  list_inv (the_list w) →
  entries (the_list w) = test_entries fn (Z.to_nat N) →
  0 <= i <= N →
  (Z.to_nat (N - i) ≤ fuel)%nat →
  test_replace_loop env fn N fuel i i w = Some (N, w).
Proof.
  revert i. induction fuel as [|fuel IH]; intros i Hinv Hall Hlinv Hent Hi Hfuel.
  - cbn [test_replace_loop]. take_false. replace N with i by lia. reflexivity.
  - cbn [test_replace_loop]. destruct (decide (i < N)) as [Hlt|Hge].
    2:{ take_false. replace N with i by lia. reflexivity. }
    take_true.
    assert (allocated (the_allocator w) i) as Hal by (apply Hall; lia).
    destruct (valid_slot_bounds w i Hinv Hal) as [[_ Hlta] Hmax].
    assert (n_slots (the_list w) = N) as Hn.
    { rewrite <- (linv_length _ Hlinv). fold (entries (the_list w)).
      rewrite Hent, test_entries_length. lia. }
    destruct (set_run_within w i Hinv Hal (env_second env i)
                (_DBUS_INT_TO_POINTER i) fn Hlinv) as (c & Hc & Hrun); [lia|].
    rewrite Hent, test_entries_lookup in Hc by lia. injection Hc as <-.
    rewrite Z2Nat.id in Hrun by lia.
    assert (set_the_list
              {| slots :=
                   Some (<[Z.to_nat i := {| data := _DBUS_INT_TO_POINTER i;
                                            free_data_func := fn |}]>
                           (entries (the_list w)));
                 n_slots := n_slots (the_list w) |} w = w) as Hsame.
    { rewrite list_insert_id.
      - unfold entries in *. destruct w as [a [[s|] n] c]; simpl in *; [done|].
        pose proof (test_entries_length fn (Z.to_nat N)) as Hl.
        rewrite <- Hent in Hl. simpl in Hl. lia.
      - rewrite Hent, test_entries_lookup by lia.
        unfold _DBUS_INT_TO_POINTER. by rewrite Z2Nat.id by lia. }
    rewrite Hsame in Hrun. cbn [data free_data_func] in Hrun.
    rewrite run_bind, Hrun.
    rewrite run_bind, run_assert_true by apply Z.eqb_refl.
    rewrite run_bind, run_assert_true by apply Z.eqb_refl.
    rewrite run_bind, run_call_through
      by (unfold Int.min_signed, Int.max_signed in *; lia).
    rewrite run_bind, run_int_sub
      by (unfold Int.min_signed, Int.max_signed in *; lia).
    rewrite run_bind, run_assert_true by (apply Z.eqb_eq; lia).
    rewrite run_bind, (get_run i w) by done.
    rewrite Hent, test_entries_lookup by lia.
    cbn [data]. rewrite Z2Nat.id by lia.
    rewrite run_bind, run_assert_true by apply Z.eqb_refl.
    rewrite run_bind, run_int_add
      by (unfold Int.min_signed, Int.max_signed in *; lia).
    apply IH; try done; lia.
Qed.

Lemma pending_calls_test_entries (fn : DBusFreeFunction) (n : nat) :
  fn ≠ NULL →
  pending_calls (test_entries fn n) = (λ j, (fn, Z.of_nat j)) <$> seq 0 n.
Proof.
  intros Hfn. unfold test_entries. generalize 0%nat.
  induction n as [|n IH]; intros m; [done|].
  cbn [seq fmap list_fmap]. rewrite pending_calls_cons. cbn [free_data_func data].
  replace (fn =? NULL) with false by (symmetry; by apply Z.eqb_neq).
  simpl. f_equal. apply IH.
Qed.

Lemma run_deliver (fn : DBusFreeFunction) (k m : nat) (w : world) :
  Z.of_nat (m + k) <= Int.max_signed →
  deliver fn ((λ j, (fn, Z.of_nat j)) <$> seq m k) (Z.of_nat m) w
  = Some (Z.of_nat (m + k), w).
Proof.
  revert m. induction k as [|k IH]; intros m Hmax.
  - simpl. by rewrite Nat.add_0_r.
  - cbn [seq fmap list_fmap deliver].
    rewrite run_bind, run_call_through
      by (unfold Int.min_signed, Int.max_signed in *; lia).
    replace (Z.of_nat m + 1) with (Z.of_nat (S m)) by lia.
    rewrite IH by lia. do 2 f_equal. lia.
Qed.

Lemma run_test_free_loop (N : Z) (fuel : nat) (i : Z) (w : world) :
  allocator_inv (the_allocator w) →
  (∀ j : Z, i <= j < N → allocated (the_allocator w) j) →
  n_used_slots (the_allocator w) = N - i →
  0 <= i <= N →
  (Z.to_nat (N - i) ≤ fuel)%nat →
  ∃ w' : world,
    test_free_loop N fuel i w = Some (tt, w')
    ∧ (N <= i → w' = w)
    ∧ (i < N →
       the_allocator w'
       = {| allocated_slots := None; n_allocated_slots := 0;
            n_used_slots := 0; lock := lock (the_allocator w) |})
    ∧ the_list w' = the_list w ∧ calls w' = calls w.
Proof.
  revert i w. induction fuel as [|fuel IH]; intros i w Hinv Hall Hu Hi Hfuel.
  - exists w. cbn [test_free_loop]. take_false.
    split; [reflexivity|]. split; [done|]. split; [lia|done].
  - cbn [test_free_loop]. destruct (decide (i < N)) as [Hlt|Hge].
    2:{ exists w. take_false.
        split; [reflexivity|]. split; [done|]. split; [lia|done]. }
    take_true.
    assert (allocated (the_allocator w) i) as Hal by (apply Hall; lia).
    destruct (valid_slot_bounds w i Hinv Hal) as [[_ Hlta] Hmax].
    destruct (free_step i w Hinv Hal) as (w1 & Hrun & Hinv1 & _ & Hiff).
    destruct (free_frame i w w1 Hinv Hal Hrun) as (Hl1 & Hc1 & Hk1).
    destruct (allocated_table _ _ Hal) as (t & Ht & _ & _).
    rewrite run_bind, Hrun.
    rewrite run_bind, run_int_add
      by (unfold Int.min_signed, Int.max_signed in *; lia).
    destruct (decide (n_used_slots (the_allocator w) = 1)) as [Hone|Hmore].
    + rewrite (free_run_last i w Hinv Hal Hone) in Hrun.
      injection Hrun as <-.
      destruct fuel as [|fuel]; cbn [test_free_loop]; take_false;
        (eexists; split; [reflexivity|]; split; [lia|]; split; [done|done]).
    + rewrite (free_run_keep i w t Hinv Hal Ht Hmore) in Hrun.
      destruct (IH (i + 1) w1) as (w' & Hrun' & _ & Hempty & Hl' & Hc');
        try done; try lia.
      * intros j Hj. apply Hiff. split; [lia|]. apply Hall. lia.
      * injection Hrun as <-. fields. lia.
      * exists w'. split; [exact Hrun'|]. split; [lia|].
        split; [|by rewrite Hl', Hc'].
        intros _. rewrite Hempty by lia. by rewrite Hk1.
Qed.

(** X16. The test of the source passes for every number of slots.  With a
    mutex created, every lock taken, and memory granted to each allocation
    and to each first [set], [_dbus_data_slot_test] run with [N_SLOTS]
    slots, [N_SLOTS] between 0 and [INT_MAX], fails none of its assertions
    and returns [TRUE], whatever [dbus_realloc] would do in the second
    series of [set], which never calls it.  It leaves the allocator without
    table and the list empty, and the destruction of the list has called the
    free function of the test once on each of the values 0, ...,
    [N_SLOTS - 1], in that order. *)
Theorem data_slot_test_passes (env : test_env) (fn : DBusFreeFunction)
    (N : Z) (w0 : world) :
  0 <= N <= Int.max_signed →
  fn ≠ NULL →
  env_mutex env ≠ NULL →
  (∀ j : Z, 0 <= j < N →
     env_locked env j = true
     ∧ (∃ junk : nat → Z, env_table env j = Resized junk)
     ∧ ∃ junk : nat → DBusDataSlot, env_first env j = Resized junk) →
  ∃ w : world,
    _dbus_data_slot_test env fn N w0 = Some (true, w)
    ∧ the_allocator w
      = {| allocated_slots := None; n_allocated_slots := 0;
           n_used_slots := 0; lock := env_mutex env |}
    ∧ the_list w = {| slots := None; n_slots := 0 |}
    ∧ calls w = calls w0 ++ ((λ j, (fn, Z.of_nat j)) <$> seq 0 (Z.to_nat N)).
Proof.
  intros HN Hfn Hmutex Henv. unfold _dbus_data_slot_test.
  (* init *)
  destruct (allocator_inv_init (env_mutex env) w0)
    as (ok & w1 & Hinit & Ha1 & Hl1 & Hc1).
  assert (ok = true) as ->.
  { unfold _dbus_data_slot_allocator_init in Hinit. revert Hinit. exec_open.
    replace (env_mutex env =? NULL) with false
      by (symmetry; by apply Z.eqb_neq).
    by intros [= <- _]. }
  rewrite run_bind, Hinit. cbn [negb].
  rewrite run_bind. unfold mret at 1, exec_ret at 1.
  (* list_init *)
  destruct (list_inv_init w1) as (w2 & Hlinit & Hl2 & Hlinv2).
  assert (the_allocator w2 = the_allocator w1 ∧ calls w2 = calls w1)
    as [Ha2 Hc2].
  { revert Hlinit. unfold _dbus_data_slot_list_init. exec_open.
    by intros [= <-]. }
  rewrite run_bind, Hlinit.
  (* the allocations *)
  destruct (run_test_alloc_loop env N (Z.to_nat N) 0 w2)
    as (w3 & Hloop1 & Hsame3 & Hinv3 & Hn3 & Hu3 & Hk3 & Hl3 & Hc3);
    try (rewrite Ha2, Ha1; done); try lia.
  { intros j Hj. destruct (Henv j Hj) as (? & ? & _). done. }
  rewrite run_bind, Hloop1.
  assert (∀ j : Z, 0 <= j < N → allocated (the_allocator w3) j) as Hall3.
  { intros j Hj. apply full_table_allocated; [done|lia|lia]. }
  (* the first series of set *)
  destruct (run_test_set_loop env fn N (Z.to_nat N) 0 w3)
    as (w4 & Hloop2 & Ha4 & Hc4 & Hlinv4 & Hent4); try done; try lia.
  { by rewrite Hl3. }
  { by rewrite Hl3, Hl2. }
  { intros j Hj. destruct (Henv j) as (_ & _ & ?); [lia|done]. }
  rewrite run_bind, Hloop2.
  (* the second series of set *)
  rewrite run_bind, (run_test_replace_loop env fn N (Z.to_nat N) 0 w4);
    try (by rewrite Ha4); try done; try lia.
  (* the destruction of the list *)
  rewrite run_bind. unfold read_calls at 1. cbv beta iota.
  rewrite run_bind, (list_free_run w4 Hlinv4).
  rewrite run_bind. unfold read_calls at 1. cbv beta iota.
  cbn [calls set_calls]. rewrite drop_app_length.
  rewrite Hent4, (pending_calls_test_entries fn _ Hfn).
  set (w5 := set_calls _ _).
  pose proof (run_deliver fn (Z.to_nat N) 0 w5) as Hdeliver.
  change (Z.of_nat 0) with 0 in Hdeliver.
  change (0 + Z.to_nat N)%nat with (Z.to_nat N) in Hdeliver.
  rewrite run_bind, Hdeliver by lia.
  rewrite run_bind, run_assert_true by (apply Z.eqb_eq; lia).
  (* the frees *)
  destruct (run_test_free_loop N (Z.to_nat N) 0 w5)
    as (w6 & Hloop5 & Hnone & Hsome & Hl6 & Hc6); try lia.
  { subst w5. fields. by rewrite Ha4. }
  { subst w5. fields. rewrite Ha4. intros j Hj. apply Hall3. lia. }
  { subst w5. fields. rewrite Ha4. lia. }
  rewrite run_bind, Hloop5. exists w6. split; [reflexivity|].
  split; [|split].
  - destruct (decide (N = 0)) as [->|Hpos].
    + rewrite Hnone by lia. subst w5. fields.
      by rewrite Ha4, Hsame3, Ha2, Ha1 by lia.
    + rewrite Hsome by lia. subst w5. fields. by rewrite Ha4, Hk3, Ha2, Ha1.
  - rewrite Hl6. by subst w5.
  - rewrite Hc6. subst w5. fields. by rewrite Hc4, Hc3, Hc2, Hc1.
Qed.

Lemma data_slot_test_passes_witness :
  ∃ w : world,
    _dbus_data_slot_test generous 4096 100 empty_world = Some (true, w)
    ∧ the_allocator w
      = {| allocated_slots := None; n_allocated_slots := 0;
           n_used_slots := 0; lock := 1 |}
    ∧ the_list w = {| slots := None; n_slots := 0 |}
    ∧ calls w = [] ++ ((λ j, (4096, Z.of_nat j)) <$> seq 0 (Z.to_nat 100)).
Proof.
  apply (data_slot_test_passes generous 4096 100 empty_world).
  - unfold Int.max_signed. lia.
  - discriminate.
  - discriminate.
  - intros j Hj. split; [reflexivity|]. split; eexists; reflexivity.
Defined.

(** X17. A list that was just initialised is empty whatever it held before:
    [init] has a result and touches neither the allocator nor the call log;
    afterwards the list satisfies its invariant, [get] on any allocated slot
    returns [NULL], and destroying the list calls no free function and
    changes nothing. *)
Theorem list_init_gives_empty_list (w : world) :
  ∃ w' : world,
    _dbus_data_slot_list_init w = Some (tt, w')
    ∧ list_inv (the_list w')
    ∧ the_allocator w' = the_allocator w ∧ calls w' = calls w
    ∧ _dbus_data_slot_list_free w' = Some (tt, w')
    ∧ ∀ slot : Z,
        allocator_inv (the_allocator w) →
        allocated (the_allocator w) slot →
        _dbus_data_slot_list_get slot w' = Some (NULL, w').
Proof.
  destruct (list_inv_init w) as (w' & Hrun & Hl & Hlinv).
  assert (the_allocator w' = the_allocator w ∧ calls w' = calls w) as [Ha Hc].
  { revert Hrun. unfold _dbus_data_slot_list_init. exec_open. by intros [= <-]. }
  exists w'. split; [done|]. split; [done|]. split; [done|]. split; [done|].
  split.
  - rewrite (list_free_run w' Hlinv). unfold entries. rewrite Hl.
    cbn [slots default from_option pending_calls omap list_omap].
    rewrite app_nil_r. f_equal. f_equal.
    destruct w' as [a l c]. simpl in *. by subst.
  - intros slot Hinv Hal. apply get_run_beyond; rewrite ?Ha; try done.
    rewrite Hl. cbn [n_slots]. by destruct Hal.
Qed.

Lemma list_init_gives_empty_list_witness :
  ∃ w' : world,
    _dbus_data_slot_list_init
      (with_slots [0; 1] 2 [{| data := 100; free_data_func := 500 |}])
    = Some (tt, w')
    ∧ list_inv (the_list w')
    ∧ the_allocator w' = the_allocator (with_allocator [0; 1] 2)
    ∧ calls w' = []
    ∧ _dbus_data_slot_list_free w' = Some (tt, w')
    ∧ ∀ slot : Z,
        allocator_inv (the_allocator (with_allocator [0; 1] 2)) →
        allocated (the_allocator (with_allocator [0; 1] 2)) slot →
        _dbus_data_slot_list_get slot w' = Some (NULL, w').
Proof.
  apply (list_init_gives_empty_list
           (with_slots [0; 1] 2 [{| data := 100; free_data_func := 500 |}])).
Defined.
